(** * BUSE: the NBD dispatch loop and session set-up of [buse.c]

    A shallow embedding of [buse.c]: the byte-order helpers, [read_all] and
    [write_all], the signal handler [disconnect_nbd], the dispatch loop
    [serve_nbd] and the session orchestrator [buse_main], followed by the
    properties of the wire protocol that the program is expected to have.

    Integers are [Z] with the wrap-around of their C type written out; the
    bytes that travel on the socket are [list byte]; the kernel, the socket
    and the storage callbacks are explicit state. *)

From Stdlib Require Import ZArith List Lia Bool.
From coqutil Require Import Byte Word.LittleEndianList Z.bitblast.
Import ListNotations.
Local Open Scope Z_scope.

(* ===================================================================== *)
(** * Build configuration and machine integers                            *)
(* ===================================================================== *)

(** Byte order of the machine that runs the server. *)
Inductive byte_order : Type := LittleEndian | BigEndian.

(** What is fixed when [buse.c] is compiled: the host, and the
    preprocessor symbols the file tests with [#ifdef]. *)
Record build : Type := {
  host : byte_order;
  defined_WORDS_BIGENDIAN : bool;
  defined_NBD_FLAG_SEND_FLUSH : bool;
  defined_NBD_FLAG_SEND_TRIM : bool;
  defined_NBD_SET_FLAGS : bool
}.

Definition u32 (z : Z) : Z := z mod 2 ^ 32.
Definition u64 (z : Z) : Z := z mod 2 ^ 64.

(** Conversion to [int] (two's complement, 32 bits). *)
Definition to_int (z : Z) : Z := (z + 2 ^ 31) mod 2 ^ 32 - 2 ^ 31.

(** ** Objects in memory

    A 32- or 64-bit object occupies 4 or 8 bytes, least significant byte
    first on a little-endian host and last on a big-endian one. *)
Definition store (h : byte_order) (n : nat) (v : Z) : list byte :=
  match h with
  | LittleEndian => le_split n v
  | BigEndian => rev (le_split n v)
  end.

Definition load (h : byte_order) (bs : list byte) : Z :=
  match h with
  | LittleEndian => le_combine bs
  | BigEndian => le_combine (rev bs)
  end.

(** The big-endian ("network order") encoding used on the wire. *)
Definition be_bytes (n : nat) (v : Z) : list byte := rev (le_split n v).
Definition be_value (bs : list byte) : Z := le_combine (rev bs).

(** ** [htonl] and [ntohl] of <netinet/in.h>

    The C library swaps the four bytes on a little-endian host and does
    nothing on a big-endian one. *)
Definition bswap_32 (x : Z) : Z :=
  Z.lor (Z.lor (Z.shiftr (Z.land x 0xff000000) 24)
               (Z.shiftr (Z.land x 0x00ff0000) 8))
        (Z.lor (Z.shiftl (Z.land x 0x0000ff00) 8)
               (Z.shiftl (Z.land x 0x000000ff) 24)).

Definition ntohl (h : byte_order) (x : Z) : Z :=
  match h with
  | LittleEndian => bswap_32 x
  | BigEndian => x
  end.

Definition htonl (h : byte_order) (x : Z) : Z := ntohl h x.

(** ** [ntohll] (lines 42-55)

<<
    #ifdef WORDS_BIGENDIAN
    u_int64_t ntohll(u_int64_t a) { return a; }
    #else
    u_int64_t ntohll(u_int64_t a) {
      u_int32_t lo = a & 0xffffffff;
      u_int32_t hi = a >> 32U;
      lo = ntohl(lo);
      hi = ntohl(hi);
      return ((u_int64_t) lo) << 32U | hi;
    }
    #endif
    #define htonll ntohll
>> *)
Definition ntohll (b : build) (a : Z) : Z :=
  if defined_WORDS_BIGENDIAN b then a
  else
    let lo := u32 (Z.land a 0xffffffff) in
    let hi := u32 (Z.shiftr a 32) in
    let lo := ntohl (host b) lo in
    let hi := ntohl (host b) hi in
    u64 (Z.lor (u64 (Z.shiftl lo 32)) hi).

Definition htonll (b : build) (a : Z) : Z := ntohll b a.

(* ===================================================================== *)
(** * The NBD protocol as the kernel defines it                           *)
(* ===================================================================== *)

(** Values of <linux/nbd.h>, <errno.h> and <stdlib.h>, the system headers
    [buse.c] is compiled against. *)
Definition NBD_REQUEST_MAGIC : Z := 0x25609513.
Definition NBD_REPLY_MAGIC : Z := 0x67446698.
Definition NBD_CMD_READ : Z := 0.
Definition NBD_CMD_WRITE : Z := 1.
Definition NBD_CMD_DISC : Z := 2.
Definition NBD_CMD_FLUSH : Z := 3.
Definition NBD_CMD_TRIM : Z := 4.
Definition NBD_FLAG_SEND_TRIM : Z := 32.
Definition EPERM : Z := 1.
Definition EXIT_SUCCESS : Z := 0.
Definition EXIT_FAILURE : Z := 1.

(** The largest transfer one [read] or [write] system call performs. *)
Definition MAX_RW_COUNT : Z := 0x7ffff000.

(** [struct nbd_request], packed: magic, type, handle[8], from, len. *)
Module nbd_request.
Record t : Type := mk {
  magic : Z;
  type : Z;
  handle : list byte;
  from : Z;
  len : Z
}.
End nbd_request.

(** [struct nbd_reply]: magic, error, handle[8]. *)
Module nbd_reply.
Record t : Type := mk {
  magic : Z;
  error : Z;
  handle : list byte
}.
End nbd_reply.

Definition sizeof_nbd_request : Z := 28.
Definition sizeof_nbd_reply : Z := 16.

(** The request structure as [read] leaves it in memory: the fields are
    loaded in host order from the 28 bytes received. *)
Definition request_of_bytes (h : byte_order) (bs : list byte) : nbd_request.t :=
  {| nbd_request.magic := load h (firstn 4 bs);
     nbd_request.type := load h (firstn 4 (skipn 4 bs));
     nbd_request.handle := firstn 8 (skipn 8 bs);
     nbd_request.from := load h (firstn 8 (skipn 16 bs));
     nbd_request.len := load h (firstn 4 (skipn 24 bs)) |}.

(** The 16 bytes of the reply structure that [write_all] is given. *)
Definition bytes_of_reply (h : byte_order) (r : nbd_reply.t) : list byte :=
  store h 4 (nbd_reply.magic r) ++ store h 4 (nbd_reply.error r)
  ++ nbd_reply.handle r.

(* ===================================================================== *)
(** * The process and what surrounds it                                   *)
(* ===================================================================== *)

(** What the next [read] on the socket finds: some bytes, or an error.
    When the list is exhausted the peer has closed the socket. *)
Inductive rd_event : Type :=
| RdData (bs : list byte)
| RdError.

(** How the socket takes the next [write]: it accepts up to [room] bytes,
    or fails.  When the list is exhausted the peer is gone. *)
Inductive wr_event : Type :=
| WrAccept (room : Z)
| WrError.

(** The device-control requests of <linux/nbd.h> that [buse.c] issues. *)
Inductive ioctl_request : Type :=
| NBD_SET_BLKSIZE | NBD_SET_SIZE | NBD_SET_SIZE_BLOCKS | NBD_CLEAR_SOCK
| NBD_SET_SOCK | NBD_SET_FLAGS | NBD_DO_IT | NBD_CLEAR_QUE | NBD_DISCONNECT.

(** The two signals [buse_main] installs a handler for, and what a signal
    can be bound to. *)
Inductive signal : Type := SIGINT | SIGTERM.

Inductive disposition : Type := SIG_DFL | SIG_other | SIG_disconnect_nbd.

(** A storage callback that was invoked, with its arguments. *)
Inductive call : Type :=
| Call_read (len from : Z)
| Call_write (buf : list byte) (len from : Z)
| Call_disc
| Call_flush
| Call_trim (from len : Z).

(** Lines written to the standard error stream. *)
Inductive message : Type :=
| Msg_disconnect_failed
| Msg_disconnect_requested
| Msg_overriden_handler (sig : signal)
| Msg_request_read (len : Z)
| Msg_request_write (len : Z)
| Msg_strerror
| Msg_open_failed
| Msg_block_signals_failed
| Msg_set_sock_failed
| Msg_set_flags_failed
| Msg_terminated (err : Z)
| Msg_cleanup_failed
| Msg_signal_mask_failed
| Msg_signal_handlers_failed.

(** What the process does that can be seen from outside, in order. *)
Inductive event : Type :=
| EvRecv (bs : list byte)
| EvSend (bs : list byte)
| EvCall (c : call)
| EvStderr (m : message)
| EvIoctl (fd : Z) (req : ioctl_request) (arg : Z)
| EvClose (fd : Z).

(** The two processes [buse_main] splits into. *)
Inductive role : Type := Server | Controller.

(** The answers of the kernel, at one moment, to the system calls of
    [buse_main] and of the signal handler; [sp] is the pair of descriptors
    [socketpair] fills in.  The two processes are answered separately. *)
Record kernel : Type := {
  socketpair_result : Z;
  sp : Z * Z;
  open_rdwr_result : Z;
  open_rdonly_result : Z;
  ioctl_result : role -> ioctl_request -> Z;
  fork_result : Z;
  sigfillset_result : Z;
  sigprocmask_result : Z;
  sigemptyset_result : Z;
  sigaddset_result : signal -> Z;
  sigaction_result : signal -> Z
}.

Section Program.

(** The state behind the [userdata] pointer. *)
Context {U : Type}.

(** Modelled from the spec: [struct buse_operations] of [buse.h], which is
    not part of the sources at hand.  The spec gives the five optional
    callback slots with their signatures and the three geometry fields.
    A callback is a function of the state behind [userdata]; [read]
    returns the bytes it stored into the buffer. *)
Record buse_operations : Type := {
  read : option (list byte -> Z -> Z -> U -> list byte * Z * U);
  write : option (list byte -> Z -> Z -> U -> Z * U);
  disc : option (U -> U);
  flush : option (U -> Z * U);
  trim : option (Z -> Z -> U -> Z * U);
  blksize : Z;
  size : Z;
  size_blocks : Z
}.

(** The process and its surroundings at one moment: what the socket will
    deliver and how it will take what is written, the state behind
    [userdata], the content of fresh memory, the global
    [nbd_dev_to_disconnect], the installed signal handlers, and what has
    happened so far. *)
Record world : Type := mkWorld {
  incoming : list rd_event;
  outgoing : list wr_event;
  userdata : U;
  fresh : nat -> byte;
  nbd_dev_to_disconnect : Z;
  handler : signal -> disposition;
  trace : list event
}.

Definition emit (e : event) (w : world) : world :=
  mkWorld (incoming w) (outgoing w) (userdata w) (fresh w)
          (nbd_dev_to_disconnect w) (handler w) (trace w ++ [e]).

Definition set_incoming (i : list rd_event) (w : world) : world :=
  mkWorld i (outgoing w) (userdata w) (fresh w)
          (nbd_dev_to_disconnect w) (handler w) (trace w).

Definition set_outgoing (o : list wr_event) (w : world) : world :=
  mkWorld (incoming w) o (userdata w) (fresh w)
          (nbd_dev_to_disconnect w) (handler w) (trace w).

Definition set_userdata (u : U) (w : world) : world :=
  mkWorld (incoming w) (outgoing w) u (fresh w)
          (nbd_dev_to_disconnect w) (handler w) (trace w).

Definition set_nbd_dev_to_disconnect (d : Z) (w : world) : world :=
  mkWorld (incoming w) (outgoing w) (userdata w) (fresh w)
          d (handler w) (trace w).

Definition set_handler (s : signal) (d : disposition) (w : world) : world :=
  mkWorld (incoming w) (outgoing w) (userdata w) (fresh w)
          (nbd_dev_to_disconnect w)
          (fun s' => match s, s' with
                     | SIGINT, SIGINT | SIGTERM, SIGTERM => d
                     | _, _ => handler w s'
                     end)
          (trace w).

(** How a piece of the program ends: it runs to completion with a value,
    it aborts on a failed assertion, or it calls [exit].  [OutOfFuel] is
    the answer of a loop of the model whose bound on the number of turns
    was too small; the bounds used below are never too small. *)
Inductive result (A : Type) : Type :=
| Done (a : A) (w : world)
| Aborted (w : world)
| Exited (code : Z) (w : world)
| OutOfFuel.

Arguments Done {A} a w.
Arguments Aborted {A} w.
Arguments Exited {A} code w.
Arguments OutOfFuel {A}.

Definition bind {A B : Type} (m : result A) (k : A -> world -> result B)
  : result B :=
  match m with
  | Done a w => k a w
  | Aborted w => Aborted w
  | Exited c w => Exited c w
  | OutOfFuel => OutOfFuel
  end.

(** [assert(c)]: the process aborts when [c] is false. *)
Definition assert (c : bool) (w : world) : result unit :=
  if c then Done tt w else Aborted w.

(** ** The socket *)

(** [read(sk, buf, count)]: the return value, the bytes stored at [buf],
    and the world afterwards. *)
Definition sock_read (count : Z) (w : world) : Z * list byte * world :=
  match incoming w with
  | [] => (0, [], w)
  | RdError :: rest => (-1, [], set_incoming rest w)
  | RdData bs :: rest =>
      let room := Z.min count MAX_RW_COUNT in
      if Z.of_nat (length bs) <=? room
      then (Z.of_nat (length bs), bs,
            emit (EvRecv bs) (set_incoming rest w))
      else (room, firstn (Z.to_nat room) bs,
            emit (EvRecv (firstn (Z.to_nat room) bs))
                 (set_incoming (RdData (skipn (Z.to_nat room) bs) :: rest) w))
  end.

(** [write(sk, buf, count)]: the return value and the world afterwards. *)
Definition sock_write (buf : list byte) (count : Z) (w : world) : Z * world :=
  match outgoing w with
  | [] => (-1, w)
  | WrError :: rest => (-1, set_outgoing rest w)
  | WrAccept room :: rest =>
      let n := Z.max 0 (Z.min (Z.min count room) MAX_RW_COUNT) in
      (n, emit (EvSend (firstn (Z.to_nat n) buf)) (set_outgoing rest w))
  end.

(** [malloc(len)]: [len] bytes of whatever the heap holds.  The
    allocation is taken to succeed. *)
Definition malloc (w : world) (len : Z) : list byte :=
  map (fresh w) (seq 0 (Z.to_nat len)).

(** The buffer after a callback stored [data] at its start. *)
Definition fill (chunk data : list byte) : list byte :=
  firstn (length chunk) (data ++ skipn (length data) chunk).

(** ** [read_all] (lines 57-70)

<<
    while (count > 0) {
      bytes_read = read(fd, buf, count);
      assert(bytes_read > 0);
      buf += bytes_read;
      count -= bytes_read;
    }
    assert(count == 0);
    return 0;
>>
    [bytes_read] is an [int].  The result is the content of the buffer.
    Every turn that does not abort takes at least one byte, so [count]
    turns are enough. *)
Fixpoint read_all_loop (fuel : nat) (buf : list byte) (count : Z) (w : world)
  : result (list byte) :=
  if count >? 0 then
    match fuel with
    | O => OutOfFuel
    | S fuel' =>
        let '(n, bs, w1) := sock_read count w in
        let bytes_read := to_int n in
        if bytes_read >? 0
        then read_all_loop fuel' (buf ++ bs) (count - bytes_read) w1
        else Aborted w1
    end
  else bind (assert (count =? 0) w) (fun _ w => Done buf w).

Definition read_all (count : Z) (w : world) : result (list byte) :=
  read_all_loop (Z.to_nat count) [] count w.

(** ** [write_all] (lines 72-85), the same loop around [write]. *)
Fixpoint write_all_loop (fuel : nat) (buf : list byte) (count : Z) (w : world)
  : result unit :=
  if count >? 0 then
    match fuel with
    | O => OutOfFuel
    | S fuel' =>
        let '(n, w1) := sock_write buf count w in
        let bytes_written := to_int n in
        if bytes_written >? 0
        then write_all_loop fuel' (skipn (Z.to_nat bytes_written) buf)
                            (count - bytes_written) w1
        else Aborted w1
    end
  else bind (assert (count =? 0) w) (fun _ w => Done tt w).

Definition write_all (buf : list byte) (count : Z) (w : world) : result unit :=
  write_all_loop (Z.to_nat count) buf count w.

(** One [ioctl] on the device, answered by the kernel. *)
Definition ioctl (k : kernel) (who : role) (fd : Z) (req : ioctl_request)
  (arg : Z) (w : world) : Z * world :=
  (ioctl_result k who req, emit (EvIoctl fd req arg) w).

(** ** [disconnect_nbd] (lines 87-99), the signal handler

<<
    static int nbd_dev_to_disconnect = -1;
    static void disconnect_nbd(int signal) {
      (void)signal;
      if (nbd_dev_to_disconnect != -1) {
        if(ioctl(nbd_dev_to_disconnect, NBD_DISCONNECT) == -1) {
          warn("failed to request disconect on nbd device");
        } else {
          nbd_dev_to_disconnect = -1;
          fprintf(stderr, "sucessfuly requested disconnect on nbd device\n");
        }
      }
    }
>> *)
Definition disconnect_nbd (k : kernel) (sig : signal) (w : world) : world :=
  if negb (nbd_dev_to_disconnect w =? -1) then
    let '(r, w) := ioctl k Server (nbd_dev_to_disconnect w) NBD_DISCONNECT 0 w in
    if r =? -1
    then emit (EvStderr Msg_disconnect_failed) w
    else emit (EvStderr Msg_disconnect_requested)
              (set_nbd_dev_to_disconnect (-1) w)
  else w.

(** ** [set_sigaction] (lines 101-109) *)
Definition set_sigaction (k : kernel) (sig : signal) (act : disposition)
  (w : world) : Z * world :=
  let r := sigaction_result k sig in
  let oact := handler w sig in
  let w := if r =? 0 then set_handler sig act w else w in
  if (r =? 0) && negb (match oact with SIG_DFL => true | _ => false end)
  then (r, emit (EvStderr (Msg_overriden_handler sig)) w)
  else (r, w).

(** ** [serve_nbd] (lines 111-197) *)

(** What one turn of the loop decides. *)
Inductive turn : Type :=
| Continue
| Return (code : Z).

(** The body of the [while] loop, from [memcpy] to the end of the
    [switch], for the request structure just read. *)
Definition serve_request (b : build) (aop : buse_operations)
  (request : nbd_request.t) (w : world) : result turn :=
  let h := host b in
  let reply :=
    nbd_reply.mk (htonl h NBD_REPLY_MAGIC) (htonl h 0)
                 (nbd_request.handle request) in
  let len := ntohl h (nbd_request.len request) in
  let from := ntohll b (nbd_request.from request) in
  bind (assert (nbd_request.magic request =? htonl h NBD_REQUEST_MAGIC) w)
  (fun _ w =>
  let ty := ntohl h (nbd_request.type request) in
  if ty =? NBD_CMD_READ then
    let w := emit (EvStderr (Msg_request_read len)) w in
    let chunk := malloc w len in
    let '(chunk, error, w) :=
      match read aop with
      | Some f =>
          let '(data, status, u) := f chunk len from (userdata w) in
          (fill chunk data, u32 status,
           set_userdata u (emit (EvCall (Call_read len from)) w))
      | None => (chunk, htonl h EPERM, w)
      end in
    let reply := nbd_reply.mk (nbd_reply.magic reply) error
                              (nbd_reply.handle reply) in
    bind (write_all (bytes_of_reply h reply) sizeof_nbd_reply w) (fun _ w =>
    bind (write_all chunk len w) (fun _ w =>
    Done Continue w))
  else if ty =? NBD_CMD_WRITE then
    let w := emit (EvStderr (Msg_request_write len)) w in
    bind (read_all len w) (fun chunk w =>
    let '(error, w) :=
      match write aop with
      | Some f =>
          let '(status, u) := f chunk len from (userdata w) in
          (u32 status,
           set_userdata u (emit (EvCall (Call_write chunk len from)) w))
      | None => (htonl h EPERM, w)
      end in
    let reply := nbd_reply.mk (nbd_reply.magic reply) error
                              (nbd_reply.handle reply) in
    bind (write_all (bytes_of_reply h reply) sizeof_nbd_reply w) (fun _ w =>
    Done Continue w))
  else if ty =? NBD_CMD_DISC then
    let w :=
      match disc aop with
      | Some f => set_userdata (f (userdata w)) (emit (EvCall Call_disc) w)
      | None => w
      end in
    Done (Return EXIT_SUCCESS) w
  else if defined_NBD_FLAG_SEND_FLUSH b && (ty =? NBD_CMD_FLUSH) then
    let '(error, w) :=
      match flush aop with
      | Some f =>
          let '(status, u) := f (userdata w) in
          (u32 status, set_userdata u (emit (EvCall Call_flush) w))
      | None => (nbd_reply.error reply, w)
      end in
    let reply := nbd_reply.mk (nbd_reply.magic reply) error
                              (nbd_reply.handle reply) in
    bind (write_all (bytes_of_reply h reply) sizeof_nbd_reply w) (fun _ w =>
    Done Continue w)
  else if defined_NBD_FLAG_SEND_TRIM b && (ty =? NBD_CMD_TRIM) then
    let '(error, w) :=
      match trim aop with
      | Some f =>
          let '(status, u) := f from len (userdata w) in
          (u32 status, set_userdata u (emit (EvCall (Call_trim from len)) w))
      | None => (nbd_reply.error reply, w)
      end in
    let reply := nbd_reply.mk (nbd_reply.magic reply) error
                              (nbd_reply.handle reply) in
    bind (write_all (bytes_of_reply h reply) sizeof_nbd_reply w) (fun _ w =>
    Done Continue w)
  else
    (* default: assert(0) *)
    Aborted w).

(** The [while] loop with what follows it.  [fuel] bounds the number of
    turns. *)
Fixpoint serve_loop (fuel : nat) (b : build) (aop : buse_operations)
  (w : world) : result Z :=
  match fuel with
  | O => OutOfFuel
  | S fuel' =>
      let '(bytes_read, buf, w) := sock_read sizeof_nbd_request w in
      if bytes_read >? 0 then
        bind (assert (bytes_read =? sizeof_nbd_request) w) (fun _ w =>
        bind (serve_request b aop (request_of_bytes (host b) buf) w)
        (fun t w =>
        match t with
        | Continue => serve_loop fuel' b aop w
        | Return code => Done code w
        end))
      else if bytes_read =? -1
      then Done EXIT_FAILURE (emit (EvStderr Msg_strerror) w)
      else Done EXIT_SUCCESS w
  end.

(** Every turn takes at least one entry or one byte off what the socket
    still has to deliver; this many turns are therefore enough. *)
Fixpoint weight (i : list rd_event) : nat :=
  match i with
  | [] => 0
  | RdData bs :: rest => S (length bs + weight rest)
  | RdError :: rest => S (weight rest)
  end.

Definition serve_nbd (sk : Z) (b : build) (aop : buse_operations)
  (w : world) : result Z :=
  serve_loop (S (weight (incoming w))) b aop w.

(** ** [buse_main] (lines 199-310) *)

(** The child of the [fork]: lines 233-274. *)
Definition controller (b : build) (k : kernel) (nbd : Z) (w : world)
  : result Z :=
  if negb (sigfillset_result k =? 0) || negb (sigprocmask_result k =? 0)
  then Exited EXIT_FAILURE (emit (EvStderr Msg_block_signals_failed) w)
  else
    let w := emit (EvClose (fst (sp k))) w in
    let sk := snd (sp k) in
    let cleanup (w : world) : result Z :=
      let '(r, w) := ioctl k Controller nbd NBD_CLEAR_QUE 0 w in
      if r =? -1
      then Exited EXIT_FAILURE (emit (EvStderr Msg_cleanup_failed) w)
      else
        let '(r, w) := ioctl k Controller nbd NBD_CLEAR_SOCK 0 w in
        if r =? -1
        then Exited EXIT_FAILURE (emit (EvStderr Msg_cleanup_failed) w)
        else Exited 0 w in
    let do_it (w : world) : result Z :=
      let '(err, w) := ioctl k Controller nbd NBD_DO_IT 0 w in
      let w := emit (EvStderr (Msg_terminated err)) w in
      if err =? -1
      then Exited EXIT_FAILURE (emit (EvStderr Msg_strerror) w)
      else cleanup w in
    let '(r, w) := ioctl k Controller nbd NBD_SET_SOCK sk w in
    if r =? -1
    then Exited EXIT_FAILURE (emit (EvStderr Msg_set_sock_failed) w)
    else if defined_NBD_SET_FLAGS b && defined_NBD_FLAG_SEND_TRIM b then
      let '(r, w) :=
        ioctl k Controller nbd NBD_SET_FLAGS NBD_FLAG_SEND_TRIM w in
      if r =? -1
      then cleanup (emit (EvStderr Msg_set_flags_failed) w)
      else do_it w
    else do_it w.

(** The parent after the [fork]: lines 277-309. *)
Definition server (b : build) (k : kernel) (aop : buse_operations)
  (nbd : Z) (w : world) : result Z :=
  bind (assert (nbd_dev_to_disconnect w =? -1) w) (fun _ w =>
  let w := set_nbd_dev_to_disconnect nbd w in
  if negb (sigemptyset_result k =? 0)
     || negb (sigaddset_result k SIGINT =? 0)
     || negb (sigaddset_result k SIGTERM =? 0)
  then Done EXIT_FAILURE (emit (EvStderr Msg_signal_mask_failed) w)
  else
    let '(r, w) := set_sigaction k SIGINT SIG_disconnect_nbd w in
    if negb (r =? 0)
    then Done EXIT_FAILURE (emit (EvStderr Msg_signal_handlers_failed) w)
    else
      let '(r, w) := set_sigaction k SIGTERM SIG_disconnect_nbd w in
      if negb (r =? 0)
      then Done EXIT_FAILURE (emit (EvStderr Msg_signal_handlers_failed) w)
      else
        let tmp_fd := open_rdonly_result k in
        bind (assert (negb (tmp_fd =? -1)) w) (fun _ w =>
        let w := emit (EvClose tmp_fd) w in
        let w := emit (EvClose (snd (sp k))) w in
        serve_nbd (fst (sp k)) b aop w)).

(** A geometry request, issued only for a nonzero field; failure aborts. *)
Definition configure (k : kernel) (nbd : Z) (req : ioctl_request) (v : Z)
  (w : world) : result unit :=
  if negb (v =? 0) then
    let '(err, w) := ioctl k Server nbd req v w in
    assert (negb (err =? -1)) w
  else Done tt w.

Definition buse_main (b : build) (k : kernel) (aop : buse_operations)
  (w : world) : result Z :=
  let err := socketpair_result k in
  bind (assert (err =? 0) w) (fun _ w =>
  let nbd := open_rdwr_result k in
  if nbd =? -1 then Done 1 (emit (EvStderr Msg_open_failed) w)
  else
    bind (configure k nbd NBD_SET_BLKSIZE (blksize aop) w) (fun _ w =>
    bind (configure k nbd NBD_SET_SIZE (size aop) w) (fun _ w =>
    bind (configure k nbd NBD_SET_SIZE_BLOCKS (size_blocks aop) w) (fun _ w =>
    let '(err, w) := ioctl k Server nbd NBD_CLEAR_SOCK 0 w in
    bind (assert (negb (err =? -1)) w) (fun _ w =>
    if fork_result k =? 0
    then controller b k nbd w
    else server b k aop nbd w))))).

(** ** Reading a trace and a header *)

(** The bytes the socket still has to deliver. *)
Fixpoint pending (i : list rd_event) : list byte :=
  match i with
  | [] => []
  | RdData bs :: rest => bs ++ pending rest
  | RdError :: rest => pending rest
  end.

(** The bytes taken from the socket, the bytes put on it, and the
    callbacks invoked, in the order of the trace. *)
Fixpoint received (t : list event) : list byte :=
  match t with
  | [] => []
  | EvRecv bs :: t => bs ++ received t
  | _ :: t => received t
  end.

Fixpoint sent (t : list event) : list byte :=
  match t with
  | [] => []
  | EvSend bs :: t => bs ++ sent t
  | _ :: t => sent t
  end.

Fixpoint calls (t : list event) : list call :=
  match t with
  | [] => []
  | EvCall c :: t => c :: calls t
  | _ :: t => calls t
  end.

(** [w'] differs from [w] by socket input only, or by socket output only. *)
Definition input_only (w w' : world) : Prop :=
  outgoing w' = outgoing w /\ userdata w' = userdata w /\
  fresh w' = fresh w /\ nbd_dev_to_disconnect w' = nbd_dev_to_disconnect w /\
  handler w' = handler w.

Definition output_only (w w' : world) : Prop :=
  incoming w' = incoming w /\ userdata w' = userdata w /\
  fresh w' = fresh w /\ nbd_dev_to_disconnect w' = nbd_dev_to_disconnect w /\
  handler w' = handler w.

End Program.

Arguments buse_operations U : clear implicits.
Arguments world U : clear implicits.
Arguments result U A : clear implicits.
Arguments Done {U A} a w.
Arguments Aborted {U A} w.
Arguments Exited {U A} code w.
Arguments OutOfFuel {U A}.

(** ** The fields of a request and of a reply as they are on the wire *)

Definition wire_magic (hdr : list byte) : Z := be_value (firstn 4 hdr).
Definition wire_type (hdr : list byte) : Z := be_value (firstn 4 (skipn 4 hdr)).
Definition wire_handle (hdr : list byte) : list byte := firstn 8 (skipn 8 hdr).
Definition wire_len (hdr : list byte) : Z := be_value (firstn 4 (skipn 24 hdr)).

(** The status field of a reply, bytes 4 to 7, as the peer decodes it. *)
Definition wire_status (rep : list byte) : Z := be_value (firstn 4 (skipn 4 rep)).

(** The offset as [serve_nbd] computes it from the header. *)
Definition request_from (b : build) (hdr : list byte) : Z :=
  ntohll b (load (host b) (firstn 8 (skipn 16 hdr))).

(** A build is coherent when [WORDS_BIGENDIAN] is defined exactly on
    big-endian hosts. *)
Definition coherent (b : build) : Prop :=
  defined_WORDS_BIGENDIAN b = match host b with
                              | BigEndian => true
                              | LittleEndian => false
                              end.

(** The reply structure [serve_nbd] holds for the request [hdr] once the
    status is known: the magic, the status, and the handle copied from
    the request. *)
Definition reply_with (h : byte_order) (hdr : list byte) (status : Z)
  : nbd_reply.t :=
  nbd_reply.mk (htonl h NBD_REPLY_MAGIC) status (wire_handle hdr).

(** The command types the [switch] of [serve_nbd] has a case for. *)
Definition known_type (b : build) (ty : Z) : bool :=
  (ty =? NBD_CMD_READ) || (ty =? NBD_CMD_WRITE) || (ty =? NBD_CMD_DISC)
  || (defined_NBD_FLAG_SEND_FLUSH b && (ty =? NBD_CMD_FLUSH))
  || (defined_NBD_FLAG_SEND_TRIM b && (ty =? NBD_CMD_TRIM)).

(* ===================================================================== *)
(** * Concrete sessions                                                   *)
(* ===================================================================== *)

(** A request header as the kernel puts it on the socket. *)
Definition kernel_request (ty : Z) (handle : list byte) (from len : Z)
  : list byte :=
  be_bytes 4 NBD_REQUEST_MAGIC ++ be_bytes 4 ty ++ handle
  ++ be_bytes 8 from ++ be_bytes 4 len.

(** An x86-64 Linux build: little-endian, every feature macro defined. *)
Definition linux_x86_64 : build :=
  {| host := LittleEndian;
     defined_WORDS_BIGENDIAN := false;
     defined_NBD_FLAG_SEND_FLUSH := true;
     defined_NBD_FLAG_SEND_TRIM := true;
     defined_NBD_SET_FLAGS := true |}.

(** A big-endian build with [WORDS_BIGENDIAN] defined. *)
Definition linux_s390x : build :=
  {| host := BigEndian;
     defined_WORDS_BIGENDIAN := true;
     defined_NBD_FLAG_SEND_FLUSH := true;
     defined_NBD_FLAG_SEND_TRIM := true;
     defined_NBD_SET_FLAGS := true |}.

Definition handle_H : list byte :=
  map byte.of_Z [0x11; 0x22; 0x33; 0x44; 0x55; 0x66; 0x77; 0x88].

(** A backend that records what it is asked to write and answers every
    operation with the status it was built with. *)
Definition recording_ops (status : Z) : buse_operations (list (list byte)) :=
  {| read := Some (fun _ len _ u => (repeat (byte.of_Z 0xab) (Z.to_nat len), status, u));
     write := Some (fun buf _ _ u => (status, buf :: u));
     disc := Some (fun u => u);
     flush := Some (fun u => (status, u));
     trim := Some (fun _ _ u => (status, u));
     blksize := 512;
     size := 1048576;
     size_blocks := 0 |}.

(** A backend with no callback at all. *)
Definition no_ops : buse_operations (list (list byte)) :=
  {| read := None; write := None; disc := None; flush := None; trim := None;
     blksize := 0; size := 0; size_blocks := 0 |}.

(** A process at the start of [serve_nbd], with the given socket. *)
Definition session (i : list rd_event) (o : list wr_event)
  : world (list (list byte)) :=
  mkWorld i o [] (fun _ => byte.of_Z 0) (-1) (fun _ => SIG_DFL) [].

Definition payload_1234 : list byte := map byte.of_Z [1; 2; 3; 4].

(** A request is answered when all that goes on the socket while it is
    served is the image of [reply_with] for some status, followed by some
    payload: the whole of it when the turn completes, a proper prefix of
    it when the process aborts on the way. *)
Definition answered {U : Type} (b : build) (hdr : list byte) (w : world U)
  (run : result U turn) : Prop :=
  exists status payload w',
    let reply := bytes_of_reply (host b) (reply_with (host b) hdr status) in
    (weight (incoming w') <= weight (incoming w))%nat /\
    ((run = Done Continue w' /\
      sent (trace w') = sent (trace w) ++ reply ++ payload) \/
     (run = Aborted w' /\
      exists rest, rest <> [] /\
        sent (trace w) ++ reply ++ payload = sent (trace w') ++ rest)).

(* ===================================================================== *)
(** * The wire codec and the disconnect state as the design states them   *)
(* ===================================================================== *)

(** The request with its integer fields converted to host values, by the
    conversions [serve_nbd] applies ([ntohl], [ntohll]). *)
Definition decode_request (b : build) (hdr : list byte) : nbd_request.t :=
  let r := request_of_bytes (host b) hdr in
  nbd_request.mk (ntohl (host b) (nbd_request.magic r))
                 (ntohl (host b) (nbd_request.type r))
                 (nbd_request.handle r)
                 (ntohll b (nbd_request.from r))
                 (ntohl (host b) (nbd_request.len r)).

(** The way back: [htonl] and [htonll] on the fields, and the structure
    as it lies in memory. *)
Definition encode_request (b : build) (r : nbd_request.t) : list byte :=
  store (host b) 4 (htonl (host b) (nbd_request.magic r))
  ++ store (host b) 4 (htonl (host b) (nbd_request.type r))
  ++ nbd_request.handle r
  ++ store (host b) 8 (htonll b (nbd_request.from r))
  ++ store (host b) 4 (htonl (host b) (nbd_request.len r)).

(** The disconnect state of the design: no active device, or the handle
    of the active one. *)
Inductive disconnect_state : Type :=
| Inactive
| Active (handle : Z).

(** The state the global [nbd_dev_to_disconnect] stands for. *)
Definition state_of {U : Type} (w : world U) : disconnect_state :=
  if nbd_dev_to_disconnect w =? -1 then Inactive
  else Active (nbd_dev_to_disconnect w).

(** The handler as the design describes it: from [Active] it goes to
    [Inactive] if the disconnect request succeeds and stays where it is if
    the request fails; from [Inactive] it does nothing. *)
Definition handler_transition (st : disconnect_state) (request_succeeds : bool)
  : disconnect_state :=
  match st with
  | Inactive => Inactive
  | Active handle => if request_succeeds then Inactive else Active handle
  end.

(** What the handler does to the outside world, by the same description. *)
Definition handler_actions (st : disconnect_state) (request_succeeds : bool)
  : list event :=
  match st with
  | Inactive => []
  | Active handle =>
      [EvIoctl handle NBD_DISCONNECT 0;
       EvStderr (if request_succeeds then Msg_disconnect_requested
                 else Msg_disconnect_failed)]
  end.

(** A kernel in which every call succeeds; [fork] returns in the parent. *)
Definition willing_kernel : kernel :=
  {| socketpair_result := 0;
     sp := (3, 4);
     open_rdwr_result := 5;
     open_rdonly_result := 6;
     ioctl_result := fun _ _ => 0;
     fork_result := 1234;
     sigfillset_result := 0;
     sigprocmask_result := 0;
     sigemptyset_result := 0;
     sigaddset_result := fun _ => 0;
     sigaction_result := fun _ => 0 |}.

(** The same kernel, except that the device cannot be opened. *)
Definition kernel_without_device : kernel :=
  {| socketpair_result := 0;
     sp := (3, 4);
     open_rdwr_result := -1;
     open_rdonly_result := -1;
     ioctl_result := fun _ _ => 0;
     fork_result := 1234;
     sigfillset_result := 0;
     sigprocmask_result := 0;
     sigemptyset_result := 0;
     sigaddset_result := fun _ => 0;
     sigaction_result := fun _ => 0 |}.

(** A kernel that refuses the disconnect request. *)
Definition kernel_refusing_disconnect : kernel :=
  {| socketpair_result := 0;
     sp := (3, 4);
     open_rdwr_result := 5;
     open_rdonly_result := 6;
     ioctl_result := fun _ req =>
                       match req with NBD_DISCONNECT => -1 | _ => 0 end;
     fork_result := 1234;
     sigfillset_result := 0;
     sigprocmask_result := 0;
     sigemptyset_result := 0;
     sigaddset_result := fun _ => 0;
     sigaction_result := fun _ => 0 |}.

(** A process in which an earlier session left descriptor 5 recorded. *)
Definition stale_session : world (list (list byte)) :=
  mkWorld [] [] [] (fun _ => byte.of_Z 0) 5 (fun _ => SIG_disconnect_nbd) [].

(* ===================================================================== *)
(** * Measures of the socket and projections of the trace                 *)
(* ===================================================================== *)

(** The number of bytes successive [read]s obtain before one of them
    returns 0 or -1. *)
Fixpoint available (i : list rd_event) : Z :=
  match i with
  | RdData (b :: bs) :: rest => Z.of_nat (length (b :: bs)) + available rest
  | _ => 0
  end.

(** The number of bytes successive [write]s can place before one of them
    returns 0 or -1. *)
Fixpoint room_ahead (o : list wr_event) : Z :=
  match o with
  | WrAccept room :: rest =>
      if room >? 0 then Z.min room MAX_RW_COUNT + room_ahead rest else 0
  | _ => 0
  end.

(** The output side of the socket once successive [write]s have placed
    [count] bytes on it.  Every [write] uses up one entry of the script,
    whether or not it fills the room the entry offers. *)
Fixpoint room_after (count : Z) (o : list wr_event) {struct o}
  : list wr_event :=
  if count <=? 0 then o
  else match o with
       | WrAccept room :: rest =>
           let n := Z.max 0 (Z.min (Z.min count room) MAX_RW_COUNT) in
           if n >? 0 then room_after (count - n) rest else o
       | _ => o
       end.

(** What the socket has to provide for the turn of a request that is
    replied to: a READ needs room for the 16 bytes of the reply and then
    for the [len] bytes of the buffer; a WRITE needs the [len] bytes of
    payload and room for the reply; FLUSH and TRIM need room for the
    reply. *)
Definition turn_completes (hdr : list byte)
  (i : list rd_event) (o : list wr_event) : bool :=
  let ty := wire_type hdr in
  let len := wire_len hdr in
  if ty =? NBD_CMD_READ then
    (sizeof_nbd_reply <=? room_ahead o)
    && (len <=? room_ahead (room_after sizeof_nbd_reply o))
  else if ty =? NBD_CMD_WRITE then
    (len <=? available i) && (sizeof_nbd_reply <=? room_ahead o)
  else sizeof_nbd_reply <=? room_ahead o.

(** What the callback registered for the request [hdr] returns when
    [serve_nbd] invokes it in the world [w], if one is registered: [read]
    on the fresh buffer, [write] on the next [len] bytes of the socket,
    [flush], or [trim]. *)
Definition callback_answer {U : Type} (b : build) (aop : buse_operations U)
  (hdr : list byte) (w : world U) : option Z :=
  let ty := wire_type hdr in
  let len := wire_len hdr in
  let from := request_from b hdr in
  let u := userdata w in
  if ty =? NBD_CMD_READ then
    option_map (fun f => snd (fst (f (malloc w len) len from u))) (read aop)
  else if ty =? NBD_CMD_WRITE then
    option_map
      (fun f => fst (f (firstn (Z.to_nat len) (pending (incoming w))) len from u))
      (write aop)
  else if ty =? NBD_CMD_FLUSH then option_map (fun f => fst (f u)) (flush aop)
  else if ty =? NBD_CMD_TRIM then
    option_map (fun f => fst (f from len u)) (trim aop)
  else None.

(** The [error] field of the reply to the request [hdr]: what the
    callback returned, as a 32-bit value; without a callback,
    [htonl(EPERM)] for READ and WRITE and [htonl(0)] for FLUSH and TRIM. *)
Definition reply_error {U : Type} (b : build) (aop : buse_operations U)
  (hdr : list byte) (w : world U) : Z :=
  match callback_answer b aop hdr w with
  | Some status => u32 status
  | None =>
      if (wire_type hdr =? NBD_CMD_READ) || (wire_type hdr =? NBD_CMD_WRITE)
      then htonl (host b) EPERM
      else htonl (host b) 0
  end.

(** The bytes that follow the reply structure: the buffer of a READ, as
    the callback left it, and nothing for the other requests. *)
Definition reply_payload {U : Type} (b : build) (aop : buse_operations U)
  (hdr : list byte) (w : world U) : list byte :=
  let len := wire_len hdr in
  if wire_type hdr =? NBD_CMD_READ then
    match read aop with
    | Some f =>
        fill (malloc w len)
             (fst (fst (f (malloc w len) len (request_from b hdr) (userdata w))))
    | None => malloc w len
    end
  else [].

(** The turn of the request [hdr] is settled by the socket: when the
    socket provides what the turn needs, the turn completes having sent
    the reply structure with its [error] field and the payload after it,
    and nothing else; when it does not, the process aborts having sent a
    proper prefix of them. *)
Definition settled {U : Type} (b : build) (aop : buse_operations U)
  (hdr : list byte) (w : world U) (run : result U turn) : Prop :=
  let reply :=
    bytes_of_reply (host b)
      (reply_with (host b) hdr (reply_error b aop hdr w)) in
  let out := reply ++ reply_payload b aop hdr w in
  exists w',
    if turn_completes hdr (incoming w) (outgoing w)
    then run = Done Continue w' /\ sent (trace w') = sent (trace w) ++ out
    else run = Aborted w' /\
         exists rest, rest <> [] /\
           sent (trace w) ++ out = sent (trace w') ++ rest.

(** [i'] is what is left of [i] after some [read]s: entries taken off the
    front, the first one possibly in part. *)
Inductive later : list rd_event -> list rd_event -> Prop :=
| later_refl i : later i i
| later_pop e i i' : later i i' -> later (e :: i) i'
| later_trim bs n rest i' :
    later (RdData (skipn n bs) :: rest) i' -> later (RdData bs :: rest) i'.

(** The device-control requests in a trace, in order. *)
Fixpoint ioctls (t : list event) : list (Z * ioctl_request * Z) :=
  match t with
  | [] => []
  | EvIoctl fd req arg :: t => (fd, req, arg) :: ioctls t
  | _ :: t => ioctls t
  end.

(** The descriptors closed in a trace, in order. *)
Fixpoint closed (t : list event) : list Z :=
  match t with
  | [] => []
  | EvClose fd :: t => fd :: closed t
  | _ :: t => closed t
  end.

(** The part of the process that only [buse_main] and the signal handler
    may change: the recorded device and the signal handlers. *)
Definition same_disconnect_state {U : Type} (w w' : world U) : Prop :=
  nbd_dev_to_disconnect w' = nbd_dev_to_disconnect w /\
  handler w' = handler w.

(** What serving requests leaves as it was, and how it moves through the
    input: the disconnect state, the heap, and a socket that only ever
    advances. *)
Definition kept {U : Type} (w w' : world U) : Prop :=
  same_disconnect_state w w' /\ fresh w' = fresh w /\
  later (incoming w) (incoming w').

(** How serving one request ends: the turn completes and the loop goes
    on, or it is the DISCONNECT that ends the session with
    [EXIT_SUCCESS], or the process aborts; [exit] is never called, and in
    every case the world is [kept]. *)
Definition turn_ends {U : Type} (w : world U) (r : result U turn) : Prop :=
  match r with
  | Done t w' => (t = Continue \/ t = Return EXIT_SUCCESS) /\ kept w w'
  | Aborted w' => kept w w'
  | _ => False
  end.

(** The handler run for a sequence of signals, each finding the kernel in
    some disposition. *)
Definition signals_delivered {U : Type} (ks : list (kernel * signal))
  (w : world U) : world U :=
  fold_left (fun w ks => disconnect_nbd (fst ks) (snd ks) w) ks w.

(** A kernel too old for [NBD_SET_FLAGS]; [fork] returns in the child. *)
Definition kernel_refusing_flags : kernel :=
  {| socketpair_result := 0;
     sp := (3, 4);
     open_rdwr_result := 5;
     open_rdonly_result := 6;
     ioctl_result := fun _ req =>
                       match req with NBD_SET_FLAGS => -1 | _ => 0 end;
     fork_result := 0;
     sigfillset_result := 0;
     sigprocmask_result := 0;
     sigemptyset_result := 0;
     sigaddset_result := fun _ => 0;
     sigaction_result := fun _ => 0 |}.

(** A kernel that refuses the size of the device. *)
Definition kernel_refusing_size : kernel :=
  {| socketpair_result := 0;
     sp := (3, 4);
     open_rdwr_result := 5;
     open_rdonly_result := 6;
     ioctl_result := fun _ req =>
                       match req with NBD_SET_SIZE => -1 | _ => 0 end;
     fork_result := 1234;
     sigfillset_result := 0;
     sigprocmask_result := 0;
     sigemptyset_result := 0;
     sigaddset_result := fun _ => 0;
     sigaction_result := fun _ => 0 |}.

(** The geometry requests [buse_main] issues for an operation table: one
    for each field that is not zero, block size first. *)
Definition geometry_requests {U : Type} (aop : buse_operations U) (nbd : Z)
  : list (Z * ioctl_request * Z) :=
  (if blksize aop =? 0 then [] else [(nbd, NBD_SET_BLKSIZE, blksize aop)])
  ++ (if size aop =? 0 then [] else [(nbd, NBD_SET_SIZE, size aop)])
  ++ (if size_blocks aop =? 0 then []
      else [(nbd, NBD_SET_SIZE_BLOCKS, size_blocks aop)]).

(** A kernel that refuses the handler for SIGTERM. *)
Definition kernel_refusing_sigterm : kernel :=
  {| socketpair_result := 0;
     sp := (3, 4);
     open_rdwr_result := 5;
     open_rdonly_result := 6;
     ioctl_result := fun _ _ => 0;
     fork_result := 1234;
     sigfillset_result := 0;
     sigprocmask_result := 0;
     sigemptyset_result := 0;
     sigaddset_result := fun _ => 0;
     sigaction_result := fun s => match s with SIGTERM => -1 | SIGINT => 0 end |}.
(* ===================================================================== *)
(** * Byte-order lemmas                                                   *)
(* ===================================================================== *)

(** The masks of [bswap_32], written as shifted runs of ones. *)
Lemma bswap_32_masks x :
  bswap_32 x =
  Z.lor (Z.lor (Z.shiftr (Z.land x (Z.shiftl (Z.ones 8) 24)) 24)
               (Z.shiftr (Z.land x (Z.shiftl (Z.ones 8) 16)) 8))
        (Z.lor (Z.shiftl (Z.land x (Z.shiftl (Z.ones 8) 8)) 8)
               (Z.shiftl (Z.land x (Z.ones 8)) 24)).
Proof. reflexivity. Qed.

(** Swapping the bytes of a word is reading its little-endian image as a
    big-endian number. *)
Lemma bswap_32_bytes x : bswap_32 x = le_combine (rev (le_split 4 x)).
Proof.
  rewrite bswap_32_masks. cbv [le_split rev app le_combine].
  rewrite !byte.unsigned_of_Z. unfold byte.wrap.
  rewrite <- !Z.land_ones by lia. rewrite !Z.shiftr_shiftr by lia.
  cbn [Z.add Pos.add Pos.succ].
  Z.bitblast; repeat Z.bitblast_core; try lia.
Qed.

Lemma bswap_32_range x : 0 <= bswap_32 x < 2 ^ 32.
Proof.
  rewrite bswap_32_bytes.
  pose proof (le_combine_bound (rev (le_split 4 x))) as H.
  rewrite length_rev, length_le_split in H. exact H.
Qed.

Lemma bswap_32_involutive x : 0 <= x < 2 ^ 32 -> bswap_32 (bswap_32 x) = x.
Proof.
  intros Hx. rewrite (bswap_32_bytes (bswap_32 x)), bswap_32_bytes.
  change 4%nat with (length (rev (le_split 4 x))) at 1.
  rewrite split_le_combine, rev_involutive, le_combine_split.
  apply Z.mod_small. exact Hx.
Qed.

Lemma ntohl_range h x : 0 <= x < 2 ^ 32 -> 0 <= ntohl h x < 2 ^ 32.
Proof. destruct h; simpl; intros Hx; [apply bswap_32_range | exact Hx]. Qed.

Lemma ntohl_involutive h x : 0 <= x < 2 ^ 32 -> ntohl h (ntohl h x) = x.
Proof. destruct h; simpl; intros Hx; [apply bswap_32_involutive; exact Hx | reflexivity]. Qed.

Lemma u32_range z : 0 <= u32 z < 2 ^ 32.
Proof. apply Z.mod_pos_bound. lia. Qed.

Lemma u32_small z : 0 <= z < 2 ^ 32 -> u32 z = z.
Proof. apply Z.mod_small. Qed.

Lemma u64_small z : 0 <= z < 2 ^ 64 -> u64 z = z.
Proof. apply Z.mod_small. Qed.

(** Gluing two 32-bit halves, and taking them apart again. *)
Lemma glue_halves hi lo :
  0 <= hi < 2 ^ 32 -> 0 <= lo < 2 ^ 32 ->
  Z.lor (Z.shiftl hi 32) lo = hi * 2 ^ 32 + lo.
Proof.
  intros Hhi Hlo.
  assert (D : Z.land (Z.shiftl hi 32) lo = 0).
  { apply Z.bits_inj'. intros n Hn. rewrite Z.land_spec, Z.bits_0.
    destruct (Z_lt_le_dec n 32) as [Hlt|Hge].
    - rewrite Z.shiftl_spec_low by exact Hlt. reflexivity.
    - rewrite <- (Z.mod_small lo (2 ^ 32)) by exact Hlo.
      rewrite Z.mod_pow2_bits_high by lia. apply andb_false_r. }
  rewrite <- Z.lxor_lor by exact D.
  rewrite <- Z.add_nocarry_lxor by exact D.
  rewrite Z.shiftl_mul_pow2 by lia. reflexivity.
Qed.

Lemma ntohll_swapped b a :
  defined_WORDS_BIGENDIAN b = false -> 0 <= a < 2 ^ 64 ->
  ntohll b a = ntohl (host b) (a mod 2 ^ 32) * 2 ^ 32 + ntohl (host b) (a / 2 ^ 32).
Proof.
  intros Hw Ha. unfold ntohll. rewrite Hw.
  change 0xffffffff with (Z.ones 32). rewrite Z.land_ones, Z.shiftr_div_pow2 by lia.
  assert (Hlo : 0 <= a mod 2 ^ 32 < 2 ^ 32) by (apply Z.mod_pos_bound; lia).
  assert (Hhi : 0 <= a / 2 ^ 32 < 2 ^ 32).
  { split; [apply Z.div_pos; lia|]. apply Z.div_lt_upper_bound; lia. }
  rewrite !u32_small by assumption.
  pose proof (ntohl_range (host b) _ Hlo) as Rlo.
  pose proof (ntohl_range (host b) _ Hhi) as Rhi.
  rewrite (u64_small (Z.shiftl _ 32)) by (rewrite Z.shiftl_mul_pow2; lia).
  rewrite glue_halves by assumption. apply u64_small. lia.
Qed.

Lemma ntohll_range b a : 0 <= a < 2 ^ 64 -> 0 <= ntohll b a < 2 ^ 64.
Proof.
  intros Ha. destruct (defined_WORDS_BIGENDIAN b) eqn:Hw.
  - unfold ntohll. rewrite Hw. exact Ha.
  - unfold ntohll. rewrite Hw. apply Z.mod_pos_bound. lia.
Qed.

Lemma ntohll_involutive b a : 0 <= a < 2 ^ 64 -> ntohll b (ntohll b a) = a.
Proof.
  intros Ha. destruct (defined_WORDS_BIGENDIAN b) eqn:Hw.
  - unfold ntohll. rewrite Hw. reflexivity.
  - assert (Hlo : 0 <= a mod 2 ^ 32 < 2 ^ 32) by (apply Z.mod_pos_bound; lia).
    assert (Hhi : 0 <= a / 2 ^ 32 < 2 ^ 32).
    { split; [apply Z.div_pos; lia|]. apply Z.div_lt_upper_bound; lia. }
    pose proof (ntohl_range (host b) _ Hlo) as Rlo.
    pose proof (ntohl_range (host b) _ Hhi) as Rhi.
    rewrite (ntohll_swapped b (ntohll b a) Hw (ntohll_range b a Ha)).
    rewrite (ntohll_swapped b a Hw Ha).
    set (A := ntohl (host b) (a mod 2 ^ 32)) in *.
    set (B := ntohl (host b) (a / 2 ^ 32)) in *.
    assert (EM : (A * 2 ^ 32 + B) mod 2 ^ 32 = B).
    { rewrite Z.add_comm, Z.mod_add, Z.mod_small; lia. }
    assert (ED : (A * 2 ^ 32 + B) / 2 ^ 32 = A).
    { rewrite Z.div_add_l, Z.div_small; lia. }
    rewrite EM, ED. subst A B. rewrite !ntohl_involutive by assumption.
    pose proof (Z.div_mod a (2 ^ 32)). lia.
Qed.

(** Memory image against wire encoding: what [htonl] leaves in memory is
    the big-endian encoding, and [ntohl] of a word read from memory is the
    big-endian value of its bytes. *)
Lemma store_htonl h v : store h 4 (htonl h v) = be_bytes 4 v.
Proof.
  destruct h; unfold htonl, ntohl, store, be_bytes; [|reflexivity].
  rewrite bswap_32_bytes.
  change 4%nat with (length (rev (le_split 4 v))) at 1.
  apply split_le_combine.
Qed.

Lemma ntohl_load h bs : length bs = 4%nat -> ntohl h (load h bs) = be_value bs.
Proof.
  intros Hl. destruct h; unfold ntohl, load, be_value; [|reflexivity].
  rewrite bswap_32_bytes. rewrite <- Hl, split_le_combine. reflexivity.
Qed.

Lemma be_value_bytes n v : be_value (be_bytes n v) = v mod 2 ^ (Z.of_nat n * 8).
Proof. unfold be_value, be_bytes. rewrite rev_involutive. apply le_combine_split. Qed.

Lemma be_bytes_value bs : be_bytes (length bs) (be_value bs) = bs.
Proof.
  unfold be_value, be_bytes. rewrite <- (length_rev bs), split_le_combine.
  apply rev_involutive.
Qed.

Lemma load_store h n v : load h (store h n v) = v mod 2 ^ (Z.of_nat n * 8).
Proof.
  destruct h; unfold load, store; rewrite ?rev_involutive; apply le_combine_split.
Qed.

Lemma store_load h bs : store h (length bs) (load h bs) = bs.
Proof.
  destruct h; unfold load, store.
  - apply split_le_combine.
  - rewrite <- (length_rev bs), split_le_combine. apply rev_involutive.
Qed.

Lemma load_range h bs : 0 <= load h bs < 2 ^ (8 * Z.of_nat (length bs)).
Proof.
  destruct h; unfold load.
  - apply le_combine_bound.
  - rewrite <- (length_rev bs). apply le_combine_bound.
Qed.

Lemma length_store h n v : length (store h n v) = n.
Proof. destruct h; unfold store; rewrite ?length_rev; apply length_le_split. Qed.

Lemma length_be_bytes n v : length (be_bytes n v) = n.
Proof. unfold be_bytes. rewrite length_rev. apply length_le_split. Qed.

(* ===================================================================== *)
(** * The socket, [read_all] and [write_all]                              *)
(* ===================================================================== *)

Section Socket.
Context {U : Type}.
Implicit Types w : world U.

Lemma to_int_small n : - 2 ^ 31 <= n < 2 ^ 31 -> to_int n = n.
Proof. intros H. unfold to_int. rewrite Z.mod_small; lia. Qed.

Lemma received_app t1 t2 : received (t1 ++ t2) = received t1 ++ received t2.
Proof.
  induction t1 as [|e t1 IH]; [reflexivity|].
  destruct e; simpl; rewrite IH, ?app_assoc; reflexivity.
Qed.

Lemma sent_app t1 t2 : sent (t1 ++ t2) = sent t1 ++ sent t2.
Proof.
  induction t1 as [|e t1 IH]; [reflexivity|].
  destruct e; simpl; rewrite IH, ?app_assoc; reflexivity.
Qed.

Lemma calls_app t1 t2 : calls (t1 ++ t2) = calls t1 ++ calls t2.
Proof.
  induction t1 as [|e t1 IH]; [reflexivity|].
  destruct e; simpl; rewrite IH; reflexivity.
Qed.

Lemma received_recv chunks : received (map EvRecv chunks) = concat chunks.
Proof. induction chunks as [|c cs IH]; simpl; [|rewrite IH]; reflexivity. Qed.

Lemma sent_recv chunks : sent (map EvRecv chunks) = [].
Proof. induction chunks; simpl; auto. Qed.

Lemma calls_recv chunks : calls (map EvRecv chunks) = [].
Proof. induction chunks; simpl; auto. Qed.

Lemma sent_send pieces : sent (map EvSend pieces) = concat pieces.
Proof. induction pieces as [|c cs IH]; simpl; [|rewrite IH]; reflexivity. Qed.

Lemma received_send pieces : received (map EvSend pieces) = [].
Proof. induction pieces; simpl; auto. Qed.

Lemma calls_send pieces : calls (map EvSend pieces) = [].
Proof. induction pieces; simpl; auto. Qed.

Lemma input_only_refl w : input_only w w.
Proof. repeat split. Qed.

Lemma input_only_trans w1 w2 w3 :
  input_only w1 w2 -> input_only w2 w3 -> input_only w1 w3.
Proof. unfold input_only. intuition congruence. Qed.

Lemma output_only_refl w : output_only w w.
Proof. repeat split. Qed.

Lemma output_only_trans w1 w2 w3 :
  output_only w1 w2 -> output_only w2 w3 -> output_only w1 w3.
Proof. unfold output_only. intuition congruence. Qed.

(** One [read]: at most [count] bytes and at most [MAX_RW_COUNT]; the
    bytes returned are taken off the front of what was pending. *)
Lemma sock_read_spec count w n bs w1 :
  0 < count -> sock_read count w = (n, bs, w1) ->
  -1 <= n <= Z.min count MAX_RW_COUNT /\ input_only w w1 /\
  (exists chunks, trace w1 = trace w ++ map EvRecv chunks /\
                  concat chunks = bs) /\
  Z.of_nat (length bs) = Z.max 0 n /\
  pending (incoming w) = bs ++ pending (incoming w1) /\
  (weight (incoming w1) <= weight (incoming w))%nat /\
  (0 < n -> (weight (incoming w1) < weight (incoming w))%nat).
Proof.
  intros Hc. unfold sock_read, MAX_RW_COUNT.
  destruct (incoming w) as [|[data|] rest] eqn:Hin.
  - intros [= <- <- <-]. rewrite Hin. repeat split; try lia.
    exists []. rewrite app_nil_r. split; reflexivity.
  - destruct (Z.leb_spec (Z.of_nat (length data)) (Z.min count 2147479552))
      as [Hle|Hgt]; intros [= <- <- <-];
      cbn [incoming emit set_incoming trace weight pending].
    + repeat split; try lia.
      exists [data]. split; [reflexivity|apply app_nil_r].
    + assert (Hlen : length (firstn (Z.to_nat (Z.min count 2147479552)) data)
                     = Z.to_nat (Z.min count 2147479552)).
      { apply firstn_length_le. lia. }
      repeat split; try lia.
      * eexists [_]. split; [reflexivity|apply app_nil_r].
      * rewrite app_assoc, firstn_skipn. reflexivity.
      * rewrite length_skipn. lia.
      * rewrite length_skipn. lia.
  - intros [= <- <- <-]. cbn [incoming set_incoming trace weight pending length].
    repeat split; try lia.
    exists []. rewrite app_nil_r. split; reflexivity.
Qed.

(** [read_all] either returns exactly [count] bytes, the next [count]
    bytes that were pending, or aborts having taken fewer; it touches
    nothing but the input side of the socket. *)
Lemma read_all_loop_spec fuel : forall buf count w,
  0 <= count -> (Z.to_nat count <= fuel)%nat ->
  exists chunks w',
    input_only w w' /\ trace w' = trace w ++ map EvRecv chunks /\
    (weight (incoming w') <= weight (incoming w))%nat /\
    pending (incoming w) = concat chunks ++ pending (incoming w') /\
    ((read_all_loop fuel buf count w = Done (buf ++ concat chunks) w' /\
      Z.of_nat (length (concat chunks)) = count) \/
     (read_all_loop fuel buf count w = Aborted w' /\
      Z.of_nat (length (concat chunks)) < count)).
Proof.
  induction fuel as [|fuel IH]; intros buf count w Hc Hf.
  - assert (count = 0) as -> by lia. exists [], w. simpl.
    rewrite !app_nil_r. repeat split; auto using input_only_refl.
  - cbn [read_all_loop]. destruct (Z.gtb_spec count 0) as [Hpos|Hz].
    + destruct (sock_read count w) as [[n bs] w1] eqn:Hr.
      destruct (sock_read_spec count w n bs w1 ltac:(lia) Hr)
        as (Hn & Hio & (chunks & Ht & Hcat) & Hl & Hp & Hw & Hws).
      unfold MAX_RW_COUNT in Hn.
      rewrite to_int_small by lia.
      destruct (Z.gtb_spec n 0) as [Hnpos|Hnz].
      * destruct (IH (buf ++ bs) (count - n) w1 ltac:(lia) ltac:(lia))
          as (chunks' & w' & Hio' & Ht' & Hw' & Hp' & Hres).
        exists (chunks ++ chunks'), w'.
        rewrite map_app, concat_app, Hcat, app_assoc, <- Ht, <- !app_assoc, <- Hp'.
        split; [eauto using input_only_trans|].
        split; [exact Ht'|]. split; [lia|]. split; [rewrite Hp; reflexivity|].
        rewrite length_app.
        destruct Hres as [[Hres Hlen]|[Hres Hlen]]; [left|right];
          (split; [rewrite Hres, <- ?app_assoc; reflexivity | lia]).
      * exists chunks, w1. rewrite Hcat.
        split; [exact Hio|]. split; [exact Ht|]. split; [exact Hw|].
        split; [exact Hp|]. right. split; [reflexivity|lia].
    + assert (count = 0) as -> by lia. exists [], w. simpl.
      rewrite !app_nil_r. repeat split; auto using input_only_refl.
Qed.

(** One [write]: the socket takes a prefix of the buffer, at most
    [count] bytes. *)
Lemma sock_write_spec buf count w n w1 :
  0 < count -> sock_write buf count w = (n, w1) ->
  -1 <= n <= Z.min count MAX_RW_COUNT /\ output_only w w1 /\
  exists pieces, trace w1 = trace w ++ map EvSend pieces /\
                 concat pieces = firstn (Z.to_nat n) buf.
Proof.
  intros Hc. unfold sock_write, MAX_RW_COUNT.
  destruct (outgoing w) as [|[room|] rest] eqn:Hout.
  - intros [= <- <-]. split; [lia|]. split; [apply output_only_refl|].
    exists []. rewrite app_nil_r. split; reflexivity.
  - intros [= <- <-]. cbn [emit set_outgoing trace].
    split; [lia|]. split; [repeat split|].
    eexists [_]. split; [reflexivity|apply app_nil_r].
  - intros [= <- <-]. split; [lia|]. split; [repeat split|].
    exists []. rewrite app_nil_r. split; reflexivity.
Qed.

(** [write_all] either puts the whole buffer on the socket or aborts
    having put a proper prefix of it; it touches nothing but the output
    side of the socket. *)
Lemma write_all_loop_spec fuel : forall buf count w,
  Z.of_nat (length buf) = count -> (Z.to_nat count <= fuel)%nat ->
  exists pieces w',
    output_only w w' /\ trace w' = trace w ++ map EvSend pieces /\
    ((write_all_loop fuel buf count w = Done tt w' /\ concat pieces = buf) \/
     (write_all_loop fuel buf count w = Aborted w' /\
      exists rest, rest <> [] /\ buf = concat pieces ++ rest)).
Proof.
  induction fuel as [|fuel IH]; intros buf count w Hlen Hf.
  - assert (count = 0) as -> by lia. exists [], w. simpl.
    rewrite app_nil_r. destruct buf; [|discriminate].
    split; [apply output_only_refl|]. split; [reflexivity|]. left. split; reflexivity.
  - cbn [write_all_loop]. destruct (Z.gtb_spec count 0) as [Hpos|Hz].
    + destruct (sock_write buf count w) as [n w1] eqn:Hr.
      destruct (sock_write_spec buf count w n w1 ltac:(lia) Hr)
        as (Hn & Hio & (pieces & Ht & Hcat)).
      unfold MAX_RW_COUNT in Hn.
      rewrite to_int_small by lia.
      destruct (Z.gtb_spec n 0) as [Hnpos|Hnz].
      * destruct (IH (skipn (Z.to_nat n) buf) (count - n) w1) as
          (pieces' & w' & Hio' & Ht' & Hres).
        { rewrite length_skipn. lia. }
        { lia. }
        exists (pieces ++ pieces'), w'.
        rewrite map_app, concat_app, Hcat, app_assoc, <- Ht.
        split; [eauto using output_only_trans|]. split; [exact Ht'|].
        destruct Hres as [[Hres Hc']|[Hres (rest & Hne & Hc')]]; [left|right].
        -- split; [exact Hres|]. rewrite Hc'. apply firstn_skipn.
        -- split; [exact Hres|]. exists rest. split; [exact Hne|].
           rewrite <- app_assoc, <- Hc'. symmetry. apply firstn_skipn.
      * exists pieces, w1. split; [exact Hio|]. split; [exact Ht|]. right.
        split; [reflexivity|]. exists buf. split.
        -- destruct buf; [simpl in Hlen; lia|discriminate].
        -- rewrite Hcat. replace (Z.to_nat n) with 0%nat by lia. reflexivity.
    + assert (count = 0) as -> by lia. exists [], w. simpl.
      rewrite app_nil_r. destruct buf; [|discriminate].
      split; [apply output_only_refl|]. split; [reflexivity|]. left. split; reflexivity.
Qed.

Lemma read_all_spec count w :
  0 <= count ->
  exists chunks w',
    input_only w w' /\ trace w' = trace w ++ map EvRecv chunks /\
    (weight (incoming w') <= weight (incoming w))%nat /\
    pending (incoming w) = concat chunks ++ pending (incoming w') /\
    ((read_all count w = Done (concat chunks) w' /\
      Z.of_nat (length (concat chunks)) = count) \/
     (read_all count w = Aborted w' /\
      Z.of_nat (length (concat chunks)) < count)).
Proof.
  intros Hc. apply (read_all_loop_spec (Z.to_nat count) [] count w Hc).
  reflexivity.
Qed.

Lemma write_all_spec buf count w :
  Z.of_nat (length buf) = count ->
  exists pieces w',
    output_only w w' /\ trace w' = trace w ++ map EvSend pieces /\
    ((write_all buf count w = Done tt w' /\ concat pieces = buf) \/
     (write_all buf count w = Aborted w' /\
      exists rest, rest <> [] /\ buf = concat pieces ++ rest)).
Proof.
  intros Hl. apply (write_all_loop_spec (Z.to_nat count) buf count w Hl).
  reflexivity.
Qed.

(** A socket that has the [count] bytes ready hands them over in one
    [read]; a socket with room for [count] bytes takes them in one
    [write]. *)
Lemma read_all_delivered count bs rest w :
  incoming w = RdData bs :: rest ->
  Z.of_nat (length bs) = count -> 0 < count <= MAX_RW_COUNT ->
  read_all count w = Done bs (emit (EvRecv bs) (set_incoming rest w)).
Proof.
  intros Hin Hl Hc. unfold read_all.
  destruct (Z.to_nat count) as [|fuel] eqn:Hf; [lia|].
  cbn [read_all_loop]. destruct (Z.gtb_spec count 0); [|lia].
  unfold sock_read. rewrite Hin.
  destruct (Z.leb_spec (Z.of_nat (length bs)) (Z.min count MAX_RW_COUNT)); [|lia].
  unfold MAX_RW_COUNT in Hc. rewrite to_int_small by lia.
  destruct (Z.gtb_spec (Z.of_nat (length bs)) 0); [|lia].
  rewrite Hl, Z.sub_diag. destruct fuel; reflexivity.
Qed.

Lemma write_all_accepted buf count room rest w :
  outgoing w = WrAccept room :: rest ->
  Z.of_nat (length buf) = count -> 0 < count <= MAX_RW_COUNT -> count <= room ->
  write_all buf count w = Done tt (emit (EvSend buf) (set_outgoing rest w)).
Proof.
  intros Hout Hl Hc Hr. unfold write_all.
  destruct (Z.to_nat count) as [|fuel] eqn:Hf; [lia|].
  cbn [write_all_loop]. destruct (Z.gtb_spec count 0); [|lia].
  unfold sock_write. rewrite Hout.
  replace (Z.max 0 (Z.min (Z.min count room) MAX_RW_COUNT)) with count by lia.
  unfold MAX_RW_COUNT in Hc. rewrite to_int_small by lia.
  destruct (Z.gtb_spec count 0); [|lia].
  rewrite Z.sub_diag.
  replace (Z.to_nat count) with (length buf) by lia.
  rewrite firstn_all, skipn_all. destruct fuel; reflexivity.
Qed.

End Socket.

(* ===================================================================== *)
(** * Decoding a request header                                           *)
(* ===================================================================== *)

Lemma htonl_ntohl h x : 0 <= x < 2 ^ 32 -> htonl h (ntohl h x) = x.
Proof. apply ntohl_involutive. Qed.

Lemma htonl_injective h x y :
  0 <= x < 2 ^ 32 -> 0 <= y < 2 ^ 32 -> htonl h x = htonl h y -> x = y.
Proof.
  intros Hx Hy E. apply (f_equal (ntohl h)) in E. unfold htonl in E.
  rewrite !ntohl_involutive in E by assumption. exact E.
Qed.

Lemma load_range_4 h bs : length bs = 4%nat -> 0 <= load h bs < 2 ^ 32.
Proof. intros Hl. pose proof (load_range h bs) as H. rewrite Hl in H. exact H. Qed.

Lemma be_value_range_4 bs : length bs = 4%nat -> 0 <= be_value bs < 2 ^ 32.
Proof. intros Hl. apply (load_range_4 BigEndian bs Hl). Qed.

Section Header.
Variable h : byte_order.
Variable hdr : list byte.
Hypothesis Hlen : length hdr = 28%nat.

Lemma length_field_4 k : (k <= 24)%nat -> length (firstn 4 (skipn k hdr)) = 4%nat.
Proof. intros Hk. rewrite length_firstn, length_skipn. lia. Qed.

Lemma length_wire_handle : length (wire_handle hdr) = 8%nat.
Proof. unfold wire_handle. rewrite length_firstn, length_skipn. lia. Qed.

Lemma request_magic_check M :
  0 <= M < 2 ^ 32 ->
  (nbd_request.magic (request_of_bytes h hdr) =? htonl h M)
  = (wire_magic hdr =? M).
Proof.
  intros HM. cbn [request_of_bytes nbd_request.magic]. unfold wire_magic.
  pose proof (length_field_4 0 ltac:(lia)) as L4. cbn [skipn] in L4.
  rewrite <- (ntohl_load h _ L4).
  destruct (Z.eqb_spec (load h (firstn 4 hdr)) (htonl h M)) as [E|N];
    destruct (Z.eqb_spec (ntohl h (load h (firstn 4 hdr))) M) as [E'|N'];
    try reflexivity; exfalso.
  - apply N'. rewrite E. apply ntohl_involutive. exact HM.
  - apply N. rewrite <- E'. symmetry. apply htonl_ntohl.
    apply load_range_4. exact L4.
Qed.

Lemma request_type : ntohl h (nbd_request.type (request_of_bytes h hdr)) = wire_type hdr.
Proof. apply ntohl_load, length_field_4. lia. Qed.

Lemma request_len : ntohl h (nbd_request.len (request_of_bytes h hdr)) = wire_len hdr.
Proof. apply ntohl_load, length_field_4. lia. Qed.

Lemma request_handle : nbd_request.handle (request_of_bytes h hdr) = wire_handle hdr.
Proof. reflexivity. Qed.

Lemma wire_len_range : 0 <= wire_len hdr < 2 ^ 32.
Proof. apply be_value_range_4, length_field_4. lia. Qed.

End Header.

(** The image of a reply structure, field by field. *)
Lemma bytes_of_reply_wire h M e hd :
  bytes_of_reply h (nbd_reply.mk (htonl h M) e hd)
  = be_bytes 4 M ++ store h 4 e ++ hd.
Proof. unfold bytes_of_reply. cbn. rewrite store_htonl. reflexivity. Qed.

Lemma length_bytes_of_reply h r :
  length (nbd_reply.handle r) = 8%nat ->
  Z.of_nat (length (bytes_of_reply h r)) = sizeof_nbd_reply.
Proof.
  intros H8. unfold bytes_of_reply. rewrite !length_app, !length_store, H8.
  reflexivity.
Qed.

Lemma firstn_skipn_middle (a b c : list byte) n m :
  length a = n -> length b = m -> firstn m (skipn n (a ++ b ++ c)) = b.
Proof.
  intros <- <-. rewrite skipn_app, skipn_all, Nat.sub_diag. cbn [skipn app].
  rewrite firstn_app, firstn_all, Nat.sub_diag, firstn_O. apply app_nil_r.
Qed.

Lemma reply_handle_bytes h r payload :
  length (nbd_reply.handle r) = 8%nat ->
  firstn 8 (skipn 8 (bytes_of_reply h r ++ payload)) = nbd_reply.handle r.
Proof.
  intros H8. unfold bytes_of_reply.
  rewrite <- !app_assoc, (app_assoc (store h 4 _)).
  apply firstn_skipn_middle; [|exact H8].
  rewrite length_app, !length_store. reflexivity.
Qed.

Lemma reply_status_bytes h r payload :
  firstn 4 (skipn 4 (bytes_of_reply h r ++ payload)) = store h 4 (nbd_reply.error r).
Proof.
  unfold bytes_of_reply. rewrite <- !app_assoc.
  apply firstn_skipn_middle; apply length_store.
Qed.

Lemma reply_magic_bytes h r payload :
  firstn 4 (bytes_of_reply h r ++ payload) = store h 4 (nbd_reply.magic r).
Proof.
  unfold bytes_of_reply. rewrite <- !app_assoc.
  apply (firstn_skipn_middle [] _ _ 0 4); [reflexivity|apply length_store].
Qed.

(* ===================================================================== *)
(** * The dispatch of one request                                         *)
(* ===================================================================== *)

Section Dispatch.
Context {U : Type}.
Variable b : build.
Variable aop : buse_operations U.
Variable hdr : list byte.
Hypothesis Hlen : length hdr = 28%nat.

Local Abbreviation request := (request_of_bytes (host b) hdr).
Local Abbreviation reply_with := (reply_with (host b) hdr).

Lemma magic_range : 0 <= NBD_REQUEST_MAGIC < 2 ^ 32.
Proof. unfold NBD_REQUEST_MAGIC. lia. Qed.

Lemma serve_request_bad_magic (w : world U) :
  wire_magic hdr <> NBD_REQUEST_MAGIC ->
  serve_request b aop request w = Aborted w.
Proof.
  intros Hm. unfold serve_request.
  rewrite (request_magic_check _ _ Hlen _ magic_range).
  destruct (Z.eqb_spec (wire_magic hdr) NBD_REQUEST_MAGIC); [contradiction|].
  reflexivity.
Qed.

Hypothesis Hmagic : wire_magic hdr = NBD_REQUEST_MAGIC.

Ltac dispatch Hty :=
  unfold serve_request;
  rewrite (request_magic_check _ _ Hlen _ magic_range), Hmagic;
  rewrite (request_type _ _ Hlen), (request_len _ _ Hlen), Hty;
  cbn [request_of_bytes nbd_request.handle nbd_request.from].

Lemma serve_request_read (w : world U) :
  wire_type hdr = NBD_CMD_READ ->
  serve_request b aop request w =
  let len := wire_len hdr in
  let w := emit (EvStderr (Msg_request_read len)) w in
  let chunk := malloc w len in
  let '(chunk, error, w) :=
    match read aop with
    | Some f =>
        let '(data, status, u) :=
          f chunk len (request_from b hdr) (userdata w) in
        (fill chunk data, u32 status,
         set_userdata u (emit (EvCall (Call_read len (request_from b hdr))) w))
    | None => (chunk, htonl (host b) EPERM, w)
    end in
  bind (write_all (bytes_of_reply (host b) (reply_with error))
                  sizeof_nbd_reply w) (fun _ w =>
  bind (write_all chunk len w) (fun _ w => Done Continue w)).
Proof. intros Hty. dispatch Hty. reflexivity. Qed.

Lemma serve_request_write (w : world U) :
  wire_type hdr = NBD_CMD_WRITE ->
  serve_request b aop request w =
  let len := wire_len hdr in
  let w := emit (EvStderr (Msg_request_write len)) w in
  bind (read_all len w) (fun chunk w =>
  let '(error, w) :=
    match write aop with
    | Some f =>
        let '(status, u) := f chunk len (request_from b hdr) (userdata w) in
        (u32 status,
         set_userdata u
           (emit (EvCall (Call_write chunk len (request_from b hdr))) w))
    | None => (htonl (host b) EPERM, w)
    end in
  bind (write_all (bytes_of_reply (host b) (reply_with error))
                  sizeof_nbd_reply w) (fun _ w => Done Continue w)).
Proof. intros Hty. dispatch Hty. reflexivity. Qed.

Lemma serve_request_disc (w : world U) :
  wire_type hdr = NBD_CMD_DISC ->
  serve_request b aop request w =
  Done (Return EXIT_SUCCESS)
       match disc aop with
       | Some f => set_userdata (f (userdata w)) (emit (EvCall Call_disc) w)
       | None => w
       end.
Proof. intros Hty. dispatch Hty. reflexivity. Qed.

Lemma serve_request_flush (w : world U) :
  wire_type hdr = NBD_CMD_FLUSH -> defined_NBD_FLAG_SEND_FLUSH b = true ->
  serve_request b aop request w =
  let '(error, w) :=
    match flush aop with
    | Some f =>
        let '(status, u) := f (userdata w) in
        (u32 status, set_userdata u (emit (EvCall Call_flush) w))
    | None => (htonl (host b) 0, w)
    end in
  bind (write_all (bytes_of_reply (host b) (reply_with error))
                  sizeof_nbd_reply w) (fun _ w => Done Continue w).
Proof. intros Hty Hf. dispatch Hty. rewrite Hf. reflexivity. Qed.

Lemma serve_request_trim (w : world U) :
  wire_type hdr = NBD_CMD_TRIM -> defined_NBD_FLAG_SEND_TRIM b = true ->
  serve_request b aop request w =
  let len := wire_len hdr in
  let '(error, w) :=
    match trim aop with
    | Some f =>
        let '(status, u) := f (request_from b hdr) len (userdata w) in
        (u32 status,
         set_userdata u (emit (EvCall (Call_trim (request_from b hdr) len)) w))
    | None => (htonl (host b) 0, w)
    end in
  bind (write_all (bytes_of_reply (host b) (reply_with error))
                  sizeof_nbd_reply w) (fun _ w => Done Continue w).
Proof.
  intros Hty Hf. dispatch Hty. rewrite Hf.
  destruct (defined_NBD_FLAG_SEND_FLUSH b); reflexivity.
Qed.

Lemma serve_request_unknown (w : world U) :
  known_type b (wire_type hdr) = false ->
  serve_request b aop request w = Aborted w.
Proof.
  unfold known_type. intros Hk.
  apply orb_false_elim in Hk as [Hk Htrim].
  apply orb_false_elim in Hk as [Hk Hflush].
  apply orb_false_elim in Hk as [Hk Hdisc].
  apply orb_false_elim in Hk as [Hread Hwrite].
  unfold serve_request.
  rewrite (request_magic_check _ _ Hlen _ magic_range), Hmagic.
  rewrite (request_type _ _ Hlen).
  cbn [bind assert]. change (NBD_REQUEST_MAGIC =? NBD_REQUEST_MAGIC) with true.
  cbn iota. rewrite Hread, Hwrite, Hdisc, Hflush, Htrim. reflexivity.
Qed.

End Dispatch.

Lemma length_malloc {U : Type} (w : world U) len :
  length (malloc w len) = Z.to_nat len.
Proof. unfold malloc. rewrite length_map, length_seq. reflexivity. Qed.

Lemma length_fill (chunk data : list byte) : length (fill chunk data) = length chunk.
Proof.
  unfold fill. rewrite length_firstn, length_app, length_skipn. lia.
Qed.

Lemma length_reply_with h hdr status :
  length hdr = 28%nat ->
  Z.of_nat (length (bytes_of_reply h (reply_with h hdr status))) = sizeof_nbd_reply.
Proof.
  intros Hlen. apply length_bytes_of_reply. cbn. apply length_wire_handle, Hlen.
Qed.

(** The status a missing callback produces reads as [EPERM] on the wire. *)
Lemma wire_status_eperm h hdr payload :
  wire_status (bytes_of_reply h (reply_with h hdr (htonl h EPERM)) ++ payload) = EPERM.
Proof.
  unfold wire_status. rewrite reply_status_bytes. cbn [reply_with nbd_reply.error].
  rewrite store_htonl, be_value_bytes. reflexivity.
Qed.

(** Sending the reply structure, as every case of the [switch] but
    [NBD_CMD_DISC] ends. *)
Lemma send_reply_spec {U : Type} (reply : list byte) (w1 : world U) :
  Z.of_nat (length reply) = sizeof_nbd_reply ->
  exists pieces w',
    output_only w1 w' /\ trace w' = trace w1 ++ map EvSend pieces /\
    let run := bind (write_all reply sizeof_nbd_reply w1)
                    (fun _ w => Done Continue w) in
    ((run = Done Continue w' /\ concat pieces = reply) \/
     (run = Aborted w' /\ exists rest, rest <> [] /\ reply = concat pieces ++ rest)).
Proof.
  intros Hl.
  destruct (write_all_spec reply sizeof_nbd_reply w1 Hl)
    as (pieces & w' & Ho & Ht & Hres).
  exists pieces, w'. split; [exact Ho|]. split; [exact Ht|]. cbv zeta.
  destruct Hres as [[-> Hc]|[-> Hc]]; [left|right]; split; auto.
Qed.

(** Sending the reply structure and then the buffer, as the READ case
    does. *)
Lemma send_reply_chunk_spec {U : Type} (reply chunk : list byte) (L : Z)
  (w1 : world U) :
  Z.of_nat (length reply) = sizeof_nbd_reply ->
  Z.of_nat (length chunk) = L ->
  exists pieces w',
    output_only w1 w' /\ trace w' = trace w1 ++ map EvSend pieces /\
    let run := bind (write_all reply sizeof_nbd_reply w1) (fun _ w =>
               bind (write_all chunk L w) (fun _ w => Done Continue w)) in
    ((run = Done Continue w' /\ concat pieces = reply ++ chunk) \/
     (run = Aborted w' /\
      exists rest, rest <> [] /\ reply ++ chunk = concat pieces ++ rest)).
Proof.
  intros Hl Hc.
  destruct (write_all_spec reply sizeof_nbd_reply w1 Hl)
    as (p1 & w2 & Ho1 & Ht1 & Hres1).
  destruct Hres1 as [[Hr1 Hc1]|[Hr1 (rest & Hne & Hc1)]].
  - destruct (write_all_spec chunk L w2 Hc) as (p2 & w3 & Ho2 & Ht2 & Hres2).
    exists (p1 ++ p2), w3.
    rewrite map_app, app_assoc, <- Ht1.
    split; [eauto using output_only_trans|]. split; [exact Ht2|].
    cbv zeta. rewrite Hr1. cbn [bind]. rewrite concat_app, Hc1.
    destruct Hres2 as [[-> Hc2]|[-> (rest & Hne & Hc2)]]; [left|right];
      cbn [bind].
    + split; [reflexivity|]. rewrite Hc2. reflexivity.
    + split; [reflexivity|]. exists rest. split; [exact Hne|].
      rewrite Hc2, app_assoc. reflexivity.
  - exists p1, w2. split; [exact Ho1|]. split; [exact Ht1|].
    cbv zeta. rewrite Hr1. cbn [bind]. right. split; [reflexivity|].
    exists (rest ++ chunk). split.
    + destruct rest; [contradiction|discriminate].
    + rewrite Hc1, <- app_assoc. reflexivity.
Qed.

Lemma known_type_cases b ty :
  known_type b ty = true ->
  ty = NBD_CMD_READ \/ ty = NBD_CMD_WRITE \/ ty = NBD_CMD_DISC \/
  (ty = NBD_CMD_FLUSH /\ defined_NBD_FLAG_SEND_FLUSH b = true) \/
  (ty = NBD_CMD_TRIM /\ defined_NBD_FLAG_SEND_TRIM b = true).
Proof.
  unfold known_type. rewrite !orb_true_iff, !andb_true_iff, !Z.eqb_eq. tauto.
Qed.

(* ===================================================================== *)
(** * WRITE requests                                                      *)
(* ===================================================================== *)

(** On a socket that has the payload ready and room for the reply, the
    WRITE turn completes: payload in, callback, reply out. *)
Lemma write_request_served {U : Type}
  (b : build) (aop : buse_operations U) (hdr payload : list byte)
  (f : list byte -> Z -> Z -> U -> Z * U) (w : world U) ri room ro :
  length hdr = 28%nat ->
  wire_magic hdr = NBD_REQUEST_MAGIC ->
  wire_type hdr = NBD_CMD_WRITE ->
  write aop = Some f ->
  incoming w = RdData payload :: ri ->
  outgoing w = WrAccept room :: ro ->
  Z.of_nat (length payload) = wire_len hdr ->
  0 < wire_len hdr <= MAX_RW_COUNT -> sizeof_nbd_reply <= room ->
  let L := wire_len hdr in
  let off := request_from b hdr in
  let r := f payload L off (userdata w) in
  exists w',
    serve_request b aop (request_of_bytes (host b) hdr) w = Done Continue w' /\
    incoming w' = ri /\ outgoing w' = ro /\ userdata w' = snd r /\
    trace w' = trace w ++
      [EvStderr (Msg_request_write L); EvRecv payload;
       EvCall (Call_write payload L off);
       EvSend (bytes_of_reply (host b) (reply_with (host b) hdr (u32 (fst r))))].
Proof.
  intros Hlen Hmagic Hty Hw Hin Hout Hl HL Hroom L off r.
  rewrite (serve_request_write b aop hdr Hlen Hmagic w Hty). cbv zeta.
  fold L off.
  rewrite (read_all_delivered L payload ri (emit (EvStderr (Msg_request_write L)) w))
    by (assumption || exact Hin).
  cbn [bind]. rewrite Hw.
  change (userdata (emit (EvRecv payload) (set_incoming ri
            (emit (EvStderr (Msg_request_write L)) w)))) with (userdata w).
  fold r. destruct r as [status u] eqn:Hr. cbn [fst snd].
  erewrite write_all_accepted;
    [|exact Hout|apply length_reply_with, Hlen|unfold sizeof_nbd_reply, MAX_RW_COUNT; lia
     |exact Hroom].
  cbn [bind]. eexists. split; [reflexivity|].
  cbn [incoming outgoing userdata trace emit set_incoming set_outgoing set_userdata].
  rewrite <- !app_assoc. repeat split.
Qed.

Example write_request_run :
  serve_request linux_x86_64 (recording_ops 0)
    (request_of_bytes LittleEndian (kernel_request NBD_CMD_WRITE handle_H 4096 4))
    (session [RdData payload_1234] [WrAccept 16])
  = Done Continue
      (mkWorld [] [] [payload_1234] (fun _ => byte.of_Z 0) (-1)
         (fun _ => SIG_DFL)
         [EvStderr (Msg_request_write 4); EvRecv payload_1234;
          EvCall (Call_write payload_1234 4 4096);
          EvSend (be_bytes 4 NBD_REPLY_MAGIC ++ be_bytes 4 0 ++ handle_H)]).
Proof. vm_compute. reflexivity. Qed.

(* ===================================================================== *)
(** * READ requests                                                       *)
(* ===================================================================== *)

(** The scenario of the design: a READ of 512 bytes with no [read]
    callback is answered by a reply with status [EPERM] and the handle of
    the request, followed by 512 bytes. *)
Example read_without_callback_run :
  exists w',
    serve_request linux_x86_64 no_ops
      (request_of_bytes LittleEndian (kernel_request NBD_CMD_READ handle_H 0 512))
      (session [] [WrAccept 16; WrAccept 512]) = Done Continue w' /\
    calls (trace w') = [] /\
    sent (trace w')
    = be_bytes 4 NBD_REPLY_MAGIC ++ be_bytes 4 EPERM ++ handle_H
      ++ repeat (byte.of_Z 0) 512.
Proof. eexists. split; [vm_compute; reflexivity|]. split; vm_compute; reflexivity. Qed.

(* ===================================================================== *)
(** * Every reply is the reply to its request                             *)
(* ===================================================================== *)

Section Answered.
Context {U : Type}.
Variable b : build.
Variable aop : buse_operations U.
Variable hdr : list byte.
Hypothesis Hlen : length hdr = 28%nat.
Hypothesis Hmagic : wire_magic hdr = NBD_REQUEST_MAGIC.

Local Abbreviation run w := (serve_request b aop (request_of_bytes (host b) hdr) w).

Ltac sent_norm :=
  cbn [trace emit set_userdata];
  rewrite ?sent_app, ?sent_send, ?sent_recv; cbn [sent];
  rewrite ?app_nil_r, <- ?app_assoc.

(** What [send_reply_spec] gives, when a world [w1] reached without
    sending anything sends the reply. *)
Lemma answered_by_reply (w w1 : world U) status k :
  sent (trace w1) = sent (trace w) ->
  (weight (incoming w1) <= weight (incoming w))%nat ->
  k = bind (write_all (bytes_of_reply (host b) (reply_with (host b) hdr status))
                      sizeof_nbd_reply w1) (fun _ w => Done Continue w) ->
  answered b hdr w k.
Proof.
  intros Hs Hw ->.
  destruct (send_reply_spec
              (bytes_of_reply (host b) (reply_with (host b) hdr status)) w1
              (length_reply_with _ _ _ Hlen))
    as (pieces & w' & (Hi & _) & Ht & Hres).
  exists status, [], w'. cbv zeta. rewrite Hi. split; [exact Hw|].
  rewrite Ht, sent_app, sent_send, Hs, !app_nil_r.
  destruct Hres as [[-> Hc]|[-> (rest & Hne & Hc)]]; [left|right].
  - split; [reflexivity|]. rewrite Hc. reflexivity.
  - split; [reflexivity|]. exists rest. split; [exact Hne|].
    rewrite Hc, app_assoc. reflexivity.
Qed.

Lemma read_answered (w : world U) :
  wire_type hdr = NBD_CMD_READ -> answered b hdr w (run w).
Proof.
  intros Hty. rewrite (serve_request_read b aop hdr Hlen Hmagic w Hty).
  cbv zeta.
  set (L := wire_len hdr). set (w0 := emit _ w).
  pose proof (wire_len_range hdr Hlen) as HL. fold L in HL.
  assert (Hm : Z.of_nat (length (malloc w0 L)) = L).
  { rewrite length_malloc. lia. }
  assert (Hgen : forall status chunk (w1 : world U),
    Z.of_nat (length chunk) = L ->
    sent (trace w1) = sent (trace w) -> incoming w1 = incoming w ->
    answered b hdr w
      (bind (write_all (bytes_of_reply (host b) (reply_with (host b) hdr status))
                       sizeof_nbd_reply w1) (fun _ w =>
       bind (write_all chunk L w) (fun _ w => Done Continue w)))).
  { intros status chunk w1 Hc Hs Hin.
    destruct (send_reply_chunk_spec
                (bytes_of_reply (host b) (reply_with (host b) hdr status))
                chunk L w1 (length_reply_with _ _ _ Hlen) Hc)
      as (pieces & w' & (Hi & _) & Ht & Hres).
    exists status, chunk, w'. cbv zeta. rewrite Hi, Hin. split; [lia|].
    rewrite Ht, sent_app, sent_send, Hs.
    destruct Hres as [[-> Hcat]|[-> (rest & Hne & Hcat)]]; [left|right].
    - split; [reflexivity|]. rewrite Hcat. reflexivity.
    - split; [reflexivity|]. exists rest. split; [exact Hne|].
      rewrite <- app_assoc, <- Hcat. reflexivity. }
  destruct (read aop) as [f|].
  - destruct (f (malloc w0 L) L (request_from b hdr) (userdata w0))
      as [[data status] u].
    apply Hgen; [rewrite length_fill; exact Hm| |reflexivity].
    subst w0. sent_norm. reflexivity.
  - apply Hgen; [exact Hm| |reflexivity].
    subst w0. sent_norm. reflexivity.
Qed.

Lemma write_answered (w : world U) :
  wire_type hdr = NBD_CMD_WRITE -> answered b hdr w (run w).
Proof.
  intros Hty. rewrite (serve_request_write b aop hdr Hlen Hmagic w Hty).
  cbv zeta.
  set (L := wire_len hdr). set (w0 := emit _ w).
  pose proof (wire_len_range hdr Hlen) as HL. fold L in HL.
  destruct (read_all_spec L w0 ltac:(lia))
    as (chunks & w1 & Hio & Ht & Hw & _ & [[Hr Hn]|[Hr Hn]]); rewrite Hr;
    cbn [bind].
  - assert (Hs : sent (trace w1) = sent (trace w)).
    { rewrite Ht. subst w0. sent_norm. reflexivity. }
    destruct (write aop) as [f|].
    + destruct (f (concat chunks) L (request_from b hdr) (userdata w1))
        as [status u].
      eapply answered_by_reply; [| |reflexivity].
      * sent_norm. exact Hs.
      * exact Hw.
    + eapply answered_by_reply; [exact Hs|exact Hw|reflexivity].
  - exists 0, [], w1. cbv zeta. split; [exact Hw|]. right.
    split; [reflexivity|].
    exists (bytes_of_reply (host b) (reply_with (host b) hdr 0)). split.
    + intros E. pose proof (length_reply_with (host b) hdr 0 Hlen) as Hl.
      rewrite E in Hl. discriminate.
    + rewrite Ht. subst w0. sent_norm. reflexivity.
Qed.

Lemma flush_answered (w : world U) :
  wire_type hdr = NBD_CMD_FLUSH -> defined_NBD_FLAG_SEND_FLUSH b = true ->
  answered b hdr w (run w).
Proof.
  intros Hty Hf. rewrite (serve_request_flush b aop hdr Hlen Hmagic w Hty Hf).
  destruct (flush aop) as [f|].
  - destruct (f (userdata w)) as [status u].
    eapply answered_by_reply; [| |reflexivity].
    + sent_norm. reflexivity.
    + apply Nat.le_refl.
  - eapply answered_by_reply; [reflexivity|apply Nat.le_refl|reflexivity].
Qed.

Lemma trim_answered (w : world U) :
  wire_type hdr = NBD_CMD_TRIM -> defined_NBD_FLAG_SEND_TRIM b = true ->
  answered b hdr w (run w).
Proof.
  intros Hty Hf. rewrite (serve_request_trim b aop hdr Hlen Hmagic w Hty Hf).
  cbv zeta. destruct (trim aop) as [f|].
  - destruct (f (request_from b hdr) (wire_len hdr) (userdata w)) as [status u].
    eapply answered_by_reply; [| |reflexivity].
    + sent_norm. reflexivity.
    + apply Nat.le_refl.
  - eapply answered_by_reply; [reflexivity|apply Nat.le_refl|reflexivity].
Qed.

Lemma known_request_answered (w : world U) :
  known_type b (wire_type hdr) = true -> wire_type hdr <> NBD_CMD_DISC ->
  answered b hdr w (run w).
Proof.
  intros Hk Hnd.
  destruct (known_type_cases b _ Hk) as [H|[H|[H|[[H Hf]|[H Hf]]]]];
    [apply read_answered|apply write_answered|contradiction
    |apply flush_answered|apply trim_answered]; assumption.
Qed.

End Answered.

(* ===================================================================== *)
(** * The loop                                                            *)
(* ===================================================================== *)

Section Loop.
Context {U : Type}.
Variable b : build.
Variable aop : buse_operations U.

(** A header read in full has 28 bytes, and reading it sends nothing and
    invokes nothing. *)
Lemma header_read (w w1 : world U) hdr :
  sock_read sizeof_nbd_request w = (sizeof_nbd_request, hdr, w1) ->
  length hdr = 28%nat /\ trace w1 = trace w ++ [EvRecv hdr] /\
  input_only w w1 /\ (weight (incoming w1) < weight (incoming w))%nat.
Proof.
  intros Hr.
  destruct (sock_read_spec sizeof_nbd_request w _ hdr w1 eq_refl Hr)
    as (_ & Hio & (chunks & Ht & Hc) & Hl & _ & _ & Hw).
  unfold sizeof_nbd_request in *.
  split; [lia|]. split; [|split; [exact Hio|apply Hw; lia]].
  clear - Hr. unfold sock_read in Hr.
  destruct (incoming w) as [|[data|] rest]; try discriminate.
  destruct (Z.of_nat (length data) <=? Z.min 28 MAX_RW_COUNT);
    inversion Hr; subst; reflexivity.
Qed.

(** One turn of the loop, once the header has been read in full. *)
Lemma serve_loop_step fuel (w w1 : world U) hdr :
  sock_read sizeof_nbd_request w = (sizeof_nbd_request, hdr, w1) ->
  serve_loop (S fuel) b aop w =
  bind (serve_request b aop (request_of_bytes (host b) hdr) w1) (fun t w =>
    match t with
    | Continue => serve_loop fuel b aop w
    | Return code => Done code w
    end).
Proof. intros Hr. cbn [serve_loop]. rewrite Hr. reflexivity. Qed.

(** Serving a request ends, normally or by [abort], and puts nothing back
    on the input side of the socket. *)
Lemma serve_request_ends hdr (w : world U) :
  length hdr = 28%nat ->
  match serve_request b aop (request_of_bytes (host b) hdr) w with
  | Done _ w' | Aborted w' =>
      (weight (incoming w') <= weight (incoming w))%nat
  | _ => False
  end.
Proof.
  intros Hlen.
  destruct (Z.eq_dec (wire_magic hdr) NBD_REQUEST_MAGIC) as [Hm|Hm];
    [|rewrite (serve_request_bad_magic b aop hdr Hlen w Hm); apply Nat.le_refl].
  destruct (known_type b (wire_type hdr)) eqn:Hk;
    [|rewrite (serve_request_unknown b aop hdr Hlen Hm w Hk); apply Nat.le_refl].
  destruct (Z.eq_dec (wire_type hdr) NBD_CMD_DISC) as [Hd|Hd].
  - rewrite (serve_request_disc b aop hdr Hlen Hm w Hd).
    destruct (disc aop); apply Nat.le_refl.
  - destruct (known_request_answered b aop hdr Hlen Hm w Hk Hd)
      as (status & payload & w' & Hw & [[-> _]|[-> _]]); exact Hw.
Qed.

(** The fuel [serve_nbd] starts with is never used up: the loop returns
    or aborts. *)
Lemma serve_loop_total fuel : forall w : world U,
  (weight (incoming w) < fuel)%nat ->
  exists w', (exists code, serve_loop fuel b aop w = Done code w')
             \/ serve_loop fuel b aop w = Aborted w'.
Proof.
  induction fuel as [|fuel IH]; intros w Hf; [lia|].
  cbn [serve_loop].
  destruct (sock_read sizeof_nbd_request w) as [[n hdr] w1] eqn:Hr.
  destruct (Z.gtb_spec n 0) as [Hpos|Hnp].
  - destruct (Z.eqb_spec n sizeof_nbd_request) as [->|Hne]; cbn [assert bind].
    + destruct (header_read w w1 hdr Hr) as (Hlen & _ & _ & Hw).
      pose proof (serve_request_ends hdr w1 Hlen) as He.
      destruct (serve_request b aop (request_of_bytes (host b) hdr) w1)
        as [t w2|w2|c w2|]; try contradiction; cbn [bind].
      * destruct t as [|code]; [apply IH; lia|].
        exists w2. left. exists code. reflexivity.
      * exists w2. right. reflexivity.
    + exists w1. right. reflexivity.
  - destruct (n =? -1); eexists; left; eexists; reflexivity.
Qed.

Lemma serve_nbd_total sk (w : world U) :
  exists w', (exists code, serve_nbd sk b aop w = Done code w')
             \/ serve_nbd sk b aop w = Aborted w'.
Proof. apply serve_loop_total. lia. Qed.

End Loop.

(** C4.  When the socket is at end of stream before any byte of a header,
    [serve_nbd] returns [EXIT_SUCCESS] and the process has done nothing at
    all: no reply was attempted.  When the socket delivers only a part of
    a header, fewer than 28 bytes, the process aborts on the assertion
    that follows the [read]; this is not the clean shutdown. *)
Theorem end_of_stream_and_short_header {U : Type}
  (sk : Z) (b : build) (aop : buse_operations U) (w : world U) :
  (incoming w = [] -> serve_nbd sk b aop w = Done EXIT_SUCCESS w) /\
  (forall part rest,
     incoming w = RdData part :: rest ->
     (0 < length part < 28)%nat ->
     serve_nbd sk b aop w
     = Aborted (emit (EvRecv part) (set_incoming rest w))).
Proof.
  split.
  - intros Hin. unfold serve_nbd. cbn [serve_loop]. unfold sock_read.
    rewrite Hin. reflexivity.
  - intros part rest Hin Hl. unfold serve_nbd. cbn [serve_loop].
    unfold sock_read. rewrite Hin. unfold sizeof_nbd_request, MAX_RW_COUNT.
    destruct (Z.leb_spec (Z.of_nat (length part)) (Z.min 28 2147479552)); [|lia].
    destruct (Z.gtb_spec (Z.of_nat (length part)) 0); [|lia].
    destruct (Z.eqb_spec (Z.of_nat (length part)) 28); [lia|].
    reflexivity.
Qed.

Lemma end_of_stream_and_short_header_witness :
  let part := firstn 10 (kernel_request NBD_CMD_READ handle_H 0 512) in
  serve_nbd 3 linux_x86_64 (recording_ops 0) (session [] [WrAccept 16])
  = Done EXIT_SUCCESS (session [] [WrAccept 16]) /\
  serve_nbd 3 linux_x86_64 (recording_ops 0) (session [RdData part] [WrAccept 16])
  = Aborted (emit (EvRecv part)
               (set_incoming [] (session [RdData part] [WrAccept 16]))).
Proof.
  cbv zeta. split.
  - exact (proj1 (end_of_stream_and_short_header 3 linux_x86_64
                    (recording_ops 0) (session [] [WrAccept 16])) eq_refl).
  - refine (proj2 (end_of_stream_and_short_header 3 linux_x86_64
                     (recording_ops 0)
                     (session [RdData (firstn 10 (kernel_request NBD_CMD_READ
                                                    handle_H 0 512))]
                              [WrAccept 16])) _ [] eq_refl _).
    simpl. lia.
Defined.

(** C6.  A DISCONNECT request: the [disc] callback is invoked if there is
    one, nothing is put on the socket, and [serve_nbd] returns
    [EXIT_SUCCESS] without reading any further. *)
Theorem disconnect_request_ends_session {U : Type}
  (sk : Z) (b : build) (aop : buse_operations U)
  (w w1 : world U) (hdr : list byte) :
  sock_read sizeof_nbd_request w = (sizeof_nbd_request, hdr, w1) ->
  wire_magic hdr = NBD_REQUEST_MAGIC ->
  wire_type hdr = NBD_CMD_DISC ->
  let w2 := match disc aop with
            | Some f => set_userdata (f (userdata w1)) (emit (EvCall Call_disc) w1)
            | None => w1
            end in
  serve_nbd sk b aop w = Done EXIT_SUCCESS w2 /\
  sent (trace w2) = sent (trace w) /\
  calls (trace w2) = calls (trace w) ++
                     match disc aop with Some _ => [Call_disc] | None => [] end /\
  incoming w2 = incoming w1.
Proof.
  intros Hr Hmagic Hty w2.
  destruct (header_read w w1 hdr Hr) as (Hlen & Ht & _ & _).
  split.
  - unfold serve_nbd. rewrite (serve_loop_step b aop _ w w1 hdr Hr).
    rewrite (serve_request_disc b aop hdr Hlen Hmagic w1 Hty). reflexivity.
  - subst w2. destruct (disc aop); cbn [trace incoming set_userdata emit];
      rewrite Ht, ?sent_app, ?calls_app; cbn [sent calls];
      rewrite ?app_nil_r, <- ?app_assoc; auto.
Qed.

Lemma disconnect_request_ends_session_witness :
  let b := linux_x86_64 in
  let aop := recording_ops 0 in
  let hdr := kernel_request NBD_CMD_DISC handle_H 0 0 in
  let w := session [RdData hdr] [WrAccept 16] in
  let w1 := emit (EvRecv hdr) (set_incoming [] w) in
  sock_read sizeof_nbd_request w = (sizeof_nbd_request, hdr, w1) /\
  wire_magic hdr = NBD_REQUEST_MAGIC /\
  wire_type hdr = NBD_CMD_DISC /\
  let w2 := match disc aop with
            | Some f => set_userdata (f (userdata w1)) (emit (EvCall Call_disc) w1)
            | None => w1
            end in
  serve_nbd 3 b aop w = Done EXIT_SUCCESS w2 /\
  sent (trace w2) = sent (trace w) /\
  calls (trace w2) = calls (trace w) ++
                     match disc aop with Some _ => [Call_disc] | None => [] end /\
  incoming w2 = incoming w1.
Proof.
  cbv zeta. split; [reflexivity|]. split; [reflexivity|]. split; [reflexivity|].
  exact (disconnect_request_ends_session 3 linux_x86_64 (recording_ops 0)
           (session [RdData (kernel_request NBD_CMD_DISC handle_H 0 0)]
                    [WrAccept 16])
           _ (kernel_request NBD_CMD_DISC handle_H 0 0)
           eq_refl eq_refl eq_refl).
Defined.

(** C7.  A request whose magic is not the request magic, or whose type has
    no case in the [switch], makes the process abort on an assertion as
    soon as the header is read: nothing is sent, no callback is invoked and
    no further request is read. *)
Theorem malformed_request_aborts {U : Type}
  (sk : Z) (b : build) (aop : buse_operations U)
  (w w1 : world U) (hdr : list byte) :
  sock_read sizeof_nbd_request w = (sizeof_nbd_request, hdr, w1) ->
  wire_magic hdr <> NBD_REQUEST_MAGIC \/ known_type b (wire_type hdr) = false ->
  serve_nbd sk b aop w = Aborted w1 /\
  sent (trace w1) = sent (trace w) /\
  calls (trace w1) = calls (trace w) /\
  received (trace w1) = received (trace w) ++ hdr.
Proof.
  intros Hr Hbad.
  destruct (header_read w w1 hdr Hr) as (Hlen & Ht & _ & _).
  split.
  - unfold serve_nbd. rewrite (serve_loop_step b aop _ w w1 hdr Hr).
    destruct (Z.eq_dec (wire_magic hdr) NBD_REQUEST_MAGIC) as [Hm|Hm].
    + destruct Hbad as [Hbad|Hk]; [contradiction|].
      rewrite (serve_request_unknown b aop hdr Hlen Hm w1 Hk). reflexivity.
    + rewrite (serve_request_bad_magic b aop hdr Hlen w1 Hm). reflexivity.
  - rewrite Ht, sent_app, calls_app, received_app. cbn [sent calls received].
    rewrite !app_nil_r. auto.
Qed.

Lemma malformed_request_aborts_witness :
  let b := linux_x86_64 in
  let aop := recording_ops 0 in
  let hdr := kernel_request 9 handle_H 0 0 in
  let w := session [RdData hdr] [WrAccept 16] in
  let w1 := emit (EvRecv hdr) (set_incoming [] w) in
  sock_read sizeof_nbd_request w = (sizeof_nbd_request, hdr, w1) /\
  (wire_magic hdr <> NBD_REQUEST_MAGIC \/ known_type b (wire_type hdr) = false) /\
  serve_nbd 3 b aop w = Aborted w1 /\
  sent (trace w1) = sent (trace w) /\
  calls (trace w1) = calls (trace w) /\
  received (trace w1) = received (trace w) ++ hdr.
Proof.
  cbv zeta. split; [reflexivity|]. split; [right; reflexivity|].
  exact (malformed_request_aborts 3 linux_x86_64 (recording_ops 0)
           (session [RdData (kernel_request 9 handle_H 0 0)] [WrAccept 16])
           _ (kernel_request 9 handle_H 0 0)
           eq_refl (or_intror eq_refl)).
Defined.

(** A header whose first four bytes are not the request magic. *)
Example bad_magic_run :
  let hdr := be_bytes 4 NBD_REPLY_MAGIC
             ++ skipn 4 (kernel_request NBD_CMD_READ handle_H 0 4) in
  wire_magic hdr <> NBD_REQUEST_MAGIC /\
  serve_nbd 3 linux_x86_64 (recording_ops 0)
    (session [RdData hdr] [WrAccept 16; WrAccept 4])
  = Aborted (emit (EvRecv hdr)
               (set_incoming [] (session [RdData hdr] [WrAccept 16; WrAccept 4]))).
Proof. cbv zeta. split; [vm_compute; discriminate|vm_compute; reflexivity]. Qed.

(* ===================================================================== *)
(** * The wire codec                                                      *)
(* ===================================================================== *)

Lemma load_range_8 h bs : length bs = 8%nat -> 0 <= load h bs < 2 ^ 64.
Proof. intros Hl. pose proof (load_range h bs) as H. rewrite Hl in H. exact H. Qed.

Lemma field_roundtrip_4 h f :
  length f = 4%nat -> store h 4 (htonl h (ntohl h (load h f))) = f.
Proof.
  intros Hl. rewrite htonl_ntohl by (apply load_range_4, Hl).
  rewrite <- Hl. apply store_load.
Qed.

Lemma field_roundtrip_8 b f :
  length f = 8%nat -> store (host b) 8 (htonll b (ntohll b (load (host b) f))) = f.
Proof.
  intros Hl. unfold htonll. rewrite ntohll_involutive by (apply load_range_8, Hl).
  rewrite <- Hl. apply store_load.
Qed.

Lemma header_fields (hdr : list byte) :
  length hdr = 28%nat ->
  hdr = firstn 4 hdr ++ firstn 4 (skipn 4 hdr) ++ firstn 8 (skipn 8 hdr)
        ++ firstn 8 (skipn 16 hdr) ++ firstn 4 (skipn 24 hdr).
Proof.
  intros Hl. do 28 (destruct hdr as [|? hdr]; [simpl in Hl; lia|]).
  destruct hdr; [reflexivity|simpl in Hl; lia].
Qed.

(** C9.  [ntohll] is its own inverse on 64-bit values, in every build, so
    [htonll], which is [ntohll], undoes it; [htonl] and [ntohl] undo each
    other on 32-bit values; and a 28-byte header decoded with these
    conversions and encoded again is the same 28 bytes. *)
Theorem wire_conversions_round_trip (b : build) (a x : Z) (hdr : list byte) :
  0 <= a < 2 ^ 64 ->
  0 <= x < 2 ^ 32 ->
  length hdr = 28%nat ->
  ntohll b (ntohll b a) = a /\
  htonll b (ntohll b a) = a /\
  ntohl (host b) (ntohl (host b) x) = x /\
  htonl (host b) (ntohl (host b) x) = x /\
  ntohl (host b) (htonl (host b) x) = x /\
  encode_request b (decode_request b hdr) = hdr.
Proof.
  intros Ha Hx Hl.
  split; [apply ntohll_involutive, Ha|].
  split; [apply ntohll_involutive, Ha|].
  split; [apply ntohl_involutive, Hx|].
  split; [apply ntohl_involutive, Hx|].
  split; [apply ntohl_involutive, Hx|].
  unfold encode_request, decode_request.
  cbn [request_of_bytes nbd_request.magic nbd_request.type nbd_request.handle
       nbd_request.from nbd_request.len].
  rewrite (field_roundtrip_4 _ (firstn 4 hdr)).
  2:{ apply (length_field_4 hdr Hl 0). lia. }
  rewrite !field_roundtrip_4 by (apply (length_field_4 hdr Hl); lia).
  rewrite field_roundtrip_8 by (rewrite length_firstn, length_skipn; lia).
  symmetry. apply header_fields, Hl.
Qed.

Lemma wire_conversions_round_trip_witness :
  let b := linux_x86_64 in
  let a := 0x0102030405060708 in
  let x := 0x25609513 in
  let hdr := kernel_request NBD_CMD_WRITE handle_H 4096 4 in
  0 <= a < 2 ^ 64 /\
  0 <= x < 2 ^ 32 /\
  length hdr = 28%nat /\
  ntohll b (ntohll b a) = a /\
  htonll b (ntohll b a) = a /\
  ntohl (host b) (ntohl (host b) x) = x /\
  htonl (host b) (ntohl (host b) x) = x /\
  ntohl (host b) (htonl (host b) x) = x /\
  encode_request b (decode_request b hdr) = hdr.
Proof.
  cbv zeta.
  assert (Ha : 0 <= 0x0102030405060708 < 2 ^ 64) by lia.
  assert (Hx : 0 <= 0x25609513 < 2 ^ 32) by lia.
  split; [exact Ha|]. split; [exact Hx|]. split; [reflexivity|].
  exact (wire_conversions_round_trip linux_x86_64 _ _
           (kernel_request NBD_CMD_WRITE handle_H 4096 4) Ha Hx eq_refl).
Defined.

(** Two groups of four bytes, read as one little-endian number. *)
Lemma le_combine_halves (lo4 hi4 : list byte) :
  length lo4 = 4%nat -> length hi4 = 4%nat ->
  le_combine (lo4 ++ hi4) = le_combine hi4 * 2 ^ 32 + le_combine lo4.
Proof.
  intros Hlo Hhi. rewrite le_combine_app, Hlo, Z.lor_comm.
  apply glue_halves.
  - apply (load_range_4 LittleEndian hi4 Hhi).
  - apply (load_range_4 LittleEndian lo4 Hlo).
Qed.

(** On a coherent build [ntohll] of a 64-bit field read from memory is the
    big-endian value of its eight bytes, as [ntohl] is for four. *)
Lemma ntohll_load b bs :
  coherent b -> length bs = 8%nat -> ntohll b (load (host b) bs) = be_value bs.
Proof.
  unfold coherent. intros Hc Hl.
  destruct (host b) eqn:Hh.
  - rewrite (ntohll_swapped b _ Hc) by (apply load_range_8, Hl).
    rewrite Hh. unfold load, be_value, ntohl.
    rewrite <- (firstn_skipn 4 bs).
    assert (Hlo : length (firstn 4 bs) = 4%nat) by (rewrite length_firstn; lia).
    assert (Hhi : length (skipn 4 bs) = 4%nat) by (rewrite length_skipn; lia).
    set (lo4 := firstn 4 bs) in *. set (hi4 := skipn 4 bs) in *.
    rewrite rev_app_distr.
    rewrite !le_combine_halves by (rewrite ?length_rev; assumption).
    pose proof (load_range_4 LittleEndian lo4 Hlo) as Rlo.
    pose proof (load_range_4 LittleEndian hi4 Hhi) as Rhi.
    cbn [load] in Rlo, Rhi.
    assert (EM : (le_combine hi4 * 2 ^ 32 + le_combine lo4) mod 2 ^ 32
                 = le_combine lo4).
    { rewrite Z.add_comm, Z.mod_add, Z.mod_small; lia. }
    assert (ED : (le_combine hi4 * 2 ^ 32 + le_combine lo4) / 2 ^ 32
                 = le_combine hi4).
    { rewrite Z.div_add_l, Z.div_small; lia. }
    rewrite EM, ED, !bswap_32_bytes.
    rewrite (split_le_combine' lo4 4 Hlo), (split_le_combine' hi4 4 Hhi).
    reflexivity.
  - unfold ntohll. rewrite Hc. reflexivity.
Qed.

(** So the offset [serve_nbd] hands to the callbacks is the big-endian
    value of bytes 16 to 23 of the header. *)
Lemma request_from_wire b (hdr : list byte) :
  coherent b -> length hdr = 28%nat ->
  request_from b hdr = be_value (firstn 8 (skipn 16 hdr)).
Proof.
  intros Hc Hl. apply ntohll_load; [exact Hc|].
  rewrite length_firstn, length_skipn. lia.
Qed.

Example ntohll_little_endian :
  ntohll linux_x86_64 (load LittleEndian (be_bytes 8 0x0102030405060708))
  = 0x0102030405060708.
Proof. vm_compute. reflexivity. Qed.

Example ntohll_big_endian :
  ntohll linux_s390x (load BigEndian (be_bytes 8 0x0102030405060708))
  = 0x0102030405060708.
Proof. vm_compute. reflexivity. Qed.

(* ===================================================================== *)
(** * The status field on the wire                                        *)
(* ===================================================================== *)

(** On a little-endian host the peer reads the status field of the reply
    structure with its bytes swapped. *)
Lemma wire_status_little_endian hdr e payload :
  wire_status (bytes_of_reply LittleEndian (reply_with LittleEndian hdr e) ++ payload)
  = bswap_32 e.
Proof.
  unfold wire_status. rewrite reply_status_bytes.
  cbn [reply_with nbd_reply.error]. unfold be_value, store.
  symmetry. apply bswap_32_bytes.
Qed.

(** C3.  The status a callback returns is stored into the reply structure
    as it is and leaves in host byte order.  On a little-endian build the
    status 5 that a [read], [write], [flush] or [trim] callback returns
    goes out as the bytes 05 00 00 00, which the peer decodes as
    0x05000000, whereas the status of a missing callback, stored through
    [htonl], goes out as 00 00 00 01 and decodes as [EPERM]. *)
Theorem callback_status_leaves_in_host_order :
  let served ops ty len i o :=
    serve_request linux_x86_64 ops
      (request_of_bytes LittleEndian (kernel_request ty handle_H 4096 len))
      (session i o) in
  let status_bytes (w : world (list (list byte))) :=
    firstn 4 (skipn 4 (sent (trace w))) in
  (forall hdr e payload,
     wire_status (bytes_of_reply LittleEndian (reply_with LittleEndian hdr e)
                  ++ payload) = bswap_32 e) /\
  (exists w', served (recording_ops 5) NBD_CMD_WRITE 4
                [RdData payload_1234] [WrAccept 16] = Done Continue w' /\
              status_bytes w' = map byte.of_Z [5; 0; 0; 0] /\
              wire_status (sent (trace w')) = 0x05000000) /\
  (exists w', served (recording_ops 5) NBD_CMD_READ 4
                [] [WrAccept 16; WrAccept 4] = Done Continue w' /\
              status_bytes w' = map byte.of_Z [5; 0; 0; 0] /\
              wire_status (sent (trace w')) = 0x05000000) /\
  (exists w', served (recording_ops 5) NBD_CMD_FLUSH 0
                [] [WrAccept 16] = Done Continue w' /\
              status_bytes w' = map byte.of_Z [5; 0; 0; 0] /\
              wire_status (sent (trace w')) = 0x05000000) /\
  (exists w', served (recording_ops 5) NBD_CMD_TRIM 4
                [] [WrAccept 16] = Done Continue w' /\
              status_bytes w' = map byte.of_Z [5; 0; 0; 0] /\
              wire_status (sent (trace w')) = 0x05000000) /\
  (exists w', served no_ops NBD_CMD_WRITE 4
                [RdData payload_1234] [WrAccept 16] = Done Continue w' /\
              status_bytes w' = map byte.of_Z [0; 0; 0; 1] /\
              wire_status (sent (trace w')) = EPERM).
Proof.
  cbv zeta. split; [exact wire_status_little_endian|].
  repeat split; eexists; (split; [vm_compute; reflexivity|]);
    split; vm_compute; reflexivity.
Qed.

(** On a big-endian build the same status leaves as 00 00 00 05. *)
Example callback_status_big_endian :
  exists w',
    serve_request linux_s390x (recording_ops 5)
      (request_of_bytes BigEndian (kernel_request NBD_CMD_WRITE handle_H 4096 4))
      (session [RdData payload_1234] [WrAccept 16]) = Done Continue w' /\
    wire_status (sent (trace w')) = 5.
Proof. eexists. split; vm_compute; reflexivity. Qed.

(* ===================================================================== *)
(** * The disconnect state                                                *)
(* ===================================================================== *)

(** C8.  The signal handler refines the state machine of the design.  In
    state [Active fd] it issues [NBD_DISCONNECT] on [fd], and moves to
    [Inactive] only if the request succeeds; if it fails the handler
    reports the failure and the state is unchanged, so that the next
    signal issues the request again.  In state [Inactive] it does nothing
    at all. *)
Theorem disconnect_nbd_refines_state_machine {U : Type}
  (k : kernel) (sig : signal) (w : world U) :
  let ok := negb (ioctl_result k Server NBD_DISCONNECT =? -1) in
  let w' := disconnect_nbd k sig w in
  state_of w' = handler_transition (state_of w) ok /\
  trace w' = trace w ++ handler_actions (state_of w) ok /\
  match state_of w with
  | Inactive => w' = w
  | Active fd =>
      fd = nbd_dev_to_disconnect w /\
      nbd_dev_to_disconnect w' = (if ok then -1 else fd)
  end.
Proof.
  cbv zeta. unfold disconnect_nbd, state_of, ioctl.
  destruct (Z.eqb_spec (nbd_dev_to_disconnect w) (-1)) as [E|N]; cbn [negb].
  - rewrite E. cbn. rewrite app_nil_r. repeat split.
  - destruct (Z.eqb_spec (ioctl_result k Server NBD_DISCONNECT) (-1)) as [F|S];
      cbn [negb handler_transition handler_actions emit
           set_nbd_dev_to_disconnect trace nbd_dev_to_disconnect].
    + destruct (Z.eqb_spec (nbd_dev_to_disconnect w) (-1)); [contradiction|].
      rewrite <- app_assoc. repeat split.
    + rewrite <- app_assoc. repeat split.
Qed.

(** A signal that finds the kernel unwilling leaves the handle recorded;
    the next signal disconnects. *)
Example disconnect_retried_on_next_signal :
  let w1 := disconnect_nbd kernel_refusing_disconnect SIGINT stale_session in
  let w2 := disconnect_nbd willing_kernel SIGTERM w1 in
  state_of stale_session = Active 5 /\ state_of w1 = Active 5 /\
  state_of w2 = Inactive /\
  trace w2 = [EvIoctl 5 NBD_DISCONNECT 0; EvStderr Msg_disconnect_failed;
              EvIoctl 5 NBD_DISCONNECT 0; EvStderr Msg_disconnect_requested].
Proof. repeat split. Qed.

(* ===================================================================== *)
(** * [buse_main] and the recorded handle                                 *)
(* ===================================================================== *)

Section Main.
Context {U : Type}.
Variable b : build.
Variable k : kernel.
Variable aop : buse_operations U.

Lemma configure_keeps_handle nbd req v (w : world U) :
  match configure k nbd req v w with
  | Done _ w' | Aborted w' =>
      nbd_dev_to_disconnect w' = nbd_dev_to_disconnect w
  | _ => False
  end.
Proof.
  unfold configure, ioctl, assert.
  destruct (negb (v =? 0)); [|reflexivity].
  destruct (negb (ioctl_result k Server req =? -1)); reflexivity.
Qed.

(** The controller never returns: it ends in [exit], and the global is
    none of its business. *)
Lemma controller_exits nbd (w : world U) :
  exists code w', controller b k nbd w = Exited code w' /\
                  nbd_dev_to_disconnect w' = nbd_dev_to_disconnect w.
Proof.
  unfold controller, ioctl.
  repeat match goal with
         | |- context [if ?c then _ else _] => destruct c
         end; eexists; eexists; split; reflexivity.
Qed.

(** The assertion of line 278. *)
Lemma server_asserts_no_active_device nbd (w : world U) :
  nbd_dev_to_disconnect w <> -1 -> server b k aop nbd w = Aborted w.
Proof.
  intros Hs. unfold server, assert.
  destruct (Z.eqb_spec (nbd_dev_to_disconnect w) (-1)); [contradiction|].
  reflexivity.
Qed.

End Main.

(** C10, as the program has it.  Entered while a handle is still
    recorded, [buse_main] never overwrites it.  If the device cannot be
    opened it returns 1 before any assertion on the global; in the forked
    controller it ends in [exit]; in every other case the process aborts,
    at the latest on the assertion that the global holds -1. *)
Theorem buse_main_keeps_recorded_handle {U : Type}
  (b : build) (k : kernel) (aop : buse_operations U) (w : world U) :
  nbd_dev_to_disconnect w <> -1 ->
  match buse_main b k aop w with
  | Aborted w' => nbd_dev_to_disconnect w' = nbd_dev_to_disconnect w
  | Done code w' =>
      code = 1 /\ open_rdwr_result k = -1 /\
      nbd_dev_to_disconnect w' = nbd_dev_to_disconnect w
  | Exited _ w' =>
      open_rdwr_result k <> -1 /\ fork_result k = 0 /\
      nbd_dev_to_disconnect w' = nbd_dev_to_disconnect w
  | OutOfFuel => False
  end.
Proof.
  intros Hs. unfold buse_main.
  unfold assert at 1. destruct (socketpair_result k =? 0); [|reflexivity].
  cbn [bind].
  destruct (Z.eqb_spec (open_rdwr_result k) (-1)) as [Ho|Ho];
    [repeat split; assumption|].
  pose proof (configure_keeps_handle k (open_rdwr_result k) NBD_SET_BLKSIZE
                (blksize aop) w) as H1.
  destruct (configure k _ NBD_SET_BLKSIZE _ w) as [[] w1|w1| |];
    try contradiction; cbn [bind]; [|exact H1].
  pose proof (configure_keeps_handle k (open_rdwr_result k) NBD_SET_SIZE
                (size aop) w1) as H2.
  destruct (configure k _ NBD_SET_SIZE _ w1) as [[] w2|w2| |];
    try contradiction; cbn [bind]; [|congruence].
  pose proof (configure_keeps_handle k (open_rdwr_result k) NBD_SET_SIZE_BLOCKS
                (size_blocks aop) w2) as H3.
  destruct (configure k _ NBD_SET_SIZE_BLOCKS _ w2) as [[] w3|w3| |];
    try contradiction; cbn [bind]; [|congruence].
  unfold ioctl, assert.
  destruct (negb (ioctl_result k Server NBD_CLEAR_SOCK =? -1)); cbn [bind];
    [|cbn; congruence].
  set (w4 := emit _ w3).
  assert (H4 : nbd_dev_to_disconnect w4 = nbd_dev_to_disconnect w)
    by (subst w4; cbn; congruence).
  destruct (Z.eqb_spec (fork_result k) 0) as [Hf|Hf].
  - destruct (controller_exits b k (open_rdwr_result k) w4)
      as (code & w' & -> & Hc).
    repeat split; [exact Ho|exact Hf|congruence].
  - rewrite server_asserts_no_active_device by congruence. exact H4.
Qed.

Lemma buse_main_keeps_recorded_handle_witness :
  nbd_dev_to_disconnect stale_session <> -1 /\
  match buse_main linux_x86_64 willing_kernel (recording_ops 0) stale_session with
  | Aborted w' => nbd_dev_to_disconnect w' = nbd_dev_to_disconnect stale_session
  | Done code w' =>
      code = 1 /\ open_rdwr_result willing_kernel = -1 /\
      nbd_dev_to_disconnect w' = nbd_dev_to_disconnect stale_session
  | Exited _ w' =>
      open_rdwr_result willing_kernel <> -1 /\ fork_result willing_kernel = 0 /\
      nbd_dev_to_disconnect w' = nbd_dev_to_disconnect stale_session
  | OutOfFuel => False
  end.
Proof.
  assert (H : nbd_dev_to_disconnect stale_session <> -1) by discriminate.
  split; [exact H|].
  exact (buse_main_keeps_recorded_handle linux_x86_64 willing_kernel
           (recording_ops 0) stale_session H).
Defined.

(** C10, as it is worded: with a handle recorded and a device that cannot
    be opened, [buse_main] returns 1; the process does not abort. *)
Lemma buse_main_returns_without_device :
  nbd_dev_to_disconnect stale_session <> -1 /\
  buse_main linux_x86_64 kernel_without_device (recording_ops 0) stale_session
  = Done 1 (emit (EvStderr Msg_open_failed) stale_session) /\
  ~ (exists w', buse_main linux_x86_64 kernel_without_device (recording_ops 0)
                  stale_session = Aborted w').
Proof.
  split; [discriminate|]. split; [reflexivity|].
  intros [w' H]. discriminate H.
Qed.

(** With a willing kernel the same call aborts on the assertion, after the
    geometry requests and [NBD_CLEAR_SOCK]. *)
Example buse_main_aborts_on_recorded_handle :
  exists w',
    buse_main linux_x86_64 willing_kernel (recording_ops 0) stale_session
    = Aborted w' /\
    nbd_dev_to_disconnect w' = 5 /\
    trace w' = [EvIoctl 5 NBD_SET_BLKSIZE 512; EvIoctl 5 NBD_SET_SIZE 1048576;
                EvIoctl 5 NBD_CLEAR_SOCK 0].
Proof. eexists. repeat split. Qed.

(** A first session, with nothing recorded, starts serving and records
    the device. *)
Example buse_main_first_session :
  exists w',
    buse_main linux_x86_64 willing_kernel (recording_ops 0)
      (session [RdData (kernel_request NBD_CMD_DISC handle_H 0 0)] [])
    = Done EXIT_SUCCESS w' /\
    nbd_dev_to_disconnect w' = 5 /\
    handler w' SIGINT = SIG_disconnect_nbd /\
    handler w' SIGTERM = SIG_disconnect_nbd /\
    calls (trace w') = [Call_disc] /\ sent (trace w') = [].
Proof. eexists. split; [vm_compute; reflexivity|]. repeat split. Qed.

(* ===================================================================== *)
(** * A whole session                                                     *)
(* ===================================================================== *)

(** A WRITE, a READ and then the end of the stream: the two replies leave
    in the order of the requests, each with its handle, and [serve_nbd]
    returns [EXIT_SUCCESS]. *)
Example two_requests_in_order :
  let handle_K := map byte.of_Z [1; 1; 2; 3; 5; 8; 13; 21] in
  exists w',
    serve_nbd 3 linux_x86_64 (recording_ops 0)
      (session [RdData (kernel_request NBD_CMD_WRITE handle_H 0 4);
                RdData payload_1234;
                RdData (kernel_request NBD_CMD_READ handle_K 0 2)]
               [WrAccept 16; WrAccept 16; WrAccept 2])
    = Done EXIT_SUCCESS w' /\
    userdata w' = [payload_1234] /\
    calls (trace w') = [Call_write payload_1234 4 0; Call_read 2 0] /\
    sent (trace w')
    = (be_bytes 4 NBD_REPLY_MAGIC ++ be_bytes 4 0 ++ handle_H)
      ++ (be_bytes 4 NBD_REPLY_MAGIC ++ be_bytes 4 0 ++ handle_K)
      ++ map byte.of_Z [0xab; 0xab].
Proof.
  cbv zeta. eexists. split; [vm_compute; reflexivity|].
  repeat split; vm_compute; reflexivity.
Qed.

(** The header and the payload may arrive glued together, and the socket
    may take the reply in pieces. *)
Example glued_input_and_piecewise_output :
  exists w',
    serve_nbd 3 linux_x86_64 (recording_ops 0)
      (session [RdData (kernel_request NBD_CMD_WRITE handle_H 0 4 ++ payload_1234)]
               [WrAccept 5; WrAccept 11])
    = Done EXIT_SUCCESS w' /\
    userdata w' = [payload_1234] /\
    sent (trace w') = be_bytes 4 NBD_REPLY_MAGIC ++ be_bytes 4 0 ++ handle_H.
Proof.
  eexists. split; [vm_compute; reflexivity|].
  repeat split; vm_compute; reflexivity.
Qed.

(** The payload of a WRITE cut short by the end of the stream: the process
    aborts in [read_all], having sent nothing. *)
Example truncated_payload_aborts :
  exists w',
    serve_nbd 3 linux_x86_64 (recording_ops 0)
      (session [RdData (kernel_request NBD_CMD_WRITE handle_H 0 4);
                RdData (map byte.of_Z [1; 2])]
               [WrAccept 16])
    = Aborted w' /\
    calls (trace w') = [] /\ sent (trace w') = [].
Proof.
  eexists. split; [vm_compute; reflexivity|].
  repeat split; vm_compute; reflexivity.
Qed.

(* ===================================================================== *)
(** * [read_all] and [write_all] against the whole socket                 *)
(* ===================================================================== *)

Lemma available_nonneg i : 0 <= available i.
Proof.
  induction i as [|[[|b bs]|] rest IH]; cbn [available]; lia.
Qed.

Lemma available_data (l : list byte) rest :
  l <> [] -> available (RdData l :: rest) = Z.of_nat (length l) + available rest.
Proof. destruct l; [contradiction|reflexivity]. Qed.

Lemma room_ahead_nonneg o : 0 <= room_ahead o.
Proof.
  induction o as [|[room|] rest IH]; cbn [room_ahead]; try lia.
  destruct (Z.gtb_spec room 0); unfold MAX_RW_COUNT; lia.
Qed.

Section Reassembly.
Context {U : Type}.
Implicit Types w : world U.

(** Whether the loop of [read_all] gets through is decided by the number
    of bytes available, not by how they are cut into [read]s. *)
Lemma read_all_loop_available fuel : forall buf count w,
  0 <= count -> (Z.to_nat count <= fuel)%nat ->
  if count <=? available (incoming w)
  then exists data w', read_all_loop fuel buf count w = Done data w'
  else exists w', read_all_loop fuel buf count w = Aborted w'.
Proof.
  induction fuel as [|fuel IH]; intros buf count w Hc Hf.
  - assert (count = 0) as -> by lia.
    pose proof (available_nonneg (incoming w)).
    destruct (Z.leb_spec 0 (available (incoming w))); [|lia].
    eexists; eexists; reflexivity.
  - cbn [read_all_loop]. destruct (Z.gtb_spec count 0) as [Hpos|Hz].
    2:{ assert (count = 0) as -> by lia.
        pose proof (available_nonneg (incoming w)).
        destruct (Z.leb_spec 0 (available (incoming w))); [|lia].
        eexists; eexists; reflexivity. }
    unfold sock_read.
    destruct (incoming w) as [|[[|x data]|] rest] eqn:Hin.
    + cbn [available]. destruct (Z.leb_spec count 0); [lia|].
      eexists; reflexivity.
    + cbn [available length Z.of_nat].
      destruct (Z.leb_spec 0 (Z.min count MAX_RW_COUNT));
        [|unfold MAX_RW_COUNT in *; lia].
      destruct (Z.leb_spec count 0); [lia|]. eexists; reflexivity.
    + set (l := x :: data) in *.
      assert (Hl : 0 < Z.of_nat (length l)) by (subst l; cbn [length]; lia).
      rewrite (available_data l rest) by (subst l; discriminate).
      destruct (Z.leb_spec (Z.of_nat (length l)) (Z.min count MAX_RW_COUNT))
        as [Hle|Hgt].
      * unfold MAX_RW_COUNT in Hle. rewrite to_int_small by lia.
        destruct (Z.gtb_spec (Z.of_nat (length l)) 0); [|lia].
        specialize (IH (buf ++ l) (count - Z.of_nat (length l))
                       (emit (EvRecv l) (set_incoming rest w))
                       ltac:(lia) ltac:(lia)).
        cbn [incoming emit set_incoming] in IH.
        destruct (Z.leb_spec count (Z.of_nat (length l) + available rest));
          destruct (Z.leb_spec (count - Z.of_nat (length l)) (available rest));
          try lia; exact IH.
      * set (room := Z.min count MAX_RW_COUNT) in *.
        assert (Hroom : 0 < room < 2 ^ 31) by (unfold room, MAX_RW_COUNT; lia).
        rewrite to_int_small by lia.
        destruct (Z.gtb_spec room 0); [|lia].
        specialize (IH (buf ++ firstn (Z.to_nat room) l) (count - room)
                       (emit (EvRecv (firstn (Z.to_nat room) l))
                          (set_incoming (RdData (skipn (Z.to_nat room) l) :: rest) w))
                       ltac:(lia) ltac:(lia)).
        cbn [incoming emit set_incoming] in IH.
        rewrite available_data in IH.
        2:{ intros E. apply (f_equal (@length byte)) in E.
            rewrite length_skipn in E. cbn [length] in E. lia. }
        rewrite length_skipn in IH.
        destruct (Z.leb_spec count (Z.of_nat (length l) + available rest));
          destruct (Z.leb_spec (count - room)
                      (Z.of_nat (length l - Z.to_nat room) + available rest));
          try lia; exact IH.
    + cbn [available]. destruct (Z.leb_spec count 0); [lia|].
      eexists; reflexivity.
Qed.

(** The same for [write_all] and the room the socket has. *)
Lemma write_all_loop_room fuel : forall buf count w,
  0 <= count -> (Z.to_nat count <= fuel)%nat ->
  if count <=? room_ahead (outgoing w)
  then exists w', write_all_loop fuel buf count w = Done tt w'
  else exists w', write_all_loop fuel buf count w = Aborted w'.
Proof.
  induction fuel as [|fuel IH]; intros buf count w Hc Hf.
  - assert (count = 0) as -> by lia.
    pose proof (room_ahead_nonneg (outgoing w)).
    destruct (Z.leb_spec 0 (room_ahead (outgoing w))); [|lia].
    eexists; reflexivity.
  - cbn [write_all_loop]. destruct (Z.gtb_spec count 0) as [Hpos|Hz].
    2:{ assert (count = 0) as -> by lia.
        pose proof (room_ahead_nonneg (outgoing w)).
        destruct (Z.leb_spec 0 (room_ahead (outgoing w))); [|lia].
        eexists; reflexivity. }
    unfold sock_write.
    destruct (outgoing w) as [|[room|] rest] eqn:Hout.
    + cbn [room_ahead]. destruct (Z.leb_spec count 0); [lia|].
      eexists; reflexivity.
    + cbn [room_ahead].
      pose proof (room_ahead_nonneg rest) as Hr.
      set (n := Z.max 0 (Z.min (Z.min count room) MAX_RW_COUNT)).
      assert (Hn : 0 <= n < 2 ^ 31) by (unfold n, MAX_RW_COUNT; lia).
      rewrite to_int_small by lia.
      destruct (Z.gtb_spec room 0) as [Hrp|Hrn].
      * assert (Hnp : 0 < n) by (unfold n, MAX_RW_COUNT; lia).
        destruct (Z.gtb_spec n 0); [|lia].
        specialize (IH (skipn (Z.to_nat n) buf) (count - n)
                       (emit (EvSend (firstn (Z.to_nat n) buf)) (set_outgoing rest w))
                       ltac:(unfold n; lia) ltac:(lia)).
        cbn [outgoing emit set_outgoing] in IH.
        unfold n, MAX_RW_COUNT in *.
        destruct (Z.leb_spec count (Z.min room 2147479552 + room_ahead rest));
          destruct (Z.leb_spec
                      (count - Z.max 0 (Z.min (Z.min count room) 2147479552))
                      (room_ahead rest));
          try lia; exact IH.
      * assert (n = 0) as -> by (unfold n, MAX_RW_COUNT; lia).
        destruct (Z.leb_spec count 0); [lia|]. eexists; reflexivity.
    + cbn [room_ahead]. destruct (Z.leb_spec count 0); [lia|].
      eexists; reflexivity.
Qed.

End Reassembly.

(** X1.  [read_all] reassembles short reads.  Asked for [count] bytes, it
    returns exactly the next [count] bytes the socket had pending, and
    leaves the rest pending, whenever that many bytes arrive before a
    [read] returns 0 or -1, however they are cut into [read]s; otherwise
    it aborts, having taken fewer than [count] bytes.  Either way it writes
    nothing and leaves the rest of the process alone. *)
Theorem read_all_reassembles {U : Type} (count : Z) (w : world U) :
  0 <= count ->
  let n := Z.to_nat count in
  if count <=? available (incoming w)
  then exists w',
         read_all count w = Done (firstn n (pending (incoming w))) w' /\
         pending (incoming w') = skipn n (pending (incoming w)) /\
         received (trace w')
         = received (trace w) ++ firstn n (pending (incoming w)) /\
         sent (trace w') = sent (trace w) /\ input_only w w'
  else exists w' taken,
         read_all count w = Aborted w' /\
         received (trace w') = received (trace w) ++ taken /\
         Z.of_nat (length taken) < count /\
         sent (trace w') = sent (trace w) /\ input_only w w'.
Proof.
  intros Hc n.
  pose proof (read_all_loop_available (Z.to_nat count) [] count w Hc
                (Nat.le_refl _)) as Hav.
  fold (read_all count w) in Hav.
  destruct (read_all_spec count w Hc)
    as (chunks & w1 & Hio & Ht & _ & Hp & Hres).
  destruct (count <=? available (incoming w)).
  - destruct Hav as (data & w' & Hd).
    destruct Hres as [[Hr Hl]|[Hr _]]; [|congruence].
    assert (Hn : length (concat chunks) = n) by (subst n; lia).
    exists w1. rewrite Hp, <- Hn.
    rewrite firstn_app, firstn_all, Nat.sub_diag, firstn_O, app_nil_r.
    rewrite skipn_app, skipn_all, Nat.sub_diag. cbn [skipn app].
    rewrite Ht, received_app, sent_app, received_recv, sent_recv, app_nil_r.
    auto.
  - destruct Hav as (w' & Hd).
    destruct Hres as [[Hr _]|[Hr Hl]]; [congruence|].
    exists w1, (concat chunks).
    rewrite Ht, received_app, sent_app, received_recv, sent_recv, app_nil_r.
    auto.
Qed.

Lemma read_all_reassembles_witness :
  let w := session [RdData (map byte.of_Z [1; 2]);
                    RdData (map byte.of_Z [3; 4; 5])] [] in
  let count := 4 in
  0 <= count /\
  let n := Z.to_nat count in
  if count <=? available (incoming w)
  then exists w',
         read_all count w = Done (firstn n (pending (incoming w))) w' /\
         pending (incoming w') = skipn n (pending (incoming w)) /\
         received (trace w')
         = received (trace w) ++ firstn n (pending (incoming w)) /\
         sent (trace w') = sent (trace w) /\ input_only w w'
  else exists w' taken,
         read_all count w = Aborted w' /\
         received (trace w') = received (trace w) ++ taken /\
         Z.of_nat (length taken) < count /\
         sent (trace w') = sent (trace w) /\ input_only w w'.
Proof.
  cbv zeta. assert (H : 0 <= 4) by lia. split; [exact H|].
  exact (read_all_reassembles 4
           (session [RdData (map byte.of_Z [1; 2]);
                     RdData (map byte.of_Z [3; 4; 5])] []) H).
Defined.

(** X2.  [write_all] puts the whole buffer on the socket, in order and
    once, whenever the socket has room for it before a [write] returns 0
    or -1, however many [write]s that takes; otherwise it aborts, having
    put a proper prefix of the buffer on the socket.  Either way it reads
    nothing and leaves the rest of the process alone. *)
Theorem write_all_places_buffer {U : Type}
  (buf : list byte) (count : Z) (w : world U) :
  Z.of_nat (length buf) = count ->
  if count <=? room_ahead (outgoing w)
  then exists w',
         write_all buf count w = Done tt w' /\
         sent (trace w') = sent (trace w) ++ buf /\
         received (trace w') = received (trace w) /\ output_only w w'
  else exists w' rest,
         write_all buf count w = Aborted w' /\
         rest <> [] /\ sent (trace w) ++ buf = sent (trace w') ++ rest /\
         received (trace w') = received (trace w) /\ output_only w w'.
Proof.
  intros Hl.
  pose proof (write_all_loop_room (Z.to_nat count) buf count w
                ltac:(lia) (Nat.le_refl _)) as Hroom.
  fold (write_all buf count w) in Hroom.
  destruct (write_all_spec buf count w Hl)
    as (pieces & w1 & Hio & Ht & Hres).
  destruct (count <=? room_ahead (outgoing w)).
  - destruct Hroom as (w' & Hd).
    destruct Hres as [[Hr Hc]|[Hr _]]; [|congruence].
    exists w1.
    rewrite Ht, received_app, sent_app, received_send, sent_send, app_nil_r, Hc.
    auto.
  - destruct Hroom as (w' & Hd).
    destruct Hres as [[Hr _]|[Hr (rest & Hne & Hc)]]; [congruence|].
    exists w1, rest.
    rewrite Ht, received_app, sent_app, received_send, sent_send, app_nil_r.
    split; [exact Hr|]. split; [exact Hne|].
    split; [rewrite Hc, app_assoc; reflexivity|]. auto.
Qed.

Lemma write_all_places_buffer_witness :
  let w := session [] [WrAccept 1; WrAccept 2; WrAccept 100] in
  let buf := payload_1234 in
  let count := 4 in
  Z.of_nat (length buf) = count /\
  if count <=? room_ahead (outgoing w)
  then exists w',
         write_all buf count w = Done tt w' /\
         sent (trace w') = sent (trace w) ++ buf /\
         received (trace w') = received (trace w) /\ output_only w w'
  else exists w' rest,
         write_all buf count w = Aborted w' /\
         rest <> [] /\ sent (trace w) ++ buf = sent (trace w') ++ rest /\
         received (trace w') = received (trace w) /\ output_only w w'.
Proof.
  cbv zeta. split; [reflexivity|].
  exact (write_all_places_buffer payload_1234 4
           (session [] [WrAccept 1; WrAccept 2; WrAccept 100]) eq_refl).
Defined.

(* ===================================================================== *)
(** * What the loop leaves alone                                          *)
(* ===================================================================== *)

Lemma later_trans i1 i2 i3 : later i1 i2 -> later i2 i3 -> later i1 i3.
Proof.
  intros H12. revert i3. induction H12; intros i3 H23; auto.
  - apply later_pop. auto.
  - eapply later_trim. auto.
Qed.

Lemma later_error i i' : later i i' -> In RdError i' -> In RdError i.
Proof.
  induction 1 as [i|e i i' _ IH|bs n rest i' _ IH]; intros Hin; auto.
  - right. auto.
  - destruct (IH Hin) as [E|Hr]; [discriminate E|right; exact Hr].
Qed.

Section Kept.
Context {U : Type}.
Implicit Types w : world U.

Lemma kept_refl w : kept w w.
Proof. repeat split. apply later_refl. Qed.

Lemma kept_trans w1 w2 w3 : kept w1 w2 -> kept w2 w3 -> kept w1 w3.
Proof.
  intros ((Hd & Hh) & Hf & Hl) ((Hd' & Hh') & Hf' & Hl').
  repeat split; try congruence. eapply later_trans; eassumption.
Qed.

Lemma kept_emit e w : kept w (emit e w).
Proof. repeat split. apply later_refl. Qed.

Lemma kept_set_userdata u w : kept w (set_userdata u w).
Proof. repeat split. apply later_refl. Qed.

Lemma kept_output_only w w' : output_only w w' -> kept w w'.
Proof.
  intros (Hi & _ & Hf & Hd & Hh). repeat split; auto.
  rewrite Hi. apply later_refl.
Qed.

Lemma sock_read_later count w n bs w1 :
  sock_read count w = (n, bs, w1) -> later (incoming w) (incoming w1).
Proof.
  unfold sock_read. destruct (incoming w) as [|[data|] rest] eqn:Hin.
  - intros [= <- <- <-]. rewrite Hin. apply later_refl.
  - destruct (Z.of_nat (length data) <=? Z.min count MAX_RW_COUNT);
      intros [= <- <- <-]; cbn [incoming emit set_incoming].
    + apply later_pop, later_refl.
    + eapply later_trim, later_refl.
  - intros [= <- <- <-]. apply later_pop, later_refl.
Qed.

Lemma read_all_loop_later fuel : forall buf count w,
  match read_all_loop fuel buf count w with
  | Done _ w' | Aborted w' => later (incoming w) (incoming w')
  | _ => True
  end.
Proof.
  induction fuel as [|fuel IH]; intros buf count w; cbn [read_all_loop].
  - destruct (count >? 0); [exact I|].
    unfold assert. destruct (count =? 0); apply later_refl.
  - destruct (count >? 0).
    + destruct (sock_read count w) as [[n bs] w1] eqn:Hr.
      pose proof (sock_read_later _ _ _ _ _ Hr) as Hl.
      destruct (to_int n >? 0); [|exact Hl].
      specialize (IH (buf ++ bs) (count - to_int n) w1).
      destruct (read_all_loop fuel (buf ++ bs) (count - to_int n) w1);
        auto; eapply later_trans; eassumption.
    + unfold assert. destruct (count =? 0); apply later_refl.
Qed.

Lemma kept_read_all count w :
  0 <= count ->
  exists data w', kept w w' /\ userdata w' = userdata w /\
    (read_all count w = Done data w' \/ read_all count w = Aborted w').
Proof.
  intros Hc.
  pose proof (read_all_loop_later (Z.to_nat count) [] count w) as Hl.
  fold (read_all count w) in Hl.
  destruct (read_all_spec count w Hc)
    as (chunks & w1 & (_ & Hu & Hf & Hd & Hh) & _ & _ & _ & Hres).
  exists (concat chunks), w1.
  destruct Hres as [[Hr _]|[Hr _]]; rewrite Hr in Hl;
    (split; [repeat split; assumption|]); split; auto.
Qed.

Lemma kept_write_all buf count w :
  Z.of_nat (length buf) = count ->
  exists w', kept w w' /\ userdata w' = userdata w /\
    (write_all buf count w = Done tt w' \/ write_all buf count w = Aborted w').
Proof.
  intros Hl.
  destruct (write_all_spec buf count w Hl) as (pieces & w1 & Hio & _ & Hres).
  exists w1. split; [apply kept_output_only, Hio|].
  split; [apply Hio|].
  destruct Hres as [[Hr _]|[Hr _]]; auto.
Qed.

End Kept.

Section Turn.
Context {U : Type}.
Variable b : build.
Variable aop : buse_operations U.
Variable hdr : list byte.
Hypothesis Hlen : length hdr = 28%nat.

Lemma turn_ends_reply (w w1 : world U) reply :
  Z.of_nat (length reply) = sizeof_nbd_reply -> kept w w1 ->
  turn_ends w (bind (write_all reply sizeof_nbd_reply w1)
                    (fun _ w => Done Continue w)).
Proof.
  intros Hl Hk.
  destruct (kept_write_all reply sizeof_nbd_reply w1 Hl)
    as (w2 & Hk2 & _ & [->| ->]); cbn [bind turn_ends];
    eauto using kept_trans.
Qed.

Lemma turn_ends_reply_chunk (w w1 : world U) reply chunk L :
  Z.of_nat (length reply) = sizeof_nbd_reply ->
  Z.of_nat (length chunk) = L -> kept w w1 ->
  turn_ends w (bind (write_all reply sizeof_nbd_reply w1) (fun _ w =>
               bind (write_all chunk L w) (fun _ w => Done Continue w))).
Proof.
  intros Hl Hc Hk.
  destruct (kept_write_all reply sizeof_nbd_reply w1 Hl)
    as (w2 & Hk2 & _ & [->| ->]); cbn [bind turn_ends];
    [|eauto using kept_trans].
  destruct (kept_write_all chunk L w2 Hc)
    as (w3 & Hk3 & _ & [->| ->]); cbn [bind turn_ends];
    eauto 6 using kept_trans.
Qed.

(** Every request ends in one of the three ways, and keeps the world. *)
Lemma serve_request_turn_ends (w : world U) :
  turn_ends w (serve_request b aop (request_of_bytes (host b) hdr) w).
Proof.
  destruct (Z.eq_dec (wire_magic hdr) NBD_REQUEST_MAGIC) as [Hm|Hm];
    [|rewrite (serve_request_bad_magic b aop hdr Hlen w Hm); apply kept_refl].
  destruct (known_type b (wire_type hdr)) eqn:Hk;
    [|rewrite (serve_request_unknown b aop hdr Hlen Hm w Hk); apply kept_refl].
  pose proof (wire_len_range hdr Hlen) as HL.
  destruct (known_type_cases b _ Hk) as [H|[H|[H|[[H Hf]|[H Hf]]]]].
  - rewrite (serve_request_read b aop hdr Hlen Hm w H). cbv zeta.
    set (w0 := emit _ w).
    assert (Hm0 : Z.of_nat (length (malloc w0 (wire_len hdr))) = wire_len hdr)
      by (rewrite length_malloc; lia).
    destruct (read aop) as [f|].
    + destruct (f _ _ _ _) as [[data status] u].
      apply turn_ends_reply_chunk;
        [apply length_reply_with, Hlen|rewrite length_fill; exact Hm0|].
      eapply kept_trans; [apply kept_emit|].
      eapply kept_trans; [apply kept_emit|apply kept_set_userdata].
    + apply turn_ends_reply_chunk;
        [apply length_reply_with, Hlen|exact Hm0|apply kept_emit].
  - rewrite (serve_request_write b aop hdr Hlen Hm w H). cbv zeta.
    set (w0 := emit _ w).
    destruct (kept_read_all (wire_len hdr) w0 ltac:(lia))
      as (data & w1 & Hk1 & _ & [->| ->]); cbn [bind].
    + assert (Hk0 : kept w w1) by (eapply kept_trans; [apply kept_emit|exact Hk1]).
      destruct (write aop) as [f|].
      * destruct (f _ _ _ _) as [status u].
        apply turn_ends_reply; [apply length_reply_with, Hlen|].
        eapply kept_trans; [exact Hk0|].
        eapply kept_trans; [apply kept_emit|apply kept_set_userdata].
      * apply turn_ends_reply; [apply length_reply_with, Hlen|exact Hk0].
    + cbn [turn_ends]. eapply kept_trans; [apply kept_emit|exact Hk1].
  - rewrite (serve_request_disc b aop hdr Hlen Hm w H). cbn [turn_ends].
    split; [right; reflexivity|].
    destruct (disc aop); [|apply kept_refl].
    eapply kept_trans; [apply kept_emit|apply kept_set_userdata].
  - rewrite (serve_request_flush b aop hdr Hlen Hm w H Hf).
    destruct (flush aop) as [f|].
    + destruct (f _) as [status u].
      apply turn_ends_reply; [apply length_reply_with, Hlen|].
      eapply kept_trans; [apply kept_emit|apply kept_set_userdata].
    + apply turn_ends_reply; [apply length_reply_with, Hlen|apply kept_refl].
  - rewrite (serve_request_trim b aop hdr Hlen Hm w H Hf). cbv zeta.
    destruct (trim aop) as [f|].
    + destruct (f _ _ _) as [status u].
      apply turn_ends_reply; [apply length_reply_with, Hlen|].
      eapply kept_trans; [apply kept_emit|apply kept_set_userdata].
    + apply turn_ends_reply; [apply length_reply_with, Hlen|apply kept_refl].
Qed.

End Turn.

(* ===================================================================== *)
(** * How a session ends                                                  *)
(* ===================================================================== *)

Section Session.
Context {U : Type}.
Variable b : build.
Variable aop : buse_operations U.

Lemma sock_read_error count (w w1 : world U) bs :
  0 < count -> sock_read count w = (-1, bs, w1) -> In RdError (incoming w).
Proof.
  intros Hc. unfold sock_read, MAX_RW_COUNT.
  destruct (incoming w) as [|[data|] rest]; [discriminate| |left; reflexivity].
  destruct (Z.of_nat (length data) <=? Z.min count 2147479552);
    intros [= E _ _]; lia.
Qed.

Lemma kept_sock_read count (w w1 : world U) n bs :
  0 < count -> sock_read count w = (n, bs, w1) -> kept w w1.
Proof.
  intros Hc Hr.
  destruct (sock_read_spec count w n bs w1 Hc Hr)
    as (_ & (_ & _ & Hf & Hd & Hh) & _).
  repeat split; auto. eapply sock_read_later, Hr.
Qed.

(** The loop on enough fuel: it returns [EXIT_SUCCESS], or it returns
    [EXIT_FAILURE] and the socket had an error in store, or it aborts. *)
Lemma serve_loop_ends fuel : forall w : world U,
  (weight (incoming w) < fuel)%nat ->
  exists w', kept w w' /\
    (serve_loop fuel b aop w = Done EXIT_SUCCESS w' \/
     (serve_loop fuel b aop w = Done EXIT_FAILURE w' /\
      In RdError (incoming w)) \/
     serve_loop fuel b aop w = Aborted w').
Proof.
  induction fuel as [|fuel IH]; intros w Hf; [lia|].
  cbn [serve_loop].
  destruct (sock_read sizeof_nbd_request w) as [[n hdr] w1] eqn:Hr.
  pose proof (kept_sock_read sizeof_nbd_request w w1 n hdr eq_refl Hr) as Hk1.
  destruct (Z.gtb_spec n 0) as [Hpos|Hnp].
  - destruct (Z.eqb_spec n sizeof_nbd_request) as [->|Hne]; cbn [assert bind];
      [|exists w1; auto].
    destruct (header_read w w1 hdr Hr) as (Hlen & _ & _ & Hw).
    pose proof (serve_request_ends b aop hdr w1 Hlen) as He.
    pose proof (serve_request_turn_ends b aop hdr Hlen w1) as Ht.
    destruct (serve_request b aop (request_of_bytes (host b) hdr) w1)
      as [t w2|w2|c w2|]; try contradiction; cbn [bind turn_ends] in *.
    + destruct Ht as [[->| ->] Hk2].
      * destruct (IH w2 ltac:(lia)) as (w' & Hk3 & Hres).
        exists w'. split; [eauto using kept_trans|].
        destruct Hres as [H|[[H Hin]|H]]; auto.
        right. left. split; [exact H|].
        eapply later_error; [|exact Hin].
        destruct Hk1 as (_ & _ & L1), Hk2 as (_ & _ & L2).
        eapply later_trans; eassumption.
      * exists w2. split; [eauto using kept_trans|]. auto.
    + exists w2. split; [eauto using kept_trans|]. auto.
  - destruct (Z.eqb_spec n (-1)) as [->|Hne].
    + eexists. split; [eapply kept_trans; [exact Hk1|apply kept_emit]|].
      right. left. split; [reflexivity|].
      eapply sock_read_error; [|exact Hr]. reflexivity.
    + exists w1. auto.
Qed.

End Session.

(** X3.  [serve_nbd] ends on every input, in one of three ways: it returns
    [EXIT_SUCCESS]; it returns [EXIT_FAILURE], which happens only when a
    [read] on the socket reports an error; or the process aborts.  It
    never calls [exit]. *)
Theorem serve_nbd_ways_to_end {U : Type}
  (sk : Z) (b : build) (aop : buse_operations U) (w : world U) :
  exists w',
    serve_nbd sk b aop w = Done EXIT_SUCCESS w' \/
    (serve_nbd sk b aop w = Done EXIT_FAILURE w' /\ In RdError (incoming w)) \/
    serve_nbd sk b aop w = Aborted w'.
Proof.
  destruct (serve_loop_ends b aop (S (weight (incoming w))) w ltac:(lia))
    as (w' & _ & H).
  exists w'. exact H.
Qed.

(** X6.  An error of the socket where a request header is expected is
    not an assertion failure: [serve_nbd] prints the error and returns
    [EXIT_FAILURE], having sent nothing, invoked nothing and left the
    rest of the input where it was. *)
Theorem header_read_error_returns_failure {U : Type}
  (sk : Z) (b : build) (aop : buse_operations U) (w : world U)
  (rest : list rd_event) :
  incoming w = RdError :: rest ->
  let w' := emit (EvStderr Msg_strerror) (set_incoming rest w) in
  serve_nbd sk b aop w = Done EXIT_FAILURE w' /\
  sent (trace w') = sent (trace w) /\
  calls (trace w') = calls (trace w) /\
  received (trace w') = received (trace w).
Proof.
  intros Hin. cbv zeta. split.
  - unfold serve_nbd. cbn [serve_loop]. unfold sock_read. rewrite Hin.
    reflexivity.
  - cbn [trace emit set_incoming].
    rewrite sent_app, calls_app, received_app. cbn. rewrite !app_nil_r. auto.
Qed.

Lemma header_read_error_returns_failure_witness :
  let w := session [RdError; RdData payload_1234] [WrAccept 16] in
  incoming w = RdError :: [RdData payload_1234] /\
  let w' := emit (EvStderr Msg_strerror) (set_incoming [RdData payload_1234] w) in
  serve_nbd 3 linux_x86_64 (recording_ops 0) w = Done EXIT_FAILURE w' /\
  sent (trace w') = sent (trace w) /\
  calls (trace w') = calls (trace w) /\
  received (trace w') = received (trace w).
Proof.
  cbv zeta. split; [reflexivity|].
  exact (header_read_error_returns_failure 3 linux_x86_64 (recording_ops 0)
           (session [RdError; RdData payload_1234] [WrAccept 16])
           [RdData payload_1234] eq_refl).
Defined.

Lemma read_all_short {U : Type} (count : Z) (w : world U) :
  0 <= count -> available (incoming w) < count ->
  exists chunks w',
    read_all count w = Aborted w' /\
    trace w' = trace w ++ map EvRecv chunks /\ input_only w w'.
Proof.
  intros Hc Hav.
  pose proof (read_all_loop_available (Z.to_nat count) [] count w Hc
                (Nat.le_refl _)) as H.
  fold (read_all count w) in H.
  destruct (Z.leb_spec count (available (incoming w))); [lia|].
  destruct H as (w' & Hd).
  destruct (read_all_spec count w Hc)
    as (chunks & w1 & Hio & Ht & _ & _ & [[E _]|[E _]]); [congruence|].
  exists chunks, w1. auto.
Qed.

(** X7.  The same error, or the end of the stream, inside the payload of a
    WRITE is fatal: when fewer than [len] bytes arrive after the header
    the process aborts in [read_all]; no reply is sent and the [write]
    callback is not invoked. *)
Theorem truncated_write_payload_aborts {U : Type}
  (sk : Z) (b : build) (aop : buse_operations U)
  (w w1 : world U) (hdr : list byte) :
  sock_read sizeof_nbd_request w = (sizeof_nbd_request, hdr, w1) ->
  wire_magic hdr = NBD_REQUEST_MAGIC ->
  wire_type hdr = NBD_CMD_WRITE ->
  available (incoming w1) < wire_len hdr ->
  exists w',
    serve_nbd sk b aop w = Aborted w' /\
    sent (trace w') = sent (trace w) /\
    calls (trace w') = calls (trace w) /\
    userdata w' = userdata w.
Proof.
  intros Hr Hm Hty Hav.
  destruct (header_read w w1 hdr Hr) as (Hlen & Ht1 & (_ & Hu1 & _) & _).
  pose proof (wire_len_range hdr Hlen) as HL.
  unfold serve_nbd. rewrite (serve_loop_step b aop _ w w1 hdr Hr).
  rewrite (serve_request_write b aop hdr Hlen Hm w1 Hty). cbv zeta.
  set (w0 := emit _ w1).
  destruct (read_all_short (wire_len hdr) w0 ltac:(lia) Hav)
    as (chunks & w' & -> & Ht & (_ & Hu & _)).
  exists w'. cbn [bind]. split; [reflexivity|].
  rewrite Ht. subst w0. cbn [trace emit]. rewrite Ht1.
  rewrite !sent_app, !calls_app, sent_recv, calls_recv. cbn [sent calls].
  rewrite !app_nil_r. repeat split. rewrite Hu. exact Hu1.
Qed.

Lemma truncated_write_payload_aborts_witness :
  let b := linux_x86_64 in
  let aop := recording_ops 0 in
  let hdr := kernel_request NBD_CMD_WRITE handle_H 0 4 in
  let w := session [RdData hdr; RdData (map byte.of_Z [1; 2]); RdError]
                   [WrAccept 16] in
  let w1 := emit (EvRecv hdr)
              (set_incoming [RdData (map byte.of_Z [1; 2]); RdError] w) in
  sock_read sizeof_nbd_request w = (sizeof_nbd_request, hdr, w1) /\
  wire_magic hdr = NBD_REQUEST_MAGIC /\
  wire_type hdr = NBD_CMD_WRITE /\
  available (incoming w1) < wire_len hdr /\
  exists w',
    serve_nbd 3 b aop w = Aborted w' /\
    sent (trace w') = sent (trace w) /\
    calls (trace w') = calls (trace w) /\
    userdata w' = userdata w.
Proof.
  cbv zeta. split; [reflexivity|]. split; [reflexivity|]. split; [reflexivity|].
  split; [reflexivity|].
  exact (truncated_write_payload_aborts 3 linux_x86_64 (recording_ops 0)
           (session [RdData (kernel_request NBD_CMD_WRITE handle_H 0 4);
                     RdData (map byte.of_Z [1; 2]); RdError] [WrAccept 16])
           _ (kernel_request NBD_CMD_WRITE handle_H 0 4)
           eq_refl eq_refl eq_refl eq_refl).
Defined.

(* ===================================================================== *)
(** * FLUSH and TRIM                                                      *)
(* ===================================================================== *)

Lemma wire_status_zero h hdr payload :
  wire_status (bytes_of_reply h (reply_with h hdr (htonl h 0)) ++ payload) = 0.
Proof.
  unfold wire_status. rewrite reply_status_bytes. cbn [reply_with nbd_reply.error].
  rewrite store_htonl, be_value_bytes. reflexivity.
Qed.

(* ===================================================================== *)
(** * The reply as the peer reads it                                      *)
(* ===================================================================== *)

Lemma be_value_store h x : 0 <= x < 2 ^ 32 -> be_value (store h 4 x) = htonl h x.
Proof.
  intros Hx. destruct h; unfold be_value, store, htonl, ntohl.
  - symmetry. apply bswap_32_bytes.
  - rewrite rev_involutive, le_combine_split. apply Z.mod_small. exact Hx.
Qed.

(* ===================================================================== *)
(** * More on the signal handler                                          *)
(* ===================================================================== *)

Lemma ioctls_app t1 t2 : ioctls (t1 ++ t2) = ioctls t1 ++ ioctls t2.
Proof.
  induction t1 as [|e t1 IH]; [reflexivity|].
  destruct e; simpl; rewrite IH; reflexivity.
Qed.

Lemma closed_app t1 t2 : closed (t1 ++ t2) = closed t1 ++ closed t2.
Proof.
  induction t1 as [|e t1 IH]; [reflexivity|].
  destruct e; simpl; rewrite IH; reflexivity.
Qed.

Lemma disconnect_nbd_inactive {U : Type} (k : kernel) (sig : signal)
  (w : world U) :
  nbd_dev_to_disconnect w = -1 -> disconnect_nbd k sig w = w.
Proof. intros E. unfold disconnect_nbd. rewrite E. reflexivity. Qed.

(** X12.  Once a disconnect request has succeeded, the handler is spent:
    however many signals follow and whatever the kernel would answer,
    nothing more is requested and nothing changes. *)
Theorem disconnect_requested_at_most_once {U : Type}
  (k : kernel) (sig : signal) (ks : list (kernel * signal)) (w : world U) :
  ioctl_result k Server NBD_DISCONNECT <> -1 ->
  let w1 := disconnect_nbd k sig w in
  nbd_dev_to_disconnect w1 = -1 /\ signals_delivered ks w1 = w1.
Proof.
  intros Hok. cbv zeta.
  assert (H1 : nbd_dev_to_disconnect (disconnect_nbd k sig w) = -1).
  { unfold disconnect_nbd, ioctl.
    destruct (Z.eqb_spec (nbd_dev_to_disconnect w) (-1)) as [E|N]; [exact E|].
    cbn [negb]. destruct (Z.eqb_spec (ioctl_result k Server NBD_DISCONNECT) (-1));
      [contradiction|reflexivity]. }
  split; [exact H1|].
  induction ks as [|[k' s'] ks IH]; [reflexivity|].
  unfold signals_delivered in *. cbn [fold_left fst snd].
  rewrite disconnect_nbd_inactive by exact H1. exact IH.
Qed.

Lemma disconnect_requested_at_most_once_witness :
  let w1 := disconnect_nbd willing_kernel SIGINT stale_session in
  ioctl_result willing_kernel Server NBD_DISCONNECT <> -1 /\
  nbd_dev_to_disconnect w1 = -1 /\
  signals_delivered [(kernel_refusing_disconnect, SIGTERM);
                     (willing_kernel, SIGINT)] w1 = w1.
Proof.
  cbv zeta.
  assert (H : ioctl_result willing_kernel Server NBD_DISCONNECT <> -1)
    by discriminate.
  split; [exact H|].
  exact (disconnect_requested_at_most_once willing_kernel SIGINT
           [(kernel_refusing_disconnect, SIGTERM); (willing_kernel, SIGINT)]
           stale_session H).
Defined.

(** X13.  The handler does one thing only.  It does not look at the
    signal number; it touches neither the socket nor the state behind
    [userdata] nor the signal handlers; it invokes no callback; and every
    request it issues, over any sequence of signals, is [NBD_DISCONNECT]
    on the descriptor that was recorded, none at all when no descriptor is
    recorded. *)
Theorem disconnect_nbd_only_disconnects {U : Type}
  (ks : list (kernel * signal)) (k : kernel) (w : world U) :
  let w' := signals_delivered ks w in
  disconnect_nbd k SIGINT w = disconnect_nbd k SIGTERM w /\
  incoming w' = incoming w /\ outgoing w' = outgoing w /\
  userdata w' = userdata w /\ handler w' = handler w /\
  sent (trace w') = sent (trace w) /\
  received (trace w') = received (trace w) /\
  calls (trace w') = calls (trace w) /\
  exists n, ioctls (trace w')
            = ioctls (trace w)
              ++ repeat (nbd_dev_to_disconnect w, NBD_DISCONNECT, 0) n /\
            (if nbd_dev_to_disconnect w =? -1 then n = 0%nat
             else (n <= length ks)%nat).
Proof.
  cbv zeta. split; [reflexivity|].
  revert w. induction ks as [|[k' s'] ks IH]; intros w.
  - repeat split. exists 0%nat. cbn. rewrite app_nil_r.
    split; [reflexivity|]. destruct (_ =? _); lia.
  - unfold signals_delivered in *. cbn [fold_left fst snd].
    specialize (IH (disconnect_nbd k' s' w)).
    destruct IH as (Hi & Ho & Hu & Hh & Hs & Hr & Hc & (n & Hn & Hb)).
    unfold disconnect_nbd, ioctl in *.
    destruct (Z.eqb_spec (nbd_dev_to_disconnect w) (-1)) as [E|N];
      cbn [negb] in *.
    { repeat split; auto. exists n. split; [exact Hn|].
      destruct (Z.eqb_spec (nbd_dev_to_disconnect w) (-1)); [exact Hb|contradiction]. }
    destruct (ioctl_result k' Server NBD_DISCONNECT =? -1);
      cbn [incoming outgoing userdata handler trace emit
           set_nbd_dev_to_disconnect nbd_dev_to_disconnect] in *;
      rewrite ?sent_app, ?received_app, ?calls_app, ?ioctls_app in *;
      cbn [sent received calls ioctls] in *;
      rewrite ?app_nil_r in *; repeat split; auto.
    + exists (S n). split; [rewrite Hn, <- app_assoc; reflexivity|].
      destruct (Z.eqb_spec (nbd_dev_to_disconnect w) (-1)); [contradiction|].
      cbn [length]. lia.
    + change (-1 =? -1) with true in Hb. cbv iota in Hb. subst n.
      exists 1%nat. split; [rewrite Hn, <- app_assoc; reflexivity|].
      cbn [length]. lia.
Qed.

(* ===================================================================== *)
(** * The controller process                                              *)
(* ===================================================================== *)

Ltac trace_norm :=
  cbn [trace emit set_userdata set_incoming set_outgoing
       set_nbd_dev_to_disconnect set_handler incoming outgoing userdata
       nbd_dev_to_disconnect handler fresh];
  rewrite ?sent_app, ?received_app, ?calls_app, ?ioctls_app, ?closed_app;
  cbn [sent received calls ioctls closed];
  rewrite ?app_nil_r, <- ?app_assoc.

(** X14.  The controller always ends in [exit]; it never returns into the
    caller of [buse_main] and never serves a request.  Its exit status is
    0 exactly when the signals were blocked, [NBD_SET_SOCK] succeeded,
    [NBD_DO_IT] did not fail, and both cleanup requests succeeded, where
    [NBD_DO_IT] counts as not failed when it was skipped because
    [NBD_SET_FLAGS] was refused; otherwise the status is [EXIT_FAILURE].
    It closes its copy of the server's end of the socket pair, unless the
    signals could not be blocked, and nothing else. *)
Theorem controller_exit_status {U : Type}
  (b : build) (k : kernel) (nbd : Z) (w : world U) :
  let ok req := negb (ioctl_result k Controller req =? -1) in
  let signals_blocked :=
    (sigfillset_result k =? 0) && (sigprocmask_result k =? 0) in
  let flags_refused :=
    defined_NBD_SET_FLAGS b && defined_NBD_FLAG_SEND_TRIM b
    && negb (ok NBD_SET_FLAGS) in
  let success :=
    signals_blocked && ok NBD_SET_SOCK && (flags_refused || ok NBD_DO_IT)
    && ok NBD_CLEAR_QUE && ok NBD_CLEAR_SOCK in
  exists w',
    controller b k nbd w = Exited (if success then 0 else EXIT_FAILURE) w' /\
    sent (trace w') = sent (trace w) /\
    received (trace w') = received (trace w) /\
    calls (trace w') = calls (trace w) /\
    closed (trace w')
    = closed (trace w) ++ (if signals_blocked then [fst (sp k)] else []) /\
    incoming w' = incoming w /\ outgoing w' = outgoing w /\
    userdata w' = userdata w /\
    nbd_dev_to_disconnect w' = nbd_dev_to_disconnect w /\
    handler w' = handler w.
Proof.
  cbv zeta. unfold controller, ioctl.
  destruct (sigfillset_result k =? 0), (sigprocmask_result k =? 0);
    cbn [negb orb andb];
    try (eexists; split; [reflexivity|]; trace_norm; repeat split; reflexivity).
  destruct (ioctl_result k Controller NBD_SET_SOCK =? -1); cbn [negb andb];
    [eexists; split; [reflexivity|]; trace_norm; repeat split; reflexivity|].
  destruct (defined_NBD_SET_FLAGS b), (defined_NBD_FLAG_SEND_TRIM b);
    cbn [negb orb andb];
    try destruct (ioctl_result k Controller NBD_SET_FLAGS =? -1);
    cbn [negb orb andb];
    try destruct (ioctl_result k Controller NBD_DO_IT =? -1);
    cbn [negb orb andb];
    try destruct (ioctl_result k Controller NBD_CLEAR_QUE =? -1);
    cbn [negb orb andb];
    try destruct (ioctl_result k Controller NBD_CLEAR_SOCK =? -1);
    cbn [negb orb andb];
    eexists; (split; [reflexivity|]); trace_norm; repeat split; reflexivity.
Qed.

(** X15.  When [NBD_SET_FLAGS] is refused the controller prints a message
    and goes straight to the cleanup: [NBD_DO_IT] is never issued, so the
    device never serves, and yet the exit status is 0 if the two cleanup
    requests succeed. *)
Theorem controller_skips_do_it_when_flags_refused {U : Type}
  (b : build) (k : kernel) (nbd : Z) (w : world U) :
  defined_NBD_SET_FLAGS b = true ->
  defined_NBD_FLAG_SEND_TRIM b = true ->
  sigfillset_result k = 0 -> sigprocmask_result k = 0 ->
  ioctl_result k Controller NBD_SET_SOCK <> -1 ->
  ioctl_result k Controller NBD_SET_FLAGS = -1 ->
  let que_ok := negb (ioctl_result k Controller NBD_CLEAR_QUE =? -1) in
  let sock_ok := negb (ioctl_result k Controller NBD_CLEAR_SOCK =? -1) in
  exists w',
    controller b k nbd w
    = Exited (if que_ok && sock_ok then 0 else EXIT_FAILURE) w' /\
    ioctls (trace w')
    = ioctls (trace w)
      ++ [(nbd, NBD_SET_SOCK, snd (sp k));
          (nbd, NBD_SET_FLAGS, NBD_FLAG_SEND_TRIM);
          (nbd, NBD_CLEAR_QUE, 0)]
      ++ (if que_ok then [(nbd, NBD_CLEAR_SOCK, 0)] else []).
Proof.
  intros Hsf Htr Hfill Hmask Hsock Hflags. cbv zeta.
  unfold controller, ioctl. rewrite Hsf, Htr, Hfill, Hmask, Hflags.
  cbn [Z.eqb negb orb andb].
  destruct (Z.eqb_spec (ioctl_result k Controller NBD_SET_SOCK) (-1));
    [contradiction|].
  change (-1 =? -1) with true. cbv iota.
  destruct (ioctl_result k Controller NBD_CLEAR_QUE =? -1); cbn [negb andb];
    [eexists; split; [reflexivity|]; trace_norm; reflexivity|].
  destruct (ioctl_result k Controller NBD_CLEAR_SOCK =? -1); cbn [negb andb];
    eexists; (split; [reflexivity|]); trace_norm; reflexivity.
Qed.

Lemma controller_skips_do_it_when_flags_refused_witness :
  let b := linux_x86_64 in
  let k := kernel_refusing_flags in
  let w := session [] [] in
  defined_NBD_SET_FLAGS b = true /\
  defined_NBD_FLAG_SEND_TRIM b = true /\
  sigfillset_result k = 0 /\ sigprocmask_result k = 0 /\
  ioctl_result k Controller NBD_SET_SOCK <> -1 /\
  ioctl_result k Controller NBD_SET_FLAGS = -1 /\
  let que_ok := negb (ioctl_result k Controller NBD_CLEAR_QUE =? -1) in
  let sock_ok := negb (ioctl_result k Controller NBD_CLEAR_SOCK =? -1) in
  exists w',
    controller b k 5 w
    = Exited (if que_ok && sock_ok then 0 else EXIT_FAILURE) w' /\
    ioctls (trace w')
    = ioctls (trace w)
      ++ [(5, NBD_SET_SOCK, snd (sp k));
          (5, NBD_SET_FLAGS, NBD_FLAG_SEND_TRIM);
          (5, NBD_CLEAR_QUE, 0)]
      ++ (if que_ok then [(5, NBD_CLEAR_SOCK, 0)] else []).
Proof.
  cbv zeta.
  assert (H : ioctl_result kernel_refusing_flags Controller NBD_SET_SOCK <> -1)
    by discriminate.
  repeat (split; [reflexivity|]). split; [exact H|]. split; [reflexivity|].
  exact (controller_skips_do_it_when_flags_refused linux_x86_64
           kernel_refusing_flags 5 (session [] [])
           eq_refl eq_refl eq_refl eq_refl H eq_refl).
Defined.

(* ===================================================================== *)
(** * [buse_main], from the first call to the return                      *)
(* ===================================================================== *)

Section Setup.
Context {U : Type}.
Variable b : build.
Variable k : kernel.
Variable aop : buse_operations U.

(** A geometry request leaves everything but the trace alone; it aborts
    exactly when it is issued and refused. *)
Lemma configure_spec nbd req v (w : world U) :
  let issued := negb (v =? 0) in
  let w' := if issued then emit (EvIoctl nbd req v) w else w in
  configure k nbd req v w
  = if issued && (ioctl_result k Server req =? -1) then Aborted w'
    else Done tt w'.
Proof.
  cbv zeta. unfold configure, ioctl, assert.
  destruct (v =? 0); cbn [negb andb]; [reflexivity|].
  destruct (ioctl_result k Server req =? -1); reflexivity.
Qed.

Lemma set_sigaction_spec sig act (w : world U) :
  let r := sigaction_result k sig in
  exists w', set_sigaction k sig act w = (r, w') /\
    nbd_dev_to_disconnect w' = nbd_dev_to_disconnect w /\
    incoming w' = incoming w /\ outgoing w' = outgoing w /\
    userdata w' = userdata w /\ fresh w' = fresh w /\
    sent (trace w') = sent (trace w) /\ ioctls (trace w') = ioctls (trace w) /\
    closed (trace w') = closed (trace w) /\
    received (trace w') = received (trace w) /\
    calls (trace w') = calls (trace w) /\
    (r = 0 -> handler w' sig = act /\
              forall s, s <> sig -> handler w' s = handler w s) /\
    (r <> 0 -> w' = w).
Proof.
  cbv zeta. unfold set_sigaction.
  destruct (Z.eqb_spec (sigaction_result k sig) 0) as [E|N]; cbn [andb].
  - destruct (handler w sig) eqn:Hh; cbn [negb]; eexists;
      (split; [reflexivity|]); trace_norm;
      (repeat (split; [reflexivity|])); (split; [|intros; contradiction]);
      intros _; (split; [destruct sig; reflexivity|]);
      intros s Hs; destruct sig, s; try reflexivity; contradiction.
  - exists w. repeat (split; [reflexivity|]). split; [intros; contradiction|].
    reflexivity.
Qed.

End Setup.

Lemma eqb_minus1_false z : z <> -1 -> (z =? -1) = false.
Proof. intros H. destruct (Z.eqb_spec z (-1)); [contradiction|reflexivity]. Qed.

(** X16.  A first call of [buse_main] in a process where every system
    call succeeds and [fork] returns in the parent: the result of
    [buse_main] is the result of [serve_nbd] on the first descriptor of
    the socket pair.  By the time the loop starts the device has been
    recorded for the signal handler, [disconnect_nbd] is the handler of
    both SIGINT and SIGTERM, the geometry requests for the nonzero fields
    and then [NBD_CLEAR_SOCK] have been issued on the device, in this
    order, the read-only descriptor and the controller's end of the socket
    pair have been closed, and nothing has been read from or written to
    the socket. *)
Theorem buse_main_starts_session {U : Type}
  (b : build) (k : kernel) (aop : buse_operations U) (w : world U) :
  nbd_dev_to_disconnect w = -1 ->
  socketpair_result k = 0 ->
  open_rdwr_result k <> -1 ->
  (forall req, ioctl_result k Server req <> -1) ->
  fork_result k <> 0 ->
  sigemptyset_result k = 0 ->
  (forall s, sigaddset_result k s = 0) ->
  (forall s, sigaction_result k s = 0) ->
  open_rdonly_result k <> -1 ->
  let nbd := open_rdwr_result k in
  exists ws,
    buse_main b k aop w = serve_nbd (fst (sp k)) b aop ws /\
    nbd_dev_to_disconnect ws = nbd /\
    (forall s, handler ws s = SIG_disconnect_nbd) /\
    ioctls (trace ws)
    = ioctls (trace w) ++ geometry_requests aop nbd ++ [(nbd, NBD_CLEAR_SOCK, 0)] /\
    closed (trace ws)
    = closed (trace w) ++ [open_rdonly_result k; snd (sp k)] /\
    incoming ws = incoming w /\ outgoing ws = outgoing w /\
    userdata ws = userdata w /\
    sent (trace ws) = sent (trace w) /\
    received (trace ws) = received (trace w) /\
    calls (trace ws) = calls (trace w).
Proof.
  intros Hslot Hsp Hopen Hioctl Hfork Hempty Hadd Hact Hro nbd.
  unfold buse_main. rewrite Hsp. cbn [Z.eqb assert bind].
  fold nbd. rewrite (eqb_minus1_false nbd Hopen).
  do 3 (rewrite configure_spec; cbv zeta;
        rewrite (eqb_minus1_false _ (Hioctl _)), andb_false_r; cbn [bind]).
  unfold ioctl. rewrite (eqb_minus1_false _ (Hioctl _)). cbn [negb assert bind].
  destruct (Z.eqb_spec (fork_result k) 0) as [|_]; [contradiction|].
  set (w4 := @emit U (EvIoctl nbd NBD_CLEAR_SOCK 0) _).
  assert (H4 : nbd_dev_to_disconnect w4 = -1 /\
               incoming w4 = incoming w /\ outgoing w4 = outgoing w /\
               userdata w4 = userdata w /\
               sent (trace w4) = sent (trace w) /\
               received (trace w4) = received (trace w) /\
               calls (trace w4) = calls (trace w) /\
               closed (trace w4) = closed (trace w) /\
               ioctls (trace w4)
               = ioctls (trace w) ++ geometry_requests aop nbd
                 ++ [(nbd, NBD_CLEAR_SOCK, 0)]).
  { subst w4. unfold geometry_requests.
    destruct (blksize aop =? 0), (size aop =? 0), (size_blocks aop =? 0);
      cbn [negb]; trace_norm; repeat split; auto. }
  destruct H4 as (S4 & I4 & O4 & U4 & Se4 & R4 & C4 & Cl4 & Io4).
  unfold server. rewrite S4. change (-1 =? -1) with true. cbn [assert bind].
  rewrite Hempty, !Hadd. cbn [Z.eqb negb orb].
  set (w5 := set_nbd_dev_to_disconnect nbd w4).
  destruct (set_sigaction_spec k SIGINT SIG_disconnect_nbd w5)
    as (w6 & E6 & S6 & I6 & O6 & U6 & _ & Se6 & Io6 & Cl6 & R6 & C6 & H6 & _).
  rewrite E6, Hact. cbn [Z.eqb negb].
  destruct (set_sigaction_spec k SIGTERM SIG_disconnect_nbd w6)
    as (w7 & E7 & S7 & I7 & O7 & U7 & _ & Se7 & Io7 & Cl7 & R7 & C7 & H7 & _).
  rewrite E7, Hact. cbn [Z.eqb negb].
  rewrite (eqb_minus1_false _ Hro). cbn [negb assert bind].
  eexists. split; [reflexivity|].
  destruct (H6 (Hact SIGINT)) as (H6a & H6b).
  destruct (H7 (Hact SIGTERM)) as (H7a & H7b).
  trace_norm.
  rewrite S7, S6, I7, I6, O7, O6, U7, U6, Se7, Se6, R7, R6, C7, C6, Io7, Io6,
    Cl7, Cl6.
  subst w5. trace_norm.
  repeat split; auto.
  - intros [|]; [|exact H7a]. rewrite H7b by discriminate. exact H6a.
  - rewrite Cl4. reflexivity.
Qed.

Lemma buse_main_starts_session_witness :
  let b := linux_x86_64 in
  let k := willing_kernel in
  let aop := recording_ops 0 in
  let w := session [RdData (kernel_request NBD_CMD_DISC handle_H 0 0)] [] in
  nbd_dev_to_disconnect w = -1 /\
  socketpair_result k = 0 /\
  open_rdwr_result k <> -1 /\
  (forall req, ioctl_result k Server req <> -1) /\
  fork_result k <> 0 /\
  sigemptyset_result k = 0 /\
  (forall s, sigaddset_result k s = 0) /\
  (forall s, sigaction_result k s = 0) /\
  open_rdonly_result k <> -1 /\
  let nbd := open_rdwr_result k in
  exists ws,
    buse_main b k aop w = serve_nbd (fst (sp k)) b aop ws /\
    nbd_dev_to_disconnect ws = nbd /\
    (forall s, handler ws s = SIG_disconnect_nbd) /\
    ioctls (trace ws)
    = ioctls (trace w) ++ geometry_requests aop nbd ++ [(nbd, NBD_CLEAR_SOCK, 0)] /\
    closed (trace ws)
    = closed (trace w) ++ [open_rdonly_result k; snd (sp k)] /\
    incoming ws = incoming w /\ outgoing ws = outgoing w /\
    userdata ws = userdata w /\
    sent (trace ws) = sent (trace w) /\
    received (trace ws) = received (trace w) /\
    calls (trace ws) = calls (trace w).
Proof.
  cbv zeta.
  assert (H1 : open_rdwr_result willing_kernel <> -1) by discriminate.
  assert (H2 : forall req, ioctl_result willing_kernel Server req <> -1)
    by (intros req; discriminate).
  assert (H3 : fork_result willing_kernel <> 0) by discriminate.
  assert (H4 : open_rdonly_result willing_kernel <> -1) by discriminate.
  split; [reflexivity|]. split; [reflexivity|]. split; [exact H1|].
  split; [exact H2|]. split; [exact H3|]. split; [reflexivity|].
  split; [reflexivity|]. split; [reflexivity|]. split; [exact H4|].
  exact (buse_main_starts_session linux_x86_64 willing_kernel (recording_ops 0)
           (session [RdData (kernel_request NBD_CMD_DISC handle_H 0 0)] [])
           eq_refl eq_refl H1 H2 H3 eq_refl (fun _ => eq_refl)
           (fun _ => eq_refl) H4).
Defined.

(** X18.  A refused configuration is fatal before the session exists.
    When the device opens but the kernel refuses one of the geometry
    requests that are issued, or [NBD_CLEAR_SOCK], the process aborts:
    no device has been recorded, no signal handler installed, no
    descriptor closed, and the socket has not been touched. *)
Theorem buse_main_aborts_on_refused_configuration {U : Type}
  (b : build) (k : kernel) (aop : buse_operations U) (w : world U) :
  socketpair_result k = 0 ->
  open_rdwr_result k <> -1 ->
  (blksize aop <> 0 /\ ioctl_result k Server NBD_SET_BLKSIZE = -1) \/
  (size aop <> 0 /\ ioctl_result k Server NBD_SET_SIZE = -1) \/
  (size_blocks aop <> 0 /\ ioctl_result k Server NBD_SET_SIZE_BLOCKS = -1) \/
  ioctl_result k Server NBD_CLEAR_SOCK = -1 ->
  exists w',
    buse_main b k aop w = Aborted w' /\
    nbd_dev_to_disconnect w' = nbd_dev_to_disconnect w /\
    handler w' = handler w /\
    closed (trace w') = closed (trace w) /\
    incoming w' = incoming w /\ outgoing w' = outgoing w /\
    userdata w' = userdata w /\
    sent (trace w') = sent (trace w) /\
    received (trace w') = received (trace w) /\
    calls (trace w') = calls (trace w).
Proof.
  intros Hsp Hopen Hbad.
  unfold buse_main. rewrite Hsp. cbn [Z.eqb assert bind].
  rewrite (eqb_minus1_false _ Hopen).
  do 3 (rewrite configure_spec; cbv zeta;
        match goal with
        | |- context [negb (?v =? 0) && (?r =? -1)] =>
            destruct (Z.eqb_spec v 0); destruct (Z.eqb_spec r (-1))
        end; cbn [negb andb bind];
        try (eexists; split; [reflexivity|]; trace_norm;
             repeat split; reflexivity)).
  all: unfold ioctl, assert;
    destruct (Z.eqb_spec (ioctl_result k Server NBD_CLEAR_SOCK) (-1));
    cbn [negb bind];
    try (eexists; split; [reflexivity|]; trace_norm; repeat split; reflexivity).
  all: exfalso; intuition congruence.
Qed.

Lemma buse_main_aborts_on_refused_configuration_witness :
  let b := linux_x86_64 in
  let k := kernel_refusing_size in
  let aop := recording_ops 0 in
  let w := session [] [] in
  socketpair_result k = 0 /\
  open_rdwr_result k <> -1 /\
  ((blksize aop <> 0 /\ ioctl_result k Server NBD_SET_BLKSIZE = -1) \/
   (size aop <> 0 /\ ioctl_result k Server NBD_SET_SIZE = -1) \/
   (size_blocks aop <> 0 /\ ioctl_result k Server NBD_SET_SIZE_BLOCKS = -1) \/
   ioctl_result k Server NBD_CLEAR_SOCK = -1) /\
  exists w',
    buse_main b k aop w = Aborted w' /\
    nbd_dev_to_disconnect w' = nbd_dev_to_disconnect w /\
    handler w' = handler w /\
    closed (trace w') = closed (trace w) /\
    incoming w' = incoming w /\ outgoing w' = outgoing w /\
    userdata w' = userdata w /\
    sent (trace w') = sent (trace w) /\
    received (trace w') = received (trace w) /\
    calls (trace w') = calls (trace w).
Proof.
  cbv zeta.
  assert (H1 : open_rdwr_result kernel_refusing_size <> -1) by discriminate.
  assert (H2 : size (recording_ops 0) <> 0) by discriminate.
  split; [reflexivity|]. split; [exact H1|].
  split; [right; left; split; [exact H2|reflexivity]|].
  exact (buse_main_aborts_on_refused_configuration linux_x86_64
           kernel_refusing_size (recording_ops 0) (session [] [])
           eq_refl H1 (or_intror (or_introl (conj H2 eq_refl)))).
Defined.

(* ===================================================================== *)
(** * From the wire to the callback                                       *)
(* ===================================================================== *)

(** X19.  On a build where [WORDS_BIGENDIAN] is defined exactly on
    big-endian hosts, [ntohll] of a 64-bit field as it lies in memory is
    the big-endian value of its eight bytes, and [htonll] of a value, stored
    to memory, is its big-endian encoding. *)
Theorem ntohll_is_big_endian (b : build) (bs : list byte) (v : Z) :
  coherent b ->
  length bs = 8%nat ->
  0 <= v < 2 ^ 64 ->
  ntohll b (load (host b) bs) = be_value bs /\
  store (host b) 8 (htonll b v) = be_bytes 8 v.
Proof.
  intros Hc Hl Hv. split; [apply ntohll_load; assumption|].
  unfold htonll.
  assert (E : ntohll b (load (host b) (be_bytes 8 v)) = v).
  { rewrite ntohll_load by (exact Hc || apply length_be_bytes).
    rewrite be_value_bytes. apply Z.mod_small. exact Hv. }
  rewrite <- E at 1.
  rewrite ntohll_involutive by (apply load_range_8, length_be_bytes).
  rewrite <- (length_be_bytes 8 v) at 1. apply store_load.
Qed.

Lemma ntohll_is_big_endian_witness :
  let bs := map byte.of_Z [1; 2; 3; 4; 5; 6; 7; 8] in
  let v := 0x0102030405060708 in
  coherent linux_x86_64 /\
  length bs = 8%nat /\
  0 <= v < 2 ^ 64 /\
  ntohll linux_x86_64 (load (host linux_x86_64) bs) = be_value bs /\
  store (host linux_x86_64) 8 (htonll linux_x86_64 v) = be_bytes 8 v.
Proof.
  cbv zeta.
  assert (Hv : 0 <= 0x0102030405060708 < 2 ^ 64) by lia.
  split; [reflexivity|]. split; [reflexivity|]. split; [exact Hv|].
  exact (ntohll_is_big_endian linux_x86_64
           (map byte.of_Z [1; 2; 3; 4; 5; 6; 7; 8]) _ eq_refl eq_refl Hv).
Defined.

Lemma be_value_be_bytes_4 v : 0 <= v < 2 ^ 32 -> be_value (be_bytes 4 v) = v.
Proof. intros Hv. rewrite be_value_bytes. apply Z.mod_small. exact Hv. Qed.

Section KernelRequest.
Variables ty from len : Z.
Variable handle : list byte.
Hypothesis Hhandle : length handle = 8%nat.

Let A := be_bytes 4 NBD_REQUEST_MAGIC.
Let B := be_bytes 4 ty.
Let F := be_bytes 8 from.
Let L := be_bytes 4 len.

Lemma kernel_request_length :
  length (kernel_request ty handle from len) = 28%nat.
Proof.
  unfold kernel_request. rewrite !length_app, !length_be_bytes, Hhandle.
  reflexivity.
Qed.

Lemma kernel_request_magic_bytes :
  firstn 4 (kernel_request ty handle from len) = A.
Proof.
  unfold kernel_request. fold A.
  apply (firstn_skipn_middle [] A _ 0 4); [reflexivity|apply length_be_bytes].
Qed.

Lemma kernel_request_type_bytes :
  firstn 4 (skipn 4 (kernel_request ty handle from len)) = B.
Proof.
  unfold kernel_request. fold A B.
  apply firstn_skipn_middle; apply length_be_bytes.
Qed.

Lemma kernel_request_handle_bytes :
  firstn 8 (skipn 8 (kernel_request ty handle from len)) = handle.
Proof.
  unfold kernel_request. fold A B F L. rewrite (app_assoc A B).
  apply firstn_skipn_middle; [|exact Hhandle].
  rewrite length_app. unfold A, B. rewrite !length_be_bytes. reflexivity.
Qed.

Lemma kernel_request_from_bytes :
  firstn 8 (skipn 16 (kernel_request ty handle from len)) = F.
Proof.
  unfold kernel_request. fold A B F L.
  rewrite (app_assoc A B), (app_assoc (A ++ B) handle).
  apply firstn_skipn_middle; [|apply length_be_bytes].
  rewrite !length_app, Hhandle. unfold A, B. rewrite !length_be_bytes.
  reflexivity.
Qed.

Lemma kernel_request_len_bytes :
  firstn 4 (skipn 24 (kernel_request ty handle from len)) = L.
Proof.
  unfold kernel_request. fold A B F L.
  rewrite (app_assoc A B), (app_assoc (A ++ B) handle),
    (app_assoc ((A ++ B) ++ handle) F).
  rewrite <- (app_nil_r L) at 1.
  apply firstn_skipn_middle; [|apply length_be_bytes].
  rewrite !length_app, Hhandle. unfold A, B, F. rewrite !length_be_bytes.
  reflexivity.
Qed.

End KernelRequest.

(** X20.  What the kernel encodes, [serve_nbd] decodes.  For a request
    header laid out as <linux/nbd.h> has it, with every integer field
    big-endian, the values [serve_nbd] works with are the type, the
    handle, the offset and the length the kernel put in, on little-endian
    and big-endian builds alike, provided [WORDS_BIGENDIAN] matches the
    host. *)
Theorem kernel_request_decoded
  (b : build) (ty from len : Z) (handle : list byte) :
  coherent b ->
  0 <= ty < 2 ^ 32 ->
  length handle = 8%nat ->
  0 <= from < 2 ^ 64 ->
  0 <= len < 2 ^ 32 ->
  let hdr := kernel_request ty handle from len in
  length hdr = 28%nat /\
  wire_magic hdr = NBD_REQUEST_MAGIC /\
  decode_request b hdr = nbd_request.mk NBD_REQUEST_MAGIC ty handle from len /\
  request_from b hdr = from /\ wire_len hdr = len /\ wire_type hdr = ty.
Proof.
  intros Hc Hty Hh Hfrom Hlen hdr.
  pose proof (kernel_request_length ty from len handle Hh) as H28.
  fold hdr in H28.
  assert (Em : wire_magic hdr = NBD_REQUEST_MAGIC).
  { unfold wire_magic, hdr. rewrite kernel_request_magic_bytes.
    apply be_value_be_bytes_4. unfold NBD_REQUEST_MAGIC. lia. }
  assert (Et : wire_type hdr = ty).
  { unfold wire_type, hdr. rewrite kernel_request_type_bytes.
    apply be_value_be_bytes_4, Hty. }
  assert (El : wire_len hdr = len).
  { unfold wire_len, hdr. rewrite (kernel_request_len_bytes _ _ _ _ Hh).
    apply be_value_be_bytes_4, Hlen. }
  assert (Ef : request_from b hdr = from).
  { rewrite (request_from_wire b hdr Hc H28). unfold hdr.
    rewrite (kernel_request_from_bytes _ _ _ _ Hh), be_value_bytes.
    apply Z.mod_small. exact Hfrom. }
  split; [exact H28|]. split; [exact Em|]. split; [|auto].
  unfold decode_request.
  rewrite (request_type (host b) hdr H28), (request_len (host b) hdr H28), Et, El.
  change (ntohll b (nbd_request.from (request_of_bytes (host b) hdr)))
    with (request_from b hdr).
  rewrite Ef. f_equal.
  - cbn [request_of_bytes nbd_request.magic].
    rewrite ntohl_load by (apply (length_field_4 hdr H28 0); lia).
    exact Em.
  - cbn [request_of_bytes nbd_request.handle]. unfold hdr.
    apply kernel_request_handle_bytes, Hh.
Qed.

Lemma kernel_request_decoded_witness :
  let b := linux_s390x in
  let hdr := kernel_request NBD_CMD_WRITE handle_H 4096 512 in
  coherent b /\
  0 <= NBD_CMD_WRITE < 2 ^ 32 /\
  length handle_H = 8%nat /\
  0 <= 4096 < 2 ^ 64 /\
  0 <= 512 < 2 ^ 32 /\
  length hdr = 28%nat /\
  wire_magic hdr = NBD_REQUEST_MAGIC /\
  decode_request b hdr
  = nbd_request.mk NBD_REQUEST_MAGIC NBD_CMD_WRITE handle_H 4096 512 /\
  request_from b hdr = 4096 /\ wire_len hdr = 512 /\
  wire_type hdr = NBD_CMD_WRITE.
Proof.
  cbv zeta.
  assert (H1 : 0 <= NBD_CMD_WRITE < 2 ^ 32) by (unfold NBD_CMD_WRITE; lia).
  assert (H2 : 0 <= 4096 < 2 ^ 64) by lia.
  assert (H3 : 0 <= 512 < 2 ^ 32) by lia.
  split; [reflexivity|]. split; [exact H1|]. split; [reflexivity|].
  split; [exact H2|]. split; [exact H3|].
  exact (kernel_request_decoded linux_s390x NBD_CMD_WRITE 4096 512 handle_H
           eq_refl H1 eq_refl H2 H3).
Defined.

(* ===================================================================== *)
(** * When a WRITE turn completes                                         *)
(* ===================================================================== *)

(** X21.  A WRITE turn completes, and the loop goes on to the next
    request, exactly when the [len] bytes of payload arrive before a
    [read] returns 0 or -1 and the socket has room for the 16 bytes of
    the reply before a [write] returns 0 or -1; in every other case the
    process aborts.  What the callback returns plays no part in it. *)
Theorem write_turn_completes_iff {U : Type}
  (b : build) (aop : buse_operations U) (hdr : list byte) (w : world U) :
  length hdr = 28%nat ->
  wire_magic hdr = NBD_REQUEST_MAGIC ->
  wire_type hdr = NBD_CMD_WRITE ->
  let run := serve_request b aop (request_of_bytes (host b) hdr) w in
  if (wire_len hdr <=? available (incoming w))
     && (sizeof_nbd_reply <=? room_ahead (outgoing w))
  then exists w', run = Done Continue w'
  else exists w', run = Aborted w'.
Proof.
  intros Hlen Hm Hty run. subst run.
  rewrite (serve_request_write b aop hdr Hlen Hm w Hty). cbv zeta.
  set (w0 := emit _ w).
  pose proof (wire_len_range hdr Hlen) as HL.
  pose proof (read_all_loop_available (Z.to_nat (wire_len hdr)) []
                (wire_len hdr) w0 ltac:(lia) (Nat.le_refl _)) as Hav.
  fold (read_all (wire_len hdr) w0) in Hav.
  change (incoming w0) with (incoming w) in Hav.
  destruct (wire_len hdr <=? available (incoming w)); cbn [andb].
  2:{ destruct Hav as (w' & ->). exists w'. reflexivity. }
  destruct Hav as (data & w1 & Hd). rewrite Hd. cbn [bind].
  destruct (read_all_spec (wire_len hdr) w0 ltac:(lia))
    as (chunks & w1' & (Hout & _) & _ & _ & _ & [[E _]|[E _]]);
    [|congruence].
  assert (w1' = w1) by congruence. subst w1'.
  assert (Hroom : forall status (w2 : world U),
    outgoing w2 = outgoing w ->
    if sizeof_nbd_reply <=? room_ahead (outgoing w)
    then exists w',
      bind (write_all (bytes_of_reply (host b) (reply_with (host b) hdr status))
                      sizeof_nbd_reply w2) (fun _ w => Done Continue w)
      = Done Continue w'
    else exists w',
      bind (write_all (bytes_of_reply (host b) (reply_with (host b) hdr status))
                      sizeof_nbd_reply w2) (fun _ w => Done Continue w)
      = Aborted w').
  { intros status w2 Ho.
    pose proof (write_all_loop_room (Z.to_nat sizeof_nbd_reply)
                  (bytes_of_reply (host b) (reply_with (host b) hdr status))
                  sizeof_nbd_reply w2 ltac:(unfold sizeof_nbd_reply; lia)
                  (Nat.le_refl _)) as Hr.
    fold (write_all (bytes_of_reply (host b) (reply_with (host b) hdr status))
            sizeof_nbd_reply w2) in Hr.
    rewrite Ho in Hr.
    destruct (sizeof_nbd_reply <=? room_ahead (outgoing w));
      destruct Hr as (w' & ->); exists w'; reflexivity. }
  destruct (write aop) as [f|].
  - destruct (f _ _ _ _) as [status u]. apply Hroom. exact Hout.
  - apply Hroom. exact Hout.
Qed.

Lemma write_turn_completes_iff_witness :
  let b := linux_x86_64 in
  let aop := recording_ops 5 in
  let hdr := kernel_request NBD_CMD_WRITE handle_H 0 4 in
  let w := session [RdData (map byte.of_Z [1]); RdData (map byte.of_Z [2; 3; 4])]
                   [WrAccept 10; WrAccept 10] in
  length hdr = 28%nat /\
  wire_magic hdr = NBD_REQUEST_MAGIC /\
  wire_type hdr = NBD_CMD_WRITE /\
  let run := serve_request b aop (request_of_bytes (host b) hdr) w in
  if (wire_len hdr <=? available (incoming w))
     && (sizeof_nbd_reply <=? room_ahead (outgoing w))
  then exists w', run = Done Continue w'
  else exists w', run = Aborted w'.
Proof.
  cbv zeta. split; [reflexivity|]. split; [reflexivity|]. split; [reflexivity|].
  exact (write_turn_completes_iff linux_x86_64 (recording_ops 5)
           (kernel_request NBD_CMD_WRITE handle_H 0 4)
           (session [RdData (map byte.of_Z [1]); RdData (map byte.of_Z [2; 3; 4])]
                    [WrAccept 10; WrAccept 10])
           eq_refl eq_refl eq_refl).
Defined.

(* ===================================================================== *)
(** * A session that cannot install its handlers                          *)
(* ===================================================================== *)

(** X22.  When the signal mask cannot be prepared or one of the two
    handlers cannot be installed, [buse_main] gives up with
    [EXIT_FAILURE] before serving: nothing is read from or written to the
    socket and no callback runs.  It does not undo what it did: the
    device stays recorded in [nbd_dev_to_disconnect] and no descriptor is
    closed. *)
Theorem buse_main_fails_without_handlers {U : Type}
  (b : build) (k : kernel) (aop : buse_operations U) (w : world U) :
  nbd_dev_to_disconnect w = -1 ->
  socketpair_result k = 0 ->
  open_rdwr_result k <> -1 ->
  (forall req, ioctl_result k Server req <> -1) ->
  fork_result k <> 0 ->
  sigemptyset_result k <> 0 \/ sigaddset_result k SIGINT <> 0 \/
  sigaddset_result k SIGTERM <> 0 \/ sigaction_result k SIGINT <> 0 \/
  sigaction_result k SIGTERM <> 0 ->
  exists w',
    buse_main b k aop w = Done EXIT_FAILURE w' /\
    nbd_dev_to_disconnect w' = open_rdwr_result k /\
    closed (trace w') = closed (trace w) /\
    incoming w' = incoming w /\ outgoing w' = outgoing w /\
    userdata w' = userdata w /\
    sent (trace w') = sent (trace w) /\
    received (trace w') = received (trace w) /\
    calls (trace w') = calls (trace w).
Proof.
  intros Hslot Hsp Hopen Hioctl Hfork Hbad.
  unfold buse_main. rewrite Hsp. cbn [Z.eqb assert bind].
  rewrite (eqb_minus1_false _ Hopen).
  do 3 (rewrite configure_spec; cbv zeta;
        rewrite (eqb_minus1_false _ (Hioctl _)), andb_false_r; cbn [bind]).
  unfold ioctl. rewrite (eqb_minus1_false _ (Hioctl _)). cbn [negb assert bind].
  destruct (Z.eqb_spec (fork_result k) 0) as [|_]; [contradiction|].
  set (w4 := @emit U (EvIoctl (open_rdwr_result k) NBD_CLEAR_SOCK 0) _).
  assert (H4 : nbd_dev_to_disconnect w4 = -1 /\
               incoming w4 = incoming w /\ outgoing w4 = outgoing w /\
               userdata w4 = userdata w /\
               sent (trace w4) = sent (trace w) /\
               received (trace w4) = received (trace w) /\
               calls (trace w4) = calls (trace w) /\
               closed (trace w4) = closed (trace w)).
  { subst w4.
    destruct (blksize aop =? 0), (size aop =? 0), (size_blocks aop =? 0);
      cbn [negb]; trace_norm; repeat split; auto. }
  destruct H4 as (S4 & I4 & O4 & U4 & Se4 & R4 & C4 & Cl4).
  unfold server. rewrite S4. change (-1 =? -1) with true. cbn [assert bind].
  set (w5 := set_nbd_dev_to_disconnect (open_rdwr_result k) w4).
  destruct (Z.eqb_spec (sigemptyset_result k) 0) as [He|He]; cbn [negb orb].
  2:{ eexists. split; [reflexivity|]. subst w5. trace_norm. repeat split; auto. }
  destruct (Z.eqb_spec (sigaddset_result k SIGINT) 0) as [Hi|Hi]; cbn [negb orb].
  2:{ eexists. split; [reflexivity|]. subst w5. trace_norm. repeat split; auto. }
  destruct (Z.eqb_spec (sigaddset_result k SIGTERM) 0) as [Ht|Ht]; cbn [negb orb].
  2:{ eexists. split; [reflexivity|]. subst w5. trace_norm. repeat split; auto. }
  destruct (set_sigaction_spec k SIGINT SIG_disconnect_nbd w5)
    as (w6 & E6 & S6 & I6 & O6 & U6 & _ & Se6 & _ & Cl6 & R6 & C6 & _).
  rewrite E6.
  destruct (Z.eqb_spec (sigaction_result k SIGINT) 0) as [Ha|Ha]; cbn [negb].
  2:{ eexists. split; [reflexivity|]. trace_norm.
      rewrite S6, I6, O6, U6, Se6, R6, C6, Cl6. subst w5. trace_norm.
      repeat split; auto. }
  destruct (set_sigaction_spec k SIGTERM SIG_disconnect_nbd w6)
    as (w7 & E7 & S7 & I7 & O7 & U7 & _ & Se7 & _ & Cl7 & R7 & C7 & _).
  rewrite E7.
  destruct (Z.eqb_spec (sigaction_result k SIGTERM) 0) as [Hb|Hb]; cbn [negb].
  2:{ eexists. split; [reflexivity|]. trace_norm.
      rewrite S7, I7, O7, U7, Se7, R7, C7, Cl7, S6, I6, O6, U6, Se6, R6, C6, Cl6.
      subst w5. trace_norm. repeat split; auto. }
  exfalso. intuition congruence.
Qed.

Lemma buse_main_fails_without_handlers_witness :
  let b := linux_x86_64 in
  let k := kernel_refusing_sigterm in
  let aop := recording_ops 0 in
  let w := session [RdData (kernel_request NBD_CMD_DISC handle_H 0 0)] [] in
  nbd_dev_to_disconnect w = -1 /\
  socketpair_result k = 0 /\
  open_rdwr_result k <> -1 /\
  (forall req, ioctl_result k Server req <> -1) /\
  fork_result k <> 0 /\
  (sigemptyset_result k <> 0 \/ sigaddset_result k SIGINT <> 0 \/
   sigaddset_result k SIGTERM <> 0 \/ sigaction_result k SIGINT <> 0 \/
   sigaction_result k SIGTERM <> 0) /\
  exists w',
    buse_main b k aop w = Done EXIT_FAILURE w' /\
    nbd_dev_to_disconnect w' = open_rdwr_result k /\
    closed (trace w') = closed (trace w) /\
    incoming w' = incoming w /\ outgoing w' = outgoing w /\
    userdata w' = userdata w /\
    sent (trace w') = sent (trace w) /\
    received (trace w') = received (trace w) /\
    calls (trace w') = calls (trace w).
Proof.
  cbv zeta.
  assert (H1 : open_rdwr_result kernel_refusing_sigterm <> -1) by discriminate.
  assert (H2 : forall req, ioctl_result kernel_refusing_sigterm Server req <> -1)
    by (intros req; discriminate).
  assert (H3 : fork_result kernel_refusing_sigterm <> 0) by discriminate.
  assert (H4 : sigaction_result kernel_refusing_sigterm SIGTERM <> 0)
    by discriminate.
  split; [reflexivity|]. split; [reflexivity|]. split; [exact H1|].
  split; [exact H2|]. split; [exact H3|].
  split; [do 4 right; exact H4|].
  exact (buse_main_fails_without_handlers linux_x86_64 kernel_refusing_sigterm
           (recording_ops 0)
           (session [RdData (kernel_request NBD_CMD_DISC handle_H 0 0)] [])
           eq_refl eq_refl H1 H2 H3
           (or_intror (or_intror (or_intror (or_intror H4))))).
Defined.

(* ===================================================================== *)
(** * A turn against the whole socket                                     *)
(* ===================================================================== *)

Section Decided.
Context {U : Type}.
Implicit Types w : world U.

Lemma room_after_done o : room_after 0 o = o.
Proof. destruct o as [|[]]; reflexivity. Qed.

(** When [write_all] gets through, the output side of the socket is what
    [room_after] says. *)
Lemma write_all_loop_after fuel : forall buf count w w',
  0 <= count -> (Z.to_nat count <= fuel)%nat ->
  write_all_loop fuel buf count w = Done tt w' ->
  outgoing w' = room_after count (outgoing w).
Proof.
  induction fuel as [|fuel IH]; intros buf count w w' Hc Hf.
  - assert (count = 0) as -> by lia. cbn. intros [= <-].
    symmetry. apply room_after_done.
  - cbn [write_all_loop]. destruct (Z.gtb_spec count 0) as [Hpos|Hz].
    2:{ assert (count = 0) as -> by lia. cbn. intros [= <-].
        symmetry. apply room_after_done. }
    unfold sock_write.
    destruct (outgoing w) as [|[room|] rest] eqn:Hout.
    + change (to_int (-1) >? 0) with false. discriminate.
    + set (n := Z.max 0 (Z.min (Z.min count room) MAX_RW_COUNT)).
      assert (Hn : 0 <= n < 2 ^ 31) by (unfold n, MAX_RW_COUNT; lia).
      rewrite to_int_small by lia.
      destruct (Z.gtb_spec n 0) as [Hnp|Hnz]; [|discriminate].
      intros H. apply IH in H; [|unfold n; lia|lia].
      cbn [outgoing emit set_outgoing] in H. rewrite H.
      cbn [room_after]. destruct (Z.leb_spec count 0); [lia|].
      fold n. destruct (Z.gtb_spec n 0); [reflexivity|lia].
    + change (to_int (-1) >? 0) with false. discriminate.
Qed.

(** [read_all] against the bytes the socket has: with [count] bytes
    available it returns the next [count] bytes; with fewer it aborts. *)
Lemma read_all_decided count w :
  0 <= count ->
  exists chunks w',
    input_only w w' /\ trace w' = trace w ++ map EvRecv chunks /\
    pending (incoming w) = concat chunks ++ pending (incoming w') /\
    if count <=? available (incoming w)
    then read_all count w = Done (concat chunks) w' /\
         concat chunks = firstn (Z.to_nat count) (pending (incoming w)) /\
         Z.of_nat (length (concat chunks)) = count /\
         pending (incoming w') = skipn (Z.to_nat count) (pending (incoming w))
    else read_all count w = Aborted w' /\
         Z.of_nat (length (concat chunks)) < count.
Proof.
  intros Hc.
  pose proof (read_all_loop_available (Z.to_nat count) [] count w Hc
                (Nat.le_refl _)) as Hav.
  fold (read_all count w) in Hav.
  destruct (read_all_spec count w Hc)
    as (chunks & w1 & Hio & Ht & _ & Hp & Hres).
  exists chunks, w1. split; [exact Hio|]. split; [exact Ht|].
  split; [exact Hp|].
  destruct (count <=? available (incoming w)).
  - destruct Hav as (data & w' & Hd).
    destruct Hres as [[Hr Hl]|[Hr _]]; [|congruence].
    assert (Hn : length (concat chunks) = Z.to_nat count) by lia.
    split; [exact Hr|]. rewrite Hp, <- Hn.
    rewrite firstn_app, firstn_all, Nat.sub_diag, firstn_O, app_nil_r.
    rewrite skipn_app, skipn_all, Nat.sub_diag. cbn [skipn app].
    split; [reflexivity|]. split; [lia|reflexivity].
  - destruct Hav as (w' & Hd).
    destruct Hres as [[Hr _]|[Hr Hl]]; [congruence|]. auto.
Qed.

(** [write_all] against the room the socket has. *)
Lemma write_all_decided buf count w :
  Z.of_nat (length buf) = count ->
  exists pieces w',
    output_only w w' /\ trace w' = trace w ++ map EvSend pieces /\
    if count <=? room_ahead (outgoing w)
    then write_all buf count w = Done tt w' /\ concat pieces = buf /\
         outgoing w' = room_after count (outgoing w)
    else write_all buf count w = Aborted w' /\
         exists rest, rest <> [] /\ buf = concat pieces ++ rest.
Proof.
  intros Hl.
  pose proof (write_all_loop_room (Z.to_nat count) buf count w
                ltac:(lia) (Nat.le_refl _)) as Hroom.
  fold (write_all buf count w) in Hroom.
  destruct (write_all_spec buf count w Hl)
    as (pieces & w1 & Hio & Ht & Hres).
  exists pieces, w1. split; [exact Hio|]. split; [exact Ht|].
  destruct (count <=? room_ahead (outgoing w)).
  - destruct Hroom as (w' & Hd).
    destruct Hres as [[Hr Hc]|[Hr _]]; [|congruence].
    split; [exact Hr|]. split; [exact Hc|].
    apply (write_all_loop_after (Z.to_nat count) buf count w w1);
      [lia|lia|exact Hr].
  - destruct Hroom as (w' & Hd).
    destruct Hres as [[Hr _]|[Hr Hc]]; [congruence|]. auto.
Qed.

(** Sending the reply structure, as every case of the [switch] but
    [NBD_CMD_DISC] ends: it goes out in full exactly when the socket has
    room for its 16 bytes. *)
Lemma send_reply_decided (reply : list byte) w1 :
  Z.of_nat (length reply) = sizeof_nbd_reply ->
  exists pieces w',
    output_only w1 w' /\ trace w' = trace w1 ++ map EvSend pieces /\
    let run := bind (write_all reply sizeof_nbd_reply w1)
                    (fun _ w => Done Continue w) in
    if sizeof_nbd_reply <=? room_ahead (outgoing w1)
    then run = Done Continue w' /\ concat pieces = reply
    else run = Aborted w' /\
         exists rest, rest <> [] /\ reply = concat pieces ++ rest.
Proof.
  intros Hl.
  destruct (write_all_decided reply sizeof_nbd_reply w1 Hl)
    as (pieces & w' & Ho & Ht & Hres).
  exists pieces, w'. split; [exact Ho|]. split; [exact Ht|]. cbv zeta.
  destruct (sizeof_nbd_reply <=? room_ahead (outgoing w1)).
  - destruct Hres as (-> & Hc & _). auto.
  - destruct Hres as (-> & Hc). auto.
Qed.

(** Sending the reply structure and then the buffer, as the READ case
    does: the first needs room for 16 bytes, the second room for [L] bytes
    on what the first left of the socket. *)
Lemma send_reply_chunk_decided (reply chunk : list byte) (L : Z) w1 :
  Z.of_nat (length reply) = sizeof_nbd_reply ->
  Z.of_nat (length chunk) = L ->
  exists pieces w',
    output_only w1 w' /\ trace w' = trace w1 ++ map EvSend pieces /\
    let run := bind (write_all reply sizeof_nbd_reply w1) (fun _ w =>
               bind (write_all chunk L w) (fun _ w => Done Continue w)) in
    if sizeof_nbd_reply <=? room_ahead (outgoing w1)
    then if L <=? room_ahead (room_after sizeof_nbd_reply (outgoing w1))
         then run = Done Continue w' /\ concat pieces = reply ++ chunk
         else run = Aborted w' /\
              exists part rest, rest <> [] /\
                concat pieces = reply ++ part /\ chunk = part ++ rest
    else run = Aborted w' /\
         exists rest, rest <> [] /\ reply = concat pieces ++ rest.
Proof.
  intros Hl Hc.
  destruct (write_all_decided reply sizeof_nbd_reply w1 Hl)
    as (p1 & w2 & Ho1 & Ht1 & Hres1).
  destruct (sizeof_nbd_reply <=? room_ahead (outgoing w1)).
  - destruct Hres1 as (Hr1 & Hc1 & Hout).
    destruct (write_all_decided chunk L w2 Hc) as (p2 & w3 & Ho2 & Ht2 & Hres2).
    exists (p1 ++ p2), w3.
    rewrite map_app, app_assoc, <- Ht1.
    split; [eauto using output_only_trans|]. split; [exact Ht2|].
    cbv zeta. rewrite Hr1. cbn [bind]. rewrite concat_app, Hc1.
    rewrite Hout in Hres2.
    destruct (L <=? room_ahead (room_after sizeof_nbd_reply (outgoing w1))).
    + destruct Hres2 as (-> & Hc2 & _). rewrite Hc2. auto.
    + destruct Hres2 as (-> & rest & Hne & Hc2). cbn [bind].
      split; [reflexivity|]. exists (concat p2), rest. auto.
  - destruct Hres1 as (Hr1 & Hc1).
    exists p1, w2. split; [exact Ho1|]. split; [exact Ht1|].
    cbv zeta. rewrite Hr1. auto.
Qed.

End Decided.

(* ===================================================================== *)
(** * The turn of a WRITE request                                         *)
(* ===================================================================== *)



(* ===================================================================== *)
(** * The turn of a READ request                                          *)
(* ===================================================================== *)

(** C2.  A READ request of length [L].  Nothing is read from the socket.
    The [read] callback, if there is one, is invoked once on a fresh
    buffer of [L] bytes; then the 16 bytes of the reply structure are put
    on the socket, followed by the [L] bytes of the buffer, in this order
    and nothing else.  The turn completes when the socket has room for the
    16 bytes and then for the [L] bytes; when it has no room for the
    structure the process aborts on a proper prefix of it, and when it has
    no room for the buffer the process aborts with the structure sent in
    full and a proper prefix of the buffer after it.  Without a callback
    none is invoked, the status reads [EPERM] on the wire and the [L]
    bytes are the untouched content of the fresh buffer. *)
Theorem read_request_reply_then_payload {U : Type}
  (b : build) (aop : buse_operations U) (hdr : list byte) (w : world U) :
  length hdr = 28%nat ->
  wire_magic hdr = NBD_REQUEST_MAGIC ->
  wire_type hdr = NBD_CMD_READ ->
  let L := wire_len hdr in
  let off := request_from b hdr in
  let run := serve_request b aop (request_of_bytes (host b) hdr) w in
  let w0 := emit (EvStderr (Msg_request_read L)) w in
  let '(invoked, status, chunk, u) :=
    match read aop with
    | Some f =>
        let r := f (malloc w L) L off (userdata w) in
        ([EvCall (Call_read L off)], u32 (snd (fst r)),
         fill (malloc w L) (fst (fst r)), snd r)
    | None => ([], htonl (host b) EPERM, malloc w L, userdata w)
    end in
  let reply := bytes_of_reply (host b) (reply_with (host b) hdr status) in
  Z.of_nat (length reply) = sizeof_nbd_reply /\
  Z.of_nat (length chunk) = L /\
  (read aop = None -> wire_status reply = EPERM) /\
  exists pieces w',
    trace w' = trace w0 ++ invoked ++ map EvSend pieces /\
    userdata w' = u /\ incoming w' = incoming w /\
    if sizeof_nbd_reply <=? room_ahead (outgoing w)
    then if L <=? room_ahead (room_after sizeof_nbd_reply (outgoing w))
         then run = Done Continue w' /\ concat pieces = reply ++ chunk
         else run = Aborted w' /\
              exists part rest, rest <> [] /\
                concat pieces = reply ++ part /\ chunk = part ++ rest
    else run = Aborted w' /\
         exists rest, rest <> [] /\ reply = concat pieces ++ rest.
Proof.
  intros Hlen Hmagic Hty L off run w0. subst run.
  rewrite (serve_request_read b aop hdr Hlen Hmagic w Hty).
  cbv zeta. fold L off w0.
  pose proof (wire_len_range hdr Hlen) as HL. fold L in HL.
  assert (Hm : Z.of_nat (length (malloc w L)) = L).
  { rewrite length_malloc. lia. }
  change (malloc w0 L) with (malloc w L).
  change (userdata w0) with (userdata w).
  destruct (read aop) as [f|] eqn:Hr.
  - destruct (f (malloc w L) L off (userdata w)) as [[data status] u] eqn:Hf.
    cbn [fst snd].
    split; [apply length_reply_with, Hlen|].
    split; [rewrite length_fill; exact Hm|].
    split; [discriminate|].
    destruct (send_reply_chunk_decided
                (bytes_of_reply (host b) (reply_with (host b) hdr (u32 status)))
                (fill (malloc w L) data) L
                (set_userdata u (emit (EvCall (Call_read L off)) w0))
                (length_reply_with _ _ _ Hlen))
      as (pieces & w' & (Hi & Hu & _) & Ht & Hres).
    { rewrite length_fill. exact Hm. }
    exists pieces, w'. split; [rewrite Ht; cbn [trace set_userdata emit];
                               rewrite <- !app_assoc; reflexivity|].
    split; [exact Hu|]. split; [exact Hi|]. exact Hres.
  - split; [apply length_reply_with, Hlen|].
    split; [exact Hm|].
    split.
    { intros _. rewrite <- (app_nil_r (bytes_of_reply _ _)).
      apply wire_status_eperm. }
    destruct (send_reply_chunk_decided
                (bytes_of_reply (host b)
                   (reply_with (host b) hdr (htonl (host b) EPERM)))
                (malloc w L) L w0 (length_reply_with _ _ _ Hlen) Hm)
      as (pieces & w' & (Hi & Hu & _) & Ht & Hres).
    exists pieces, w'. split; [exact Ht|].
    split; [exact Hu|]. split; [exact Hi|]. exact Hres.
Qed.

Lemma read_request_reply_then_payload_witness :
  let b := linux_x86_64 in
  let aop := no_ops in
  let hdr := kernel_request NBD_CMD_READ handle_H 0 512 in
  let w := session [] [WrAccept 7; WrAccept 100; WrAccept 300; WrAccept 300] in
  length hdr = 28%nat /\
  wire_magic hdr = NBD_REQUEST_MAGIC /\
  wire_type hdr = NBD_CMD_READ /\
  let L := wire_len hdr in
  let off := request_from b hdr in
  let run := serve_request b aop (request_of_bytes (host b) hdr) w in
  let w0 := emit (EvStderr (Msg_request_read L)) w in
  let '(invoked, status, chunk, u) :=
    match read aop with
    | Some f =>
        let r := f (malloc w L) L off (userdata w) in
        ([EvCall (Call_read L off)], u32 (snd (fst r)),
         fill (malloc w L) (fst (fst r)), snd r)
    | None => ([], htonl (host b) EPERM, malloc w L, userdata w)
    end in
  let reply := bytes_of_reply (host b) (reply_with (host b) hdr status) in
  Z.of_nat (length reply) = sizeof_nbd_reply /\
  Z.of_nat (length chunk) = L /\
  (read aop = None -> wire_status reply = EPERM) /\
  exists pieces w',
    trace w' = trace w0 ++ invoked ++ map EvSend pieces /\
    userdata w' = u /\ incoming w' = incoming w /\
    if sizeof_nbd_reply <=? room_ahead (outgoing w)
    then if L <=? room_ahead (room_after sizeof_nbd_reply (outgoing w))
         then run = Done Continue w' /\ concat pieces = reply ++ chunk
         else run = Aborted w' /\
              exists part rest, rest <> [] /\
                concat pieces = reply ++ part /\ chunk = part ++ rest
    else run = Aborted w' /\
         exists rest, rest <> [] /\ reply = concat pieces ++ rest.
Proof.
  cbv zeta. split; [reflexivity|]. split; [reflexivity|]. split; [reflexivity|].
  exact (read_request_reply_then_payload linux_x86_64 no_ops
           (kernel_request NBD_CMD_READ handle_H 0 512)
           (session [] [WrAccept 7; WrAccept 100; WrAccept 300; WrAccept 300])
           eq_refl eq_refl eq_refl).
Defined.

(** The witness above is a turn that completes: the structure leaves in
    two [write]s, the second of which takes 9 bytes of the 100 offered,
    and the buffer in two more. *)
Example read_request_room :
  let o := [WrAccept 7; WrAccept 100; WrAccept 300; WrAccept 300] in
  room_ahead o = 707 /\
  room_after sizeof_nbd_reply o = [WrAccept 300; WrAccept 300] /\
  exists w',
    serve_request linux_x86_64 no_ops
      (request_of_bytes LittleEndian (kernel_request NBD_CMD_READ handle_H 0 512))
      (session [] o) = Done Continue w' /\
    outgoing w' = [] /\
    sent (trace w')
    = be_bytes 4 NBD_REPLY_MAGIC ++ be_bytes 4 EPERM ++ handle_H
      ++ repeat (byte.of_Z 0) 512.
Proof.
  cbv zeta. split; [reflexivity|]. split; [reflexivity|].
  eexists. split; [vm_compute; reflexivity|]. split; vm_compute; reflexivity.
Qed.

(* ===================================================================== *)
(** * The turns of FLUSH and TRIM requests                                *)
(* ===================================================================== *)

(** X8.  A FLUSH request, in a build that has the case: nothing is read
    after the header; the [flush] callback, if there is one, is invoked
    and its return value is the status; without one no callback is
    invoked and the status is success, not [EPERM].  Then the 16 bytes of
    the reply structure are sent and nothing else: the turn completes
    when the socket has room for them, and the process aborts on a proper
    prefix of them when not. *)
Theorem flush_request_reply {U : Type}
  (b : build) (aop : buse_operations U) (hdr : list byte) (w : world U) :
  length hdr = 28%nat ->
  wire_magic hdr = NBD_REQUEST_MAGIC ->
  wire_type hdr = NBD_CMD_FLUSH ->
  defined_NBD_FLAG_SEND_FLUSH b = true ->
  let run := serve_request b aop (request_of_bytes (host b) hdr) w in
  let '(invoked, status, u) :=
    match flush aop with
    | Some f => ([EvCall Call_flush], u32 (fst (f (userdata w))),
                 snd (f (userdata w)))
    | None => ([], htonl (host b) 0, userdata w)
    end in
  let reply := bytes_of_reply (host b) (reply_with (host b) hdr status) in
  (flush aop = None -> wire_status reply = 0) /\
  exists pieces w',
    trace w' = trace w ++ invoked ++ map EvSend pieces /\
    userdata w' = u /\ incoming w' = incoming w /\
    if sizeof_nbd_reply <=? room_ahead (outgoing w)
    then run = Done Continue w' /\ concat pieces = reply
    else run = Aborted w' /\
         exists rest, rest <> [] /\ reply = concat pieces ++ rest.
Proof.
  intros Hlen Hm Hty Hf run. subst run.
  rewrite (serve_request_flush b aop hdr Hlen Hm w Hty Hf).
  destruct (flush aop) as [f|].
  - destruct (f (userdata w)) as [status u]. cbn [fst snd].
    split; [discriminate|].
    destruct (send_reply_decided
                (bytes_of_reply (host b) (reply_with (host b) hdr (u32 status)))
                (set_userdata u (emit (EvCall Call_flush) w))
                (length_reply_with _ _ _ Hlen))
      as (pieces & w' & (Hi & Hu & _) & Ht & Hres).
    exists pieces, w'. rewrite Ht. cbn [trace emit set_userdata].
    rewrite <- app_assoc. auto.
  - split.
    { intros _. rewrite <- (app_nil_r (bytes_of_reply _ _)).
      apply wire_status_zero. }
    destruct (send_reply_decided
                (bytes_of_reply (host b)
                   (reply_with (host b) hdr (htonl (host b) 0)))
                w (length_reply_with _ _ _ Hlen))
      as (pieces & w' & (Hi & Hu & _) & Ht & Hres).
    exists pieces, w'. auto.
Qed.

Lemma flush_request_reply_witness :
  let b := linux_x86_64 in
  let aop := no_ops in
  let hdr := kernel_request NBD_CMD_FLUSH handle_H 0 0 in
  let w := session [] [WrAccept 12; WrAccept 12] in
  length hdr = 28%nat /\
  wire_magic hdr = NBD_REQUEST_MAGIC /\
  wire_type hdr = NBD_CMD_FLUSH /\
  defined_NBD_FLAG_SEND_FLUSH b = true /\
  let run := serve_request b aop (request_of_bytes (host b) hdr) w in
  let '(invoked, status, u) :=
    match flush aop with
    | Some f => ([EvCall Call_flush], u32 (fst (f (userdata w))),
                 snd (f (userdata w)))
    | None => ([], htonl (host b) 0, userdata w)
    end in
  let reply := bytes_of_reply (host b) (reply_with (host b) hdr status) in
  (flush aop = None -> wire_status reply = 0) /\
  exists pieces w',
    trace w' = trace w ++ invoked ++ map EvSend pieces /\
    userdata w' = u /\ incoming w' = incoming w /\
    if sizeof_nbd_reply <=? room_ahead (outgoing w)
    then run = Done Continue w' /\ concat pieces = reply
    else run = Aborted w' /\
         exists rest, rest <> [] /\ reply = concat pieces ++ rest.
Proof.
  cbv zeta. split; [reflexivity|]. split; [reflexivity|]. split; [reflexivity|].
  split; [reflexivity|].
  exact (flush_request_reply linux_x86_64 no_ops
           (kernel_request NBD_CMD_FLUSH handle_H 0 0)
           (session [] [WrAccept 12; WrAccept 12])
           eq_refl eq_refl eq_refl eq_refl).
Defined.

(** X9.  A TRIM request, in a build that has the case: nothing is read
    after the header, whatever its length field says; the [trim]
    callback, if there is one, is invoked with the offset and the length
    of the request, in this order, and its return value is the status;
    without one the status is success.  Then the 16 bytes of the reply
    structure are sent and nothing else: the turn completes when the
    socket has room for them, and the process aborts on a proper prefix
    of them when not. *)
Theorem trim_request_reply {U : Type}
  (b : build) (aop : buse_operations U) (hdr : list byte) (w : world U) :
  length hdr = 28%nat ->
  wire_magic hdr = NBD_REQUEST_MAGIC ->
  wire_type hdr = NBD_CMD_TRIM ->
  defined_NBD_FLAG_SEND_TRIM b = true ->
  let L := wire_len hdr in
  let off := request_from b hdr in
  let run := serve_request b aop (request_of_bytes (host b) hdr) w in
  let '(invoked, status, u) :=
    match trim aop with
    | Some f => ([EvCall (Call_trim off L)], u32 (fst (f off L (userdata w))),
                 snd (f off L (userdata w)))
    | None => ([], htonl (host b) 0, userdata w)
    end in
  let reply := bytes_of_reply (host b) (reply_with (host b) hdr status) in
  (trim aop = None -> wire_status reply = 0) /\
  exists pieces w',
    trace w' = trace w ++ invoked ++ map EvSend pieces /\
    userdata w' = u /\ incoming w' = incoming w /\
    if sizeof_nbd_reply <=? room_ahead (outgoing w)
    then run = Done Continue w' /\ concat pieces = reply
    else run = Aborted w' /\
         exists rest, rest <> [] /\ reply = concat pieces ++ rest.
Proof.
  intros Hlen Hm Hty Hf L off run. subst run.
  rewrite (serve_request_trim b aop hdr Hlen Hm w Hty Hf). cbv zeta.
  fold L off.
  destruct (trim aop) as [f|].
  - destruct (f off L (userdata w)) as [status u]. cbn [fst snd].
    split; [discriminate|].
    destruct (send_reply_decided
                (bytes_of_reply (host b) (reply_with (host b) hdr (u32 status)))
                (set_userdata u (emit (EvCall (Call_trim off L)) w))
                (length_reply_with _ _ _ Hlen))
      as (pieces & w' & (Hi & Hu & _) & Ht & Hres).
    exists pieces, w'. rewrite Ht. cbn [trace emit set_userdata].
    rewrite <- app_assoc. auto.
  - split.
    { intros _. rewrite <- (app_nil_r (bytes_of_reply _ _)).
      apply wire_status_zero. }
    destruct (send_reply_decided
                (bytes_of_reply (host b)
                   (reply_with (host b) hdr (htonl (host b) 0)))
                w (length_reply_with _ _ _ Hlen))
      as (pieces & w' & (Hi & Hu & _) & Ht & Hres).
    exists pieces, w'. auto.
Qed.

Lemma trim_request_reply_witness :
  let b := linux_x86_64 in
  let aop := recording_ops 0 in
  let hdr := kernel_request NBD_CMD_TRIM handle_H 8192 4096 in
  let w := session [RdData payload_1234] [WrAccept 16] in
  length hdr = 28%nat /\
  wire_magic hdr = NBD_REQUEST_MAGIC /\
  wire_type hdr = NBD_CMD_TRIM /\
  defined_NBD_FLAG_SEND_TRIM b = true /\
  let L := wire_len hdr in
  let off := request_from b hdr in
  let run := serve_request b aop (request_of_bytes (host b) hdr) w in
  let '(invoked, status, u) :=
    match trim aop with
    | Some f => ([EvCall (Call_trim off L)], u32 (fst (f off L (userdata w))),
                 snd (f off L (userdata w)))
    | None => ([], htonl (host b) 0, userdata w)
    end in
  let reply := bytes_of_reply (host b) (reply_with (host b) hdr status) in
  (trim aop = None -> wire_status reply = 0) /\
  exists pieces w',
    trace w' = trace w ++ invoked ++ map EvSend pieces /\
    userdata w' = u /\ incoming w' = incoming w /\
    if sizeof_nbd_reply <=? room_ahead (outgoing w)
    then run = Done Continue w' /\ concat pieces = reply
    else run = Aborted w' /\
         exists rest, rest <> [] /\ reply = concat pieces ++ rest.
Proof.
  cbv zeta. split; [reflexivity|]. split; [reflexivity|]. split; [reflexivity|].
  split; [reflexivity|].
  exact (trim_request_reply linux_x86_64 (recording_ops 0)
           (kernel_request NBD_CMD_TRIM handle_H 8192 4096)
           (session [RdData payload_1234] [WrAccept 16])
           eq_refl eq_refl eq_refl eq_refl).
Defined.

(* ===================================================================== *)
(** * Every turn is settled by the socket                                 *)
(* ===================================================================== *)

Section Settled.
Context {U : Type}.
Variable b : build.
Variable aop : buse_operations U.
Variable hdr : list byte.
Hypothesis Hlen : length hdr = 28%nat.
Hypothesis Hmagic : wire_magic hdr = NBD_REQUEST_MAGIC.

Local Abbreviation run w := (serve_request b aop (request_of_bytes (host b) hdr) w).

Ltac sent_norm :=
  cbn [trace emit set_userdata];
  rewrite ?sent_app, ?sent_send, ?sent_recv; cbn [sent];
  rewrite ?app_nil_r, <- ?app_assoc.

Ltac pick_case Hty :=
  unfold settled, turn_completes, reply_error, reply_payload, callback_answer;
  rewrite Hty;
  repeat match goal with
         | |- context [?x =? ?y] =>
             (change (x =? y) with true || change (x =? y) with false)
         end;
  cbv iota; cbn [orb].

Lemma reply_nonempty status payload :
  bytes_of_reply (host b) (reply_with (host b) hdr status) ++ payload <> [].
Proof.
  intros E. apply (f_equal (@length byte)) in E.
  pose proof (length_reply_with (host b) hdr status Hlen) as Hl.
  rewrite length_app in E. cbn [length] in E.
  unfold sizeof_nbd_reply in Hl. lia.
Qed.

(** A world [w1] reached without sending anything and without touching
    the output side of the socket sends the reply. *)
Lemma settled_by_reply (w w1 : world U) status :
  sent (trace w1) = sent (trace w) -> outgoing w1 = outgoing w ->
  let reply := bytes_of_reply (host b) (reply_with (host b) hdr status) in
  let k := bind (write_all reply sizeof_nbd_reply w1)
                (fun _ w => Done Continue w) in
  exists w',
    if sizeof_nbd_reply <=? room_ahead (outgoing w)
    then k = Done Continue w' /\
         sent (trace w') = sent (trace w) ++ reply ++ []
    else k = Aborted w' /\
         exists rest, rest <> [] /\
           sent (trace w) ++ reply ++ [] = sent (trace w') ++ rest.
Proof.
  intros Hs Ho reply k. subst k.
  destruct (send_reply_decided reply w1 (length_reply_with _ _ _ Hlen))
    as (pieces & w' & _ & Ht & Hres).
  cbv zeta in Hres. rewrite Ho in Hres.
  exists w'. rewrite Ht, sent_app, sent_send, Hs, app_nil_r.
  destruct (sizeof_nbd_reply <=? room_ahead (outgoing w)).
  - destruct Hres as (-> & ->). auto.
  - destruct Hres as (-> & rest & Hne & ->).
    split; [reflexivity|]. exists rest. rewrite app_assoc. auto.
Qed.

Lemma read_settled (w : world U) :
  wire_type hdr = NBD_CMD_READ -> settled b aop hdr w (run w).
Proof.
  intros Hty. rewrite (serve_request_read b aop hdr Hlen Hmagic w Hty).
  cbv zeta. pick_case Hty.
  set (L := wire_len hdr). set (w0 := emit _ w).
  pose proof (wire_len_range hdr Hlen) as HL. fold L in HL.
  assert (Hm : Z.of_nat (length (malloc w L)) = L).
  { rewrite length_malloc. lia. }
  change (malloc w0 L) with (malloc w L).
  change (userdata w0) with (userdata w).
  assert (Hgen : forall status chunk (w1 : world U),
    Z.of_nat (length chunk) = L ->
    sent (trace w1) = sent (trace w) -> outgoing w1 = outgoing w ->
    let reply := bytes_of_reply (host b) (reply_with (host b) hdr status) in
    let k := bind (write_all reply sizeof_nbd_reply w1) (fun _ w =>
             bind (write_all chunk L w) (fun _ w => Done Continue w)) in
    exists w',
      if (sizeof_nbd_reply <=? room_ahead (outgoing w))
         && (L <=? room_ahead (room_after sizeof_nbd_reply (outgoing w)))
      then k = Done Continue w' /\
           sent (trace w') = sent (trace w) ++ reply ++ chunk
      else k = Aborted w' /\
           exists rest, rest <> [] /\
             sent (trace w) ++ reply ++ chunk = sent (trace w') ++ rest).
  { intros status chunk w1 Hc Hs Ho reply k. subst k.
    destruct (send_reply_chunk_decided reply chunk L w1
                (length_reply_with _ _ _ Hlen) Hc)
      as (pieces & w' & _ & Ht & Hres).
    cbv zeta in Hres. rewrite Ho in Hres.
    exists w'. rewrite Ht, sent_app, sent_send, Hs.
    destruct (sizeof_nbd_reply <=? room_ahead (outgoing w)); cbn [andb].
    - destruct (L <=? room_ahead (room_after sizeof_nbd_reply (outgoing w))).
      + destruct Hres as (-> & ->). auto.
      + destruct Hres as (-> & part & rest & Hne & -> & ->).
        split; [reflexivity|]. exists rest. rewrite <- !app_assoc. auto.
    - destruct Hres as (-> & rest & Hne & E).
      split; [reflexivity|]. exists (rest ++ chunk). split.
      + destruct rest; [contradiction|discriminate].
      + fold reply. rewrite E, <- !app_assoc. reflexivity. }
  destruct (read aop) as [f|]; cbn [option_map].
  - destruct (f (malloc w L) L (request_from b hdr) (userdata w))
      as [[data status] u]. cbn [fst snd].
    apply Hgen; [rewrite length_fill; exact Hm| |reflexivity].
    subst w0. sent_norm. reflexivity.
  - apply Hgen; [exact Hm| |reflexivity].
    subst w0. sent_norm. reflexivity.
Qed.

Lemma write_settled (w : world U) :
  wire_type hdr = NBD_CMD_WRITE -> settled b aop hdr w (run w).
Proof.
  intros Hty. rewrite (serve_request_write b aop hdr Hlen Hmagic w Hty).
  cbv zeta. pick_case Hty.
  set (L := wire_len hdr). set (w0 := emit _ w).
  pose proof (wire_len_range hdr Hlen) as HL. fold L in HL.
  destruct (read_all_decided L w0 ltac:(lia))
    as (chunks & w1 & (Ho & Hu & _) & Ht & _ & Hres).
  change (incoming w0) with (incoming w) in Hres.
  change (outgoing w0) with (outgoing w) in Ho.
  change (userdata w0) with (userdata w) in Hu.
  assert (Hs : sent (trace w1) = sent (trace w)).
  { rewrite Ht. subst w0. sent_norm. reflexivity. }
  destruct (L <=? available (incoming w)); cbn [andb].
  - destruct Hres as (-> & Hc & _). cbn [bind]. rewrite Hu, Hc.
    destruct (write aop) as [f|]; cbn [option_map].
    + destruct (f _ L (request_from b hdr) (userdata w)) as [status u].
      cbn [fst]. apply settled_by_reply; [|exact Ho].
      sent_norm. exact Hs.
    + apply settled_by_reply; [exact Hs|exact Ho].
  - destruct Hres as (-> & _). cbn [bind]. exists w1.
    split; [reflexivity|]. rewrite Hs. eexists. split; [|reflexivity].
    apply reply_nonempty.
Qed.

Lemma flush_settled (w : world U) :
  wire_type hdr = NBD_CMD_FLUSH -> defined_NBD_FLAG_SEND_FLUSH b = true ->
  settled b aop hdr w (run w).
Proof.
  intros Hty Hf. rewrite (serve_request_flush b aop hdr Hlen Hmagic w Hty Hf).
  pick_case Hty.
  destruct (flush aop) as [f|]; cbn [option_map].
  - destruct (f (userdata w)) as [status u]. cbn [fst].
    apply settled_by_reply; [|reflexivity]. sent_norm. reflexivity.
  - apply settled_by_reply; reflexivity.
Qed.

Lemma trim_settled (w : world U) :
  wire_type hdr = NBD_CMD_TRIM -> defined_NBD_FLAG_SEND_TRIM b = true ->
  settled b aop hdr w (run w).
Proof.
  intros Hty Hf. rewrite (serve_request_trim b aop hdr Hlen Hmagic w Hty Hf).
  cbv zeta. pick_case Hty.
  destruct (trim aop) as [f|]; cbn [option_map].
  - destruct (f (request_from b hdr) (wire_len hdr) (userdata w)) as [status u].
    cbn [fst]. apply settled_by_reply; [|reflexivity]. sent_norm. reflexivity.
  - apply settled_by_reply; reflexivity.
Qed.

Lemma known_request_settled (w : world U) :
  known_type b (wire_type hdr) = true -> wire_type hdr <> NBD_CMD_DISC ->
  settled b aop hdr w (run w).
Proof.
  intros Hk Hnd.
  destruct (known_type_cases b _ Hk) as [H|[H|[H|[[H Hf]|[H Hf]]]]];
    [apply read_settled|apply write_settled|contradiction
    |apply flush_settled|apply trim_settled]; assumption.
Qed.

Lemma length_reply_payload (w : world U) :
  Z.of_nat (length (reply_payload b aop hdr w))
  = if wire_type hdr =? NBD_CMD_READ then wire_len hdr else 0.
Proof.
  unfold reply_payload.
  pose proof (wire_len_range hdr Hlen) as HL.
  destruct (wire_type hdr =? NBD_CMD_READ); [|reflexivity].
  destruct (read aop) as [f|]; rewrite ?length_fill, length_malloc; lia.
Qed.

End Settled.

(** C5.  Whenever a request of a type that is replied to (READ, WRITE,
    FLUSH, TRIM) is served on a socket that provides what its turn needs,
    the turn completes and what has gone on the socket for it is a reply
    structure, followed by the [len] bytes of the buffer for a READ and by
    nothing for the others, whose handle field, bytes 8 to 15, is byte for
    byte the handle field of the request.  On a socket that does not
    provide it the process aborts, having sent a proper prefix of that
    reply. *)
Theorem reply_handle_echoes_request {U : Type}
  (b : build) (aop : buse_operations U) (hdr : list byte) (w : world U) :
  length hdr = 28%nat ->
  wire_magic hdr = NBD_REQUEST_MAGIC ->
  known_type b (wire_type hdr) = true ->
  wire_type hdr <> NBD_CMD_DISC ->
  let run := serve_request b aop (request_of_bytes (host b) hdr) w in
  exists status payload w',
    let reply := bytes_of_reply (host b) (reply_with (host b) hdr status) in
    wire_handle (reply ++ payload) = wire_handle hdr /\
    Z.of_nat (length payload)
    = (if wire_type hdr =? NBD_CMD_READ then wire_len hdr else 0) /\
    if turn_completes hdr (incoming w) (outgoing w)
    then run = Done Continue w' /\
         sent (trace w') = sent (trace w) ++ reply ++ payload /\
         wire_handle (skipn (length (sent (trace w))) (sent (trace w')))
         = wire_handle hdr
    else run = Aborted w' /\
         exists rest, rest <> [] /\
           sent (trace w) ++ reply ++ payload = sent (trace w') ++ rest.
Proof.
  intros Hlen Hmagic Hk Hnd run.
  destruct (known_request_settled b aop hdr Hlen Hmagic w Hk Hnd)
    as (w' & Hres).
  exists (reply_error b aop hdr w), (reply_payload b aop hdr w), w'.
  cbv zeta.
  assert (Hh : wire_handle
                 (bytes_of_reply (host b)
                    (reply_with (host b) hdr (reply_error b aop hdr w))
                  ++ reply_payload b aop hdr w) = wire_handle hdr).
  { unfold wire_handle at 1. rewrite reply_handle_bytes; [reflexivity|].
    apply length_wire_handle, Hlen. }
  split; [exact Hh|].
  split; [apply length_reply_payload, Hlen|].
  destruct (turn_completes hdr (incoming w) (outgoing w)).
  - destruct Hres as (Hr & Hs). split; [exact Hr|]. split; [exact Hs|].
    rewrite Hs, skipn_app, skipn_all, Nat.sub_diag. exact Hh.
  - exact Hres.
Qed.

Lemma reply_handle_echoes_request_witness :
  let b := linux_x86_64 in
  let aop := recording_ops 0 in
  let hdr := kernel_request NBD_CMD_READ handle_H 0 4 in
  let w := session [] [WrAccept 16; WrAccept 3; WrAccept 3] in
  length hdr = 28%nat /\
  wire_magic hdr = NBD_REQUEST_MAGIC /\
  known_type b (wire_type hdr) = true /\
  wire_type hdr <> NBD_CMD_DISC /\
  let run := serve_request b aop (request_of_bytes (host b) hdr) w in
  exists status payload w',
    let reply := bytes_of_reply (host b) (reply_with (host b) hdr status) in
    wire_handle (reply ++ payload) = wire_handle hdr /\
    Z.of_nat (length payload)
    = (if wire_type hdr =? NBD_CMD_READ then wire_len hdr else 0) /\
    if turn_completes hdr (incoming w) (outgoing w)
    then run = Done Continue w' /\
         sent (trace w') = sent (trace w) ++ reply ++ payload /\
         wire_handle (skipn (length (sent (trace w))) (sent (trace w')))
         = wire_handle hdr
    else run = Aborted w' /\
         exists rest, rest <> [] /\
           sent (trace w) ++ reply ++ payload = sent (trace w') ++ rest.
Proof.
  cbv zeta.
  assert (Hd : wire_type (kernel_request NBD_CMD_READ handle_H 0 4) <> NBD_CMD_DISC)
    by (vm_compute; discriminate).
  split; [reflexivity|]. split; [reflexivity|]. split; [reflexivity|].
  split; [exact Hd|].
  exact (reply_handle_echoes_request linux_x86_64 (recording_ops 0)
           (kernel_request NBD_CMD_READ handle_H 0 4)
           (session [] [WrAccept 16; WrAccept 3; WrAccept 3])
           eq_refl eq_refl eq_refl Hd).
Defined.

(** Each of the four replied types, on a socket that provides what the
    turn needs: the turn completes and bytes 8 to 15 of what is sent are
    the handle of the request. *)
Example handle_echoed_when_turn_completes :
  forall ty, In ty [NBD_CMD_READ; NBD_CMD_WRITE; NBD_CMD_FLUSH; NBD_CMD_TRIM] ->
  let hdr := kernel_request ty handle_H 0 4 in
  let w := session [RdData payload_1234] [WrAccept 16; WrAccept 4] in
  turn_completes hdr (incoming w) (outgoing w) = true /\
  exists w',
    serve_request linux_x86_64 (recording_ops 0)
      (request_of_bytes LittleEndian hdr) w = Done Continue w' /\
    wire_handle (sent (trace w')) = handle_H.
Proof.
  intros ty [<-|[<-|[<-|[<-|[]]]]]; cbv zeta; (split; [reflexivity|]);
    eexists; (split; [vm_compute; reflexivity|]); vm_compute; reflexivity.
Qed.

(* ===================================================================== *)
(** * The reply as the peer reads it                                      *)
(* ===================================================================== *)

(** X10.  Every reply starts with the reply magic in network byte order,
    on little-endian and big-endian hosts alike: whenever a READ, WRITE,
    FLUSH or TRIM request is served on a socket that provides what its
    turn needs, the turn completes and the first four bytes of what has
    been sent for it are 67 44 66 98. *)
Theorem reply_starts_with_magic {U : Type}
  (b : build) (aop : buse_operations U) (hdr : list byte) (w : world U) :
  length hdr = 28%nat ->
  wire_magic hdr = NBD_REQUEST_MAGIC ->
  known_type b (wire_type hdr) = true ->
  wire_type hdr <> NBD_CMD_DISC ->
  turn_completes hdr (incoming w) (outgoing w) = true ->
  exists w',
    serve_request b aop (request_of_bytes (host b) hdr) w = Done Continue w' /\
    let out := skipn (length (sent (trace w))) (sent (trace w')) in
    sent (trace w') = sent (trace w) ++ out /\
    firstn 4 out = map byte.of_Z [0x67; 0x44; 0x66; 0x98] /\
    wire_magic out = NBD_REPLY_MAGIC.
Proof.
  intros Hlen Hmagic Hk Hnd Hc.
  destruct (known_request_settled b aop hdr Hlen Hmagic w Hk Hnd)
    as (w' & Hres).
  rewrite Hc in Hres. destruct Hres as (Hr & Hs).
  exists w'. split; [exact Hr|]. cbv zeta.
  rewrite Hs, skipn_app, skipn_all, Nat.sub_diag. cbn [skipn app].
  split; [reflexivity|].
  assert (E : firstn 4 (bytes_of_reply (host b)
                          (reply_with (host b) hdr (reply_error b aop hdr w))
                        ++ reply_payload b aop hdr w)
              = be_bytes 4 NBD_REPLY_MAGIC).
  { rewrite reply_magic_bytes. cbn [reply_with nbd_reply.magic].
    apply store_htonl. }
  split; [rewrite E; reflexivity|].
  unfold wire_magic. rewrite E. reflexivity.
Qed.

Lemma reply_starts_with_magic_witness :
  let b := linux_s390x in
  let aop := recording_ops 0 in
  let hdr := kernel_request NBD_CMD_READ handle_H 0 4 in
  let w := session [] [WrAccept 16; WrAccept 4] in
  length hdr = 28%nat /\
  wire_magic hdr = NBD_REQUEST_MAGIC /\
  known_type b (wire_type hdr) = true /\
  wire_type hdr <> NBD_CMD_DISC /\
  turn_completes hdr (incoming w) (outgoing w) = true /\
  exists w',
    serve_request b aop (request_of_bytes (host b) hdr) w = Done Continue w' /\
    let out := skipn (length (sent (trace w))) (sent (trace w')) in
    sent (trace w') = sent (trace w) ++ out /\
    firstn 4 out = map byte.of_Z [0x67; 0x44; 0x66; 0x98] /\
    wire_magic out = NBD_REPLY_MAGIC.
Proof.
  cbv zeta.
  assert (Hd : wire_type (kernel_request NBD_CMD_READ handle_H 0 4) <> NBD_CMD_DISC)
    by (vm_compute; discriminate).
  split; [reflexivity|]. split; [reflexivity|]. split; [reflexivity|].
  split; [exact Hd|]. split; [reflexivity|].
  exact (reply_starts_with_magic linux_s390x (recording_ops 0)
           (kernel_request NBD_CMD_READ handle_H 0 4)
           (session [] [WrAccept 16; WrAccept 4])
           eq_refl eq_refl eq_refl Hd eq_refl).
Defined.

(** X11.  What the peer reads in the status field is [htonl] of the value
    the callback returned.  Whenever a request whose callback is
    registered is served on a socket that provides what its turn needs,
    the turn completes, and the status field of what has been sent for it
    decodes to [htonl] of the callback's return value.  So success is
    read as success and failure as failure on every host, and the peer
    reads the error number [e] exactly when the callback returns
    [htonl(e)]. *)
Theorem peer_reads_htonl_of_status {U : Type}
  (b : build) (aop : buse_operations U) (hdr : list byte) (w : world U)
  (status : Z) :
  length hdr = 28%nat ->
  wire_magic hdr = NBD_REQUEST_MAGIC ->
  known_type b (wire_type hdr) = true ->
  turn_completes hdr (incoming w) (outgoing w) = true ->
  callback_answer b aop hdr w = Some status ->
  exists w',
    serve_request b aop (request_of_bytes (host b) hdr) w = Done Continue w' /\
    let seen :=
      wire_status (skipn (length (sent (trace w))) (sent (trace w'))) in
    seen = htonl (host b) (u32 status) /\
    (seen = 0 <-> u32 status = 0) /\
    (forall e, 0 <= e < 2 ^ 32 -> seen = e <-> u32 status = htonl (host b) e).
Proof.
  intros Hlen Hmagic Hk Hc Ha.
  assert (Hnd : wire_type hdr <> NBD_CMD_DISC).
  { intros E. unfold callback_answer in Ha. rewrite E in Ha. discriminate. }
  destruct (known_request_settled b aop hdr Hlen Hmagic w Hk Hnd)
    as (w' & Hres).
  rewrite Hc in Hres. destruct Hres as (Hr & Hs).
  exists w'. split; [exact Hr|]. cbv zeta.
  rewrite Hs, skipn_app, skipn_all, Nat.sub_diag. cbn [skipn app].
  unfold reply_error. rewrite Ha.
  assert (Hseen :
    wire_status (bytes_of_reply (host b) (reply_with (host b) hdr (u32 status))
                 ++ reply_payload b aop hdr w)
    = htonl (host b) (u32 status)).
  { unfold wire_status. rewrite reply_status_bytes.
    cbn [reply_with nbd_reply.error]. apply be_value_store, u32_range. }
  rewrite Hseen. split; [reflexivity|]. split.
  - split; intros E.
    + apply (htonl_injective (host b) _ 0 (u32_range status) ltac:(lia)).
      rewrite E. destruct (host b); reflexivity.
    + rewrite E. destruct (host b); reflexivity.
  - intros e He. split; intros E.
    + rewrite <- E. symmetry. apply ntohl_involutive, u32_range.
    + rewrite E. apply ntohl_involutive, He.
Qed.

Lemma peer_reads_htonl_of_status_witness :
  let b := linux_x86_64 in
  let aop := recording_ops 5 in
  let hdr := kernel_request NBD_CMD_WRITE handle_H 0 4 in
  let w := session [RdData payload_1234] [WrAccept 16] in
  length hdr = 28%nat /\
  wire_magic hdr = NBD_REQUEST_MAGIC /\
  known_type b (wire_type hdr) = true /\
  turn_completes hdr (incoming w) (outgoing w) = true /\
  callback_answer b aop hdr w = Some 5 /\
  exists w',
    serve_request b aop (request_of_bytes (host b) hdr) w = Done Continue w' /\
    let seen :=
      wire_status (skipn (length (sent (trace w))) (sent (trace w'))) in
    seen = htonl (host b) (u32 5) /\
    (seen = 0 <-> u32 5 = 0) /\
    (forall e, 0 <= e < 2 ^ 32 -> seen = e <-> u32 5 = htonl (host b) e).
Proof.
  cbv zeta.
  split; [reflexivity|]. split; [reflexivity|]. split; [reflexivity|].
  split; [reflexivity|]. split; [reflexivity|].
  exact (peer_reads_htonl_of_status linux_x86_64 (recording_ops 5)
           (kernel_request NBD_CMD_WRITE handle_H 0 4)
           (session [RdData payload_1234] [WrAccept 16]) 5
           eq_refl eq_refl eq_refl eq_refl eq_refl).
Defined.

(* ===================================================================== *)
(** * When [buse_main] returns                                            *)
(* ===================================================================== *)

(** The server part returns [EXIT_SUCCESS] or [EXIT_FAILURE], and
    [EXIT_SUCCESS] only when both handlers were installed. *)
Lemma server_return_code {U : Type}
  (b : build) (k : kernel) (aop : buse_operations U) nbd
  (w w' : world U) code :
  server b k aop nbd w = Done code w' ->
  (code = EXIT_SUCCESS \/ code = EXIT_FAILURE) /\
  (code = EXIT_SUCCESS ->
   sigaction_result k SIGINT = 0 /\ sigaction_result k SIGTERM = 0 /\
   open_rdonly_result k <> -1).
Proof.
  assert (Hne : EXIT_FAILURE = EXIT_SUCCESS -> False) by discriminate.
  unfold server, assert.
  destruct (nbd_dev_to_disconnect w =? -1); [|discriminate].
  cbn [bind]. set (w1 := set_nbd_dev_to_disconnect nbd w).
  destruct (_ || _).
  { intros [= <- <-]. split; [auto|]. intros E. destruct (Hne E). }
  destruct (set_sigaction_spec k SIGINT SIG_disconnect_nbd w1)
    as (w2 & E2 & _).
  rewrite E2. cbv beta iota.
  destruct (Z.eqb_spec (sigaction_result k SIGINT) 0) as [Hi|Hi]; cbn [negb].
  2:{ intros [= <- <-]. split; [auto|]. intros E. destruct (Hne E). }
  destruct (set_sigaction_spec k SIGTERM SIG_disconnect_nbd w2)
    as (w3 & E3 & _).
  rewrite E3. cbv beta iota.
  destruct (Z.eqb_spec (sigaction_result k SIGTERM) 0) as [Ht|Ht]; cbn [negb].
  2:{ intros [= <- <-]. split; [auto|]. intros E. destruct (Hne E). }
  destruct (Z.eqb_spec (open_rdonly_result k) (-1)) as [Ho|Ho]; cbn [negb];
    [discriminate|].
  cbn [bind]. set (w4 := emit _ (emit _ w3)).
  destruct (serve_loop_ends b aop (S (weight (incoming w4))) w4 ltac:(lia))
    as (w5 & _ & Hres).
  unfold serve_nbd.
  destruct Hres as [->|[[-> _]| ->]]; intros [= <- <-]; auto.
Qed.

(** X17.  [buse_main] returns in two situations only.  Either the device
    could not be opened: it returns 1 having done nothing but print a
    message.  Or the device was opened, the kernel accepted every geometry
    request that was issued and [NBD_CLEAR_SOCK], and the process is the
    parent of the [fork]: it returns [EXIT_SUCCESS] or [EXIT_FAILURE], and
    [EXIT_SUCCESS] only when both signal handlers were installed.  The
    child of the [fork] never returns from [buse_main], and neither does a
    process whose [socketpair] failed. *)
Theorem buse_main_returns {U : Type}
  (b : build) (k : kernel) (aop : buse_operations U)
  (w w' : world U) (code : Z) :
  buse_main b k aop w = Done code w' ->
  socketpair_result k = 0 /\
  ((open_rdwr_result k = -1 /\ code = 1 /\
    w' = emit (EvStderr Msg_open_failed) w)
   \/
   (open_rdwr_result k <> -1 /\ fork_result k <> 0 /\
    (blksize aop <> 0 -> ioctl_result k Server NBD_SET_BLKSIZE <> -1) /\
    (size aop <> 0 -> ioctl_result k Server NBD_SET_SIZE <> -1) /\
    (size_blocks aop <> 0 ->
     ioctl_result k Server NBD_SET_SIZE_BLOCKS <> -1) /\
    ioctl_result k Server NBD_CLEAR_SOCK <> -1 /\
    (code = EXIT_SUCCESS \/ code = EXIT_FAILURE) /\
    (code = EXIT_SUCCESS ->
     sigaction_result k SIGINT = 0 /\ sigaction_result k SIGTERM = 0 /\
     open_rdonly_result k <> -1))).
Proof.
  assert (Hgeo : forall v r,
            negb (v =? 0) && (r =? -1) = false -> v <> 0 -> r <> -1).
  { intros v r E Hv Hr. subst r.
    destruct (Z.eqb_spec v 0); [contradiction|discriminate]. }
  unfold buse_main. unfold assert at 1.
  destruct (Z.eqb_spec (socketpair_result k) 0) as [Hsp|]; [|discriminate].
  cbn [bind]. intros H. split; [exact Hsp|]. revert H.
  destruct (Z.eqb_spec (open_rdwr_result k) (-1)) as [Ho|Ho].
  { intros [= <- <-]. left. auto. }
  rewrite configure_spec. cbv zeta.
  destruct (negb (blksize aop =? 0)
            && (ioctl_result k Server NBD_SET_BLKSIZE =? -1)) eqn:E1;
    cbn [bind]; [discriminate|].
  rewrite configure_spec. cbv zeta.
  destruct (negb (size aop =? 0)
            && (ioctl_result k Server NBD_SET_SIZE =? -1)) eqn:E2;
    cbn [bind]; [discriminate|].
  rewrite configure_spec. cbv zeta.
  destruct (negb (size_blocks aop =? 0)
            && (ioctl_result k Server NBD_SET_SIZE_BLOCKS =? -1)) eqn:E3;
    cbn [bind]; [discriminate|].
  unfold ioctl, assert.
  destruct (Z.eqb_spec (ioctl_result k Server NBD_CLEAR_SOCK) (-1)) as [Hc|Hc];
    cbn [negb bind]; [discriminate|].
  destruct (Z.eqb_spec (fork_result k) 0) as [Hf|Hf].
  - match goal with
    | |- controller b k ?nbd ?w1 = _ -> _ =>
        destruct (controller_exits b k nbd w1) as (c & wc & -> & _)
    end.
    discriminate.
  - intros Hs. apply server_return_code in Hs. destruct Hs as (Hcode & Hok).
    right. split; [exact Ho|]. split; [exact Hf|].
    split; [exact (Hgeo _ _ E1)|]. split; [exact (Hgeo _ _ E2)|].
    split; [exact (Hgeo _ _ E3)|]. split; [exact Hc|].
    split; [exact Hcode|exact Hok].
Qed.

Lemma buse_main_returns_witness :
  let w := session [RdData (kernel_request NBD_CMD_DISC handle_H 0 0)] [] in
  let k := willing_kernel in
  let aop := recording_ops 0 in
  exists w',
    buse_main linux_x86_64 k aop w = Done EXIT_SUCCESS w' /\
    socketpair_result k = 0 /\
    ((open_rdwr_result k = -1 /\ EXIT_SUCCESS = 1 /\
      w' = emit (EvStderr Msg_open_failed) w)
     \/
     (open_rdwr_result k <> -1 /\ fork_result k <> 0 /\
      (blksize aop <> 0 -> ioctl_result k Server NBD_SET_BLKSIZE <> -1) /\
      (size aop <> 0 -> ioctl_result k Server NBD_SET_SIZE <> -1) /\
      (size_blocks aop <> 0 ->
       ioctl_result k Server NBD_SET_SIZE_BLOCKS <> -1) /\
      ioctl_result k Server NBD_CLEAR_SOCK <> -1 /\
      (EXIT_SUCCESS = EXIT_SUCCESS \/ EXIT_SUCCESS = EXIT_FAILURE) /\
      (EXIT_SUCCESS = EXIT_SUCCESS ->
       sigaction_result k SIGINT = 0 /\ sigaction_result k SIGTERM = 0 /\
       open_rdonly_result k <> -1))).
Proof.
  cbv zeta. eexists.
  assert (H : buse_main linux_x86_64 willing_kernel (recording_ops 0)
                (session [RdData (kernel_request NBD_CMD_DISC handle_H 0 0)] [])
              = Done EXIT_SUCCESS _) by (vm_compute; reflexivity).
  split; [exact H|].
  exact (buse_main_returns linux_x86_64 willing_kernel (recording_ops 0) _ _ _ H).
Defined.
